(** * ccnet user manager: the account service of net/server/user-mgr.c

    A shallow embedding of the EmailUser management code of the ccnet
    server (built with HAVE_LDAP) and the properties of its dual-backend
    account API.

    Reading guide.
    - [Sha1] is the digest computed by OpenSSL's SHA1_Init / SHA1_Update /
      SHA1_Final (FIPS 180-4, section 6.1), on 32-bit words kept in [Z].
    - [Db] is the EmailUser table and the statements over it, with the
      semantics of SQLite, the engine the manager opens by itself.  The
      statements whose text carries only numbers and a digest (the UPDATE,
      the lookup by id, the listing and the count) are kept as the
      statements they denote.  Integers stay in [Z]: the source does no
      arithmetic on them.
    - The statements that carry an email are kept as text: what snprintf
      leaves in the 512-byte buffer, with the email pasted between the
      quotes of '%s' as it is.  How the engine reads a text is a parameter
      of the functions that send one, an [SqlEngine]; [engine_reads] says
      that it reads the statements of user-mgr.c as they are meant when the
      values between their quotes hold no quote, and [reference_engine] is
      such an engine, which reads literals and comments as SQLite does.
    - [Ldap] is the libldap client, as a directory stub that answers from a
      fixed [LdapServer].
    - The functions of user-mgr.c follow under their names, in a state monad
      over the [World]: the table, the clock, the directory, and the trace
      of every statement sent to the engine and every call made to the
      directory. *)

From Stdlib Require Import ZArith List String Ascii Bool Lia.
From Stdlib Require Import DecimalString DecimalZ DecimalPos.
Import ListNotations.

Local Open Scope string_scope.
Local Open Scope Z_scope.

(* ================================================================== *)
(** ** SHA-1 (openssl/sha.h) *)

Module Sha1.

Definition word_mod : Z := 2 ^ 32.

Definition add32 (x y : Z) : Z := (x + y) mod word_mod.

Definition rol (n x : Z) : Z :=
  Z.lor (Z.shiftl x n mod word_mod) (Z.shiftr x (32 - n)).

Definition not32 (x : Z) : Z := word_mod - 1 - x.

(** The chaining value h0..h4 of SHA_CTX. *)
Record SHA_CTX : Type := mkCtx { h0 : Z; h1 : Z; h2 : Z; h3 : Z; h4 : Z }.

Definition SHA1_Init : SHA_CTX :=
  mkCtx 0x67452301 0xEFCDAB89 0x98BADCFE 0x10325476 0xC3D2E1F0.

(** Round function and constant of round [t]. *)
Definition f_t (t : nat) (b c d : Z) : Z :=
  if (t <? 20)%nat then Z.lor (Z.land b c) (Z.land (not32 b) d)
  else if (t <? 40)%nat then Z.lxor (Z.lxor b c) d
  else if (t <? 60)%nat then
    Z.lor (Z.lor (Z.land b c) (Z.land b d)) (Z.land c d)
  else Z.lxor (Z.lxor b c) d.

Definition k_t (t : nat) : Z :=
  if (t <? 20)%nat then 0x5A827999
  else if (t <? 40)%nat then 0x6ED9EBA1
  else if (t <? 60)%nat then 0x8F1BBCDC
  else 0xCA62C1D6.

(** Big-endian packing of the message bytes into 32-bit words. *)
Fixpoint words_of_bytes (bs : list Z) : list Z :=
  match bs with
  | b0 :: b1 :: b2 :: b3 :: rest =>
      (b0 * 2 ^ 24 + b1 * 2 ^ 16 + b2 * 2 ^ 8 + b3) :: words_of_bytes rest
  | _ => []
  end.

Definition bytes_of_word (w : Z) : list Z :=
  [ Z.shiftr w 24 mod 256; Z.shiftr w 16 mod 256;
    Z.shiftr w 8 mod 256; w mod 256 ].

(** Message schedule.  [recent] holds the words computed so far, the most
    recent first; W(t) = ROTL1 (W(t-3) xor W(t-8) xor W(t-14) xor W(t-16)). *)
Fixpoint schedule (n : nat) (recent : list Z) : list Z :=
  match n with
  | O => recent
  | S n' =>
      let w := rol 1 (Z.lxor (Z.lxor (Z.lxor (nth 2 recent 0)
                                             (nth 7 recent 0))
                                     (nth 13 recent 0))
                             (nth 15 recent 0)) in
      schedule n' (w :: recent)
  end.

Definition expand (block : list Z) : list Z :=
  rev (schedule 64 (rev block)).

(** The eighty rounds over the working variables a..e. *)
Fixpoint rounds (t : nat) (ws : list Z) (v : SHA_CTX) : SHA_CTX :=
  match ws with
  | [] => v
  | w :: ws' =>
      let '(mkCtx a b c d e) := v in
      let tmp := add32 (add32 (add32 (add32 (rol 5 a) (f_t t b c d)) e)
                              (k_t t)) w in
      rounds (S t) ws' (mkCtx tmp a (rol 30 b) c d)
  end.

Definition compress (h : SHA_CTX) (block : list Z) : SHA_CTX :=
  let v := rounds 0 (expand block) h in
  mkCtx (add32 (h0 h) (h0 v)) (add32 (h1 h) (h1 v)) (add32 (h2 h) (h2 v))
        (add32 (h3 h) (h3 v)) (add32 (h4 h) (h4 v)).

(** Padding: 0x80, zero bytes up to 56 modulo 64, then the bit length as
    a 64-bit big-endian integer. *)
Definition pad (msg : list Z) : list Z :=
  let len := Z.of_nat (List.length msg) in
  let zeros := Z.to_nat ((55 - len) mod 64) in
  let bits := (8 * len) mod 2 ^ 64 in
  msg ++ [0x80] ++ repeat 0 zeros
      ++ bytes_of_word (Z.shiftr bits 32) ++ bytes_of_word (bits mod word_mod).

Fixpoint blocks (fuel : nat) (ws : list Z) (h : SHA_CTX) : SHA_CTX :=
  match fuel, ws with
  | S fuel', _ :: _ => blocks fuel' (skipn 16 ws) (compress h (firstn 16 ws))
  | _, _ => h
  end.

(** SHA1_Update over the whole message followed by SHA1_Final: the
    twenty bytes of the digest. *)
Definition SHA1 (msg : list Z) : list Z :=
  let ws := words_of_bytes (pad msg) in
  let h := blocks (List.length ws) ws SHA1_Init in
  bytes_of_word (h0 h) ++ bytes_of_word (h1 h) ++ bytes_of_word (h2 h)
    ++ bytes_of_word (h3 h) ++ bytes_of_word (h4 h).

End Sha1.

(* ================================================================== *)
(** ** utils.h *)

Module Utils.

Definition hex_digit (n : Z) : ascii :=
  ascii_of_nat (Z.to_nat (if n <? 10 then 48 + n else 87 + n)).

(** Modelled from the spec: rawdata_to_hex of utils.c is not part of the
    sources at hand; a 20-byte digest becomes 40 hexadecimal characters,
    two per byte, high nibble first. *)
Fixpoint rawdata_to_hex (rawdata : list Z) : string :=
  match rawdata with
  | [] => EmptyString
  | b :: rest =>
      String (hex_digit (b / 16))
             (String (hex_digit (b mod 16)) (rawdata_to_hex rest))
  end.

(** The bytes of a C string. *)
Fixpoint bytes_of_string (s : string) : list Z :=
  match s with
  | EmptyString => []
  | String c s' => Z.of_nat (nat_of_ascii c) :: bytes_of_string s'
  end.

End Utils.

Definition hash_password (passwd : string) : string :=
  Utils.rawdata_to_hex (Sha1.SHA1 (Utils.bytes_of_string passwd)).

Arguments hash_password : simpl never.

(* ================================================================== *)
(** ** The EmailUser table behind ccnet-db.h *)

Module Db.

(** A row of EmailUser, with the columns of check_db_table in their
    order of declaration. *)
Record EmailUserRow : Type := mkRow {
  row_id : Z;
  row_email : string;
  row_passwd : string;
  row_is_staff : Z;
  row_is_active : Z;
  row_ctime : Z
}.

(** The table in storage (rowid) order, and the AUTOINCREMENT sequence:
    the largest id handed out so far. *)
Record CcnetDB : Type := mkDB {
  db_rows : list EmailUserRow;
  db_seq : Z
}.

Inductive Column : Type :=
| col_id | col_email | col_passwd | col_is_staff | col_is_active | col_ctime.

(** The three WHERE clauses of user-mgr.c, and whatever else the text
    after WHERE may say of a row. *)
Inductive Condition : Type :=
| WHERE_email (email : string)                      (* email='%s' *)
| WHERE_email_AND_passwd (email passwd : string)    (* email='%s' AND passwd='%s' *)
| WHERE_id (id : Z)                                 (* id='%d' *)
| WHERE_other (test : EmailUserRow -> bool).

Inductive Projection : Type :=
| Columns (cols : list Column)                      (* SELECT c1, c2, ... *)
| Star                                              (* SELECT * *)
| CountStar.                                        (* SELECT COUNT( * ) *)

(** SELECT .. FROM EmailUser [WHERE ..] [LIMIT start, limit]. *)
Record Select : Type := SELECT {
  sel_what : Projection;
  sel_where : option Condition;
  sel_limit : option (Z * Z)
}.

Inductive Statement : Type :=
| INSERT (email passwd : string) (is_staff is_active ctime : Z)
    (* INSERT INTO EmailUser(email, passwd, is_staff, is_active, ctime)
       VALUES ('%s', '%s', '%d', '%d', %lld) *)
| DELETE (cond : Condition)
    (* DELETE FROM EmailUser WHERE .. *)
| UPDATE (passwd : string) (is_staff is_active : Z) (cond : Condition).
    (* UPDATE EmailUser SET passwd='%s', is_staff='%d', is_active='%d'
       WHERE .. *)

(** What a result row holds in each column. *)
Inductive SqlValue : Type :=
| SqlInt (n : Z)
| SqlText (s : string).

Definition CcnetDBRow : Type := list SqlValue.

Definition holds (cond : Condition) (r : EmailUserRow) : bool :=
  match cond with
  | WHERE_email e => String.eqb (row_email r) e
  | WHERE_email_AND_passwd e p =>
      String.eqb (row_email r) e && String.eqb (row_passwd r) p
  | WHERE_id i => row_id r =? i
  | WHERE_other test => test r
  end.

Definition column (r : EmailUserRow) (c : Column) : SqlValue :=
  match c with
  | col_id => SqlInt (row_id r)
  | col_email => SqlText (row_email r)
  | col_passwd => SqlText (row_passwd r)
  | col_is_staff => SqlInt (row_is_staff r)
  | col_is_active => SqlInt (row_is_active r)
  | col_ctime => SqlInt (row_ctime r)
  end.

Definition all_columns : list Column :=
  [col_id; col_email; col_passwd; col_is_staff; col_is_active; col_ctime].

Definition selected (cond : option Condition) (rows : list EmailUserRow)
  : list EmailUserRow :=
  match cond with
  | Some c => filter (holds c) rows
  | None => rows
  end.

(** LIMIT start, limit: skip [start] rows, then keep [limit] of them; a
    negative offset skips nothing and a negative limit keeps them all. *)
Definition page (lim : option (Z * Z)) (rows : list EmailUserRow)
  : list EmailUserRow :=
  match lim with
  | None => rows
  | Some (start, limit) =>
      let rest := skipn (Z.to_nat start) rows in
      if limit <? 0 then rest else firstn (Z.to_nat limit) rest
  end.

Definition project (what : Projection) (rows : list EmailUserRow)
  : list CcnetDBRow :=
  match what with
  | Columns cols => map (fun r => map (column r) cols) rows
  | Star => map (fun r => map (column r) all_columns) rows
  | CountStar => [[SqlInt (Z.of_nat (List.length rows))]]
  end.

Definition run_select (q : Select) (db : CcnetDB) : list CcnetDBRow :=
  project (sel_what q) (page (sel_limit q) (selected (sel_where q) (db_rows db))).

Definition max_id (rows : list EmailUserRow) : Z :=
  fold_right (fun r m => Z.max (row_id r) m) 0 rows.

Definition set_credentials (passwd : string) (is_staff is_active : Z)
           (r : EmailUserRow) : EmailUserRow :=
  mkRow (row_id r) (row_email r) passwd is_staff is_active (row_ctime r).

(** One statement against the table: the result code of the engine (0,
    or -1 when the unique index on email rejects the row) and the table
    afterwards. *)
Definition execute (stmt : Statement) (db : CcnetDB) : Z * CcnetDB :=
  match stmt with
  | INSERT email passwd is_staff is_active ctime =>
      if existsb (holds (WHERE_email email)) (db_rows db) then (-1, db)
      else
        let id := Z.max (db_seq db) (max_id (db_rows db)) + 1 in
        (0, mkDB (db_rows db ++ [mkRow id email passwd is_staff is_active ctime])
                 id)
  | DELETE cond =>
      (0, mkDB (filter (fun r => negb (holds cond r)) (db_rows db)) (db_seq db))
  | UPDATE passwd is_staff is_active cond =>
      (0, mkDB (map (fun r => if holds cond r
                              then set_credentials passwd is_staff is_active r
                              else r)
                    (db_rows db))
               (db_seq db))
  end.

Fixpoint distinct {A : Type} (eqb : A -> A -> bool) (l : list A) : bool :=
  match l with
  | [] => true
  | x :: l' => negb (existsb (eqb x) l') && distinct eqb l'
  end.

(** The constraints of the schema: PRIMARY KEY on id, unique index on
    email. *)
Definition schema_ok (db : CcnetDB) : bool :=
  distinct Z.eqb (map row_id (db_rows db))
  && distinct String.eqb (map row_email (db_rows db)).

End Db.

(* ================================================================== *)
(** ** The directory behind ldap.h *)

Module Ldap.

Definition LDAP_SUCCESS : Z := 0.
Definition LDAP_OPT_SUCCESS : Z := 0.

(** An entry of a search result: its distinguished name and the values
    of its first attribute.  Every search of user-mgr.c asks for the one
    attribute its filter tests, so an entry that is returned has a value
    for it: [entry_val0] is vals[0]. *)
Record LDAPEntry : Type := mkEntry {
  entry_dn : string;
  entry_val0 : string;
  entry_vals : list string
}.

(** The directory: what it answers to each libldap call. *)
Record LdapServer : Type := mkServer {
  srv_initialize : string -> Z;
  srv_set_option : Z;
  srv_bind_s : string -> option string -> Z;
  srv_search_s : string -> string -> list string -> Z * list LDAPEntry
}.

(** The calls made to libldap, as the stub records them. *)
Inductive Call : Type :=
| call_initialize (uri : string)
| call_set_option
| call_bind_s (dn : string) (passwd : option string)
| call_search_s (base filter : string) (attrs : list string)
| call_unbind_s.

(** The handle of an open session. *)
Definition LDAP : Type := string.

End Ldap.

(* ================================================================== *)
(** ** State of the process and of its collaborators *)

(** What leaves the process: a statement for the engine or a call to the
    directory. *)
Inductive Event : Type :=
| sql_select (sql : Db.Select)
| sql_statement (sql : Db.Statement)
| sql_text (sql : string)
| ldap_call (call : Ldap.Call).

Record World : Type := mkWorld {
  w_db : Db.CcnetDB;              (* manager->priv->db *)
  w_clock : Z;                    (* what get_current_time reads *)
  w_directory : Ldap.LdapServer;  (* the server behind manager->ldap_host *)
  w_trace : list Event            (* statements and calls so far, latest first *)
}.

Definition M (A : Type) : Type := World -> A * World.

Definition ret {A : Type} (a : A) : M A := fun w => (a, w).

Definition bind {A B : Type} (m : M A) (k : A -> M B) : M B :=
  fun w => let (a, w') := m w in k a w'.

Declare Scope monad_scope.
Delimit Scope monad_scope with monad.
Notation "x <- c ;; k" := (bind c (fun x => k))
  (at level 61, c at next level, right associativity) : monad_scope.
Notation "' p <- c ;; k" := (bind c (fun x => let p := x in k))
  (at level 61, p pattern, c at next level, right associativity) : monad_scope.
Notation "c ;;; k" := (bind c (fun _ => k))
  (at level 61, right associativity) : monad_scope.
Local Open Scope monad_scope.

Definition set_db (w : World) (db : Db.CcnetDB) : World :=
  mkWorld db (w_clock w) (w_directory w) (w_trace w).

Definition record (e : Event) (w : World) : World :=
  mkWorld (w_db w) (w_clock w) (w_directory w) (e :: w_trace w).

Definition record_call (c : Ldap.Call) (w : World) : World :=
  record (ldap_call c) w.

(** The calls made to the directory so far, latest first. *)
Definition directory_calls (w : World) : list Ldap.Call :=
  flat_map (fun e => match e with ldap_call c => [c] | _ => [] end) (w_trace w).

Definition get_current_time : M Z := fun w => (w_clock w, w).

(* ================================================================== *)
(** ** ccnet-db.h: the query interface *)

(** Modelled from the spec: ccnet-db.c is not part of the sources at hand;
    execute(sql) -> success/failure, here 0 or -1. *)
Definition ccnet_db_query (sql : Db.Statement) : M Z :=
  fun w => let (rc, db') := Db.execute sql (w_db w) in
           (rc, set_db (record (sql_statement sql) w) db').

(** Rows handed to a callback one by one until it answers FALSE; [n] counts
    the rows handed over. *)
Fixpoint foreach_row {A : Type} (callback : Db.CcnetDBRow -> A -> bool * A)
         (rows : list Db.CcnetDBRow) (n : Z) (data : A) : Z * A :=
  match rows with
  | [] => (n, data)
  | row :: rows' =>
      let (more, data') := callback row data in
      if more then foreach_row callback rows' (n + 1) data' else (n + 1, data')
  end.

(** Modelled from the spec: queryRows(sql, rowCallback) -> rowCount or
    failure.  [data] is what the callback reaches through its pointer; it
    is returned next to the count. *)
Definition ccnet_db_foreach_selected_row {A : Type} (sql : Db.Select)
           (callback : Db.CcnetDBRow -> A -> bool * A) (data : A) : M (Z * A) :=
  fun w => (foreach_row callback (Db.run_select sql (w_db w)) 0 data,
            record (sql_select sql) w).

Definition ccnet_db_row_get_column_int (row : Db.CcnetDBRow) (idx : nat) : Z :=
  match nth_error row idx with
  | Some (Db.SqlInt n) => n
  | _ => 0
  end.

Definition ccnet_db_row_get_column_int64 (row : Db.CcnetDBRow) (idx : nat) : Z :=
  ccnet_db_row_get_column_int row idx.

Definition ccnet_db_row_get_column_text (row : Db.CcnetDBRow) (idx : nat)
  : string :=
  match nth_error row idx with
  | Some (Db.SqlText s) => s
  | _ => EmptyString
  end.

(** Modelled from the spec: queryScalarInt64(sql) -> int64, the first
    column of the first row, -1 without one. *)
Definition ccnet_db_get_int64 (sql : Db.Select) : M Z :=
  fun w => (match Db.run_select sql (w_db w) with
            | row :: _ => ccnet_db_row_get_column_int64 row 0
            | [] => -1
            end, record (sql_select sql) w).

(* ================================================================== *)
(** ** Statements sent as text *)

(** snprintf (sql, size, ...): the formatted text, cut to the size - 1
    characters the buffer has room for. *)
Definition snprintf (size : nat) (text : string) : string :=
  substring 0 (size - 1) text.

(** Whether the formatted text reaches the engine whole. *)
Definition fits (size : nat) (text : string) : bool :=
  (String.length text <? size)%nat.

(** The conversions %d and %lld. *)
Definition decimal (n : Z) : string := NilEmpty.string_of_int (Z.to_int n).

Fixpoint lacks (c : ascii) (s : string) : bool :=
  match s with
  | EmptyString => true
  | String d s' => negb (Ascii.eqb d c) && lacks c s'
  end.

(** A value that stands for itself between the quotes of '%s': it holds
    no quote, the one character that has a meaning inside a literal of
    SQLite. *)
Definition plain (s : string) : bool := lacks "'" s.

(** Modelled from the spec: the engine behind ccnet-db.c is not part of the
    sources at hand.  It reads the text of a query or of a statement as one
    over the EmailUser table, or refuses it (a syntax error). *)
Record SqlEngine : Type := mkSqlEngine {
  engine_select : string -> option Db.Select;
  engine_statement : string -> option Db.Statement
}.

(** Modelled from the spec: execute(sql) -> success/failure, on the text
    as it is sent: the statement the engine reads in it is executed; -1
    when the engine refuses the text. *)
Definition ccnet_db_query_sql (engine : SqlEngine) (sql : string) : M Z :=
  fun w => match engine_statement engine sql with
           | Some statement =>
               let (rc, db') := Db.execute statement (w_db w) in
               (rc, set_db (record (sql_text sql) w) db')
           | None => (-1, record (sql_text sql) w)
           end.

(** Modelled from the spec: queryRows(sql, rowCallback) -> rowCount or
    failure, on the text as it is sent: -1, and no call of the callback,
    when the engine refuses the text. *)
Definition ccnet_db_foreach_selected_row_sql {A : Type} (engine : SqlEngine)
           (sql : string) (callback : Db.CcnetDBRow -> A -> bool * A) (data : A)
  : M (Z * A) :=
  fun w => (match engine_select engine sql with
            | Some query => foreach_row callback (Db.run_select query (w_db w)) 0 data
            | None => (-1, data)
            end, record (sql_text sql) w).

(** Modelled from the spec: whether the query of the text selects a row
    at all; FALSE when the engine refuses the text. *)
Definition ccnet_db_check_for_existence (engine : SqlEngine) (sql : string)
  : M bool :=
  fun w => (match engine_select engine sql with
            | Some query =>
                match Db.run_select query (w_db w) with [] => false | _ => true end
            | None => false
            end, record (sql_text sql) w).

(* ================================================================== *)
(** ** ldap.h: the calls of libldap *)

Definition ldap_initialize (uri : string) : M Z :=
  fun w => (Ldap.srv_initialize (w_directory w) uri,
            record_call (Ldap.call_initialize uri) w).

Definition ldap_set_option : M Z :=
  fun w => (Ldap.srv_set_option (w_directory w),
            record_call Ldap.call_set_option w).

Definition ldap_bind_s (dn : string) (passwd : option string) : M Z :=
  fun w => (Ldap.srv_bind_s (w_directory w) dn passwd,
            record_call (Ldap.call_bind_s dn passwd) w).

Definition ldap_search_s (base filter : string) (attrs : list string)
  : M (Z * list Ldap.LDAPEntry) :=
  fun w => (Ldap.srv_search_s (w_directory w) base filter attrs,
            record_call (Ldap.call_search_s base filter attrs) w).

Definition ldap_unbind_s (ld : Ldap.LDAP) : M unit :=
  fun w => (tt, record_call Ldap.call_unbind_s w).

Definition ldap_first_entry (msg : list Ldap.LDAPEntry) : option Ldap.LDAPEntry :=
  hd_error msg.

Definition ldap_count_entries (msg : list Ldap.LDAPEntry) : Z :=
  Z.of_nat (List.length msg).

(* ================================================================== *)
(** ** user-mgr.c *)

Record CcnetUserManager : Type := mkManager {
  use_ldap : bool;
  ldap_host : string;
  base : string;
  user_dn : option string;     (* NULL: anonymous *)
  password : option string;
  login_attr : string
}.

(** The properties of a CcnetEmailUser object; is_staff and is_active are
    gboolean properties. *)
Record CcnetEmailUser : Type := mkEmailUser {
  user_id : Z;
  user_email : string;
  user_is_staff : bool;
  user_is_active : bool;
  user_ctime : Z
}.

(** A C int read as a truth value. *)
Definition gboolean (n : Z) : bool := negb (n =? 0).

Definition FALSE : Z := 0.
Definition TRUE : Z := 1.

(** g_object_new (CCNET_TYPE_EMAIL_USER, "id", .., "email", .., "is_staff",
    .., "is_active", .., "ctime", .., NULL). *)
Definition ccnet_email_user_new (id : Z) (email : string)
           (is_staff is_active : Z) (ctime : Z) : CcnetEmailUser :=
  mkEmailUser id email (gboolean is_staff) (gboolean is_active) ctime.

(** The getter, on the pointer its callers hold; they read it only after
    the row callback has set it. *)
Definition ccnet_email_user_get_is_staff (emailuser : option CcnetEmailUser)
  : bool :=
  match emailuser with
  | Some user => user_is_staff user
  | None => false
  end.

(** -------- LDAP related --------- *)

Definition ldap_init_and_bind (host : string) (user_dn password : option string)
  : M (option Ldap.LDAP) :=
  res <- ldap_initialize host ;;
  if negb (res =? Ldap.LDAP_SUCCESS) then ret None
  else
    (* set the LDAP version to be 3 *)
    res <- ldap_set_option ;;
    if negb (res =? Ldap.LDAP_OPT_SUCCESS) then ret None
    else
      match user_dn with
      | Some dn =>
          res <- ldap_bind_s dn password ;;
          if negb (res =? Ldap.LDAP_SUCCESS)
          then ldap_unbind_s host ;;; ret None
          else ret (Some host)
      | None => ret (Some host)
      end.

(** "(%s=%s)" of login_attr and uid. *)
Definition ldap_filter (manager : CcnetUserManager) (uid : string) : string :=
  "(" ++ login_attr manager ++ "=" ++ uid ++ ")".

Definition ldap_verify_user_password (manager : CcnetUserManager)
           (uid passwd : string) : M Z :=
  (* First search for the DN with the given uid. *)
  ld <- ldap_init_and_bind (ldap_host manager) (user_dn manager)
                           (password manager) ;;
  match ld with
  | None => ret (-1)
  | Some ld =>
      let filter_str := ldap_filter manager uid in
      let attrs := [login_attr manager] in
      '(res, msg) <- ldap_search_s (base manager) filter_str attrs ;;
      if negb (res =? Ldap.LDAP_SUCCESS) then ldap_unbind_s ld ;;; ret (-1)
      else
        match ldap_first_entry msg with
        | None => ldap_unbind_s ld ;;; ret (-1)
        | Some entry =>
            let dn := Ldap.entry_dn entry in
            (* Then bind the DN with password. *)
            ldap_unbind_s ld ;;;
            ld <- ldap_init_and_bind (ldap_host manager) (Some dn) (Some passwd) ;;
            match ld with
            | None => ret (-1)
            | Some ld => ldap_unbind_s ld ;;; ret 0
            end
        end
  end.

(** The object built for one entry of the result. *)
Definition ldap_user (entry : Ldap.LDAPEntry) : CcnetEmailUser :=
  ccnet_email_user_new 0 (Ldap.entry_val0 entry) FALSE TRUE 0.

(** uid: user's uid, list all users if * is passed in. *)
Definition ldap_list_users (manager : CcnetUserManager) (uid : string)
  : M (list CcnetEmailUser) :=
  ld <- ldap_init_and_bind (ldap_host manager) (user_dn manager)
                           (password manager) ;;
  match ld with
  | None => ret []
  | Some ld =>
      let filter_str := ldap_filter manager uid in
      let attrs := [login_attr manager] in
      '(res, msg) <- ldap_search_s (base manager) filter_str attrs ;;
      if negb (res =? Ldap.LDAP_SUCCESS) then ldap_unbind_s ld ;;; ret []
      else
        let users :=
          fold_left (fun users entry => ldap_user entry :: users) msg [] in
        ldap_unbind_s ld ;;; ret users
  end.

(** uid: user's uid, list all users if * is passed in. *)
Definition ldap_count_users (manager : CcnetUserManager) (uid : string) : M Z :=
  ld <- ldap_init_and_bind (ldap_host manager) (user_dn manager)
                           (password manager) ;;
  match ld with
  | None => ret (-1)
  | Some ld =>
      let filter_str := ldap_filter manager uid in
      let attrs := [login_attr manager] in
      '(res, msg) <- ldap_search_s (base manager) filter_str attrs ;;
      if negb (res =? Ldap.LDAP_SUCCESS) then ldap_unbind_s ld ;;; ret (-1)
      else
        let count := ldap_count_entries msg in
        ldap_unbind_s ld ;;; ret count
  end.

(** -------- EmailUser Management -------- *)

(** "INSERT INTO EmailUser(email, passwd, is_staff, is_active, ctime)
    VALUES ('%s', '%s', '%d', '%d', %lld)" with its arguments. *)
Definition insert_emailuser_sql (email hashed_passwd : string)
           (is_staff is_active now : Z) : string :=
  "INSERT INTO EmailUser(email, passwd, is_staff, is_active, ctime) VALUES ('"
  ++ email ++ "', '" ++ hashed_passwd ++ "', '" ++ decimal is_staff ++ "', '"
  ++ decimal is_active ++ "', " ++ decimal now ++ ")".

Definition ccnet_user_manager_add_emailuser (engine : SqlEngine)
           (manager : CcnetUserManager)
           (email passwd : string) (is_staff is_active : Z) : M Z :=
  now <- get_current_time ;;
  if use_ldap manager then ret 0
  else
    let hashed_passwd := hash_password passwd in
    let sql :=
      snprintf 512 (insert_emailuser_sql email hashed_passwd is_staff is_active
                                         now) in
    ccnet_db_query_sql engine sql.

(** "DELETE FROM EmailUser WHERE email='%s'" with its argument. *)
Definition delete_emailuser_sql (email : string) : string :=
  "DELETE FROM EmailUser WHERE email='" ++ email ++ "'".

Definition ccnet_user_manager_remove_emailuser (engine : SqlEngine)
           (manager : CcnetUserManager) (email : string) : M Z :=
  if use_ldap manager then ret 0
  else
    let sql := snprintf 512 (delete_emailuser_sql email) in
    ccnet_db_query_sql engine sql.

(** The columns of "SELECT id, email, is_staff, is_active, ctime". *)
Definition emailuser_columns : Db.Projection :=
  Db.Columns [Db.col_id; Db.col_email; Db.col_is_staff; Db.col_is_active;
              Db.col_ctime].

Definition get_emailuser_cb (row : Db.CcnetDBRow)
           (p_emailuser : option CcnetEmailUser)
  : bool * option CcnetEmailUser :=
  let id := ccnet_db_row_get_column_int row 0 in
  let email := ccnet_db_row_get_column_text row 1 in
  let is_staff := ccnet_db_row_get_column_int row 2 in
  let is_active := ccnet_db_row_get_column_int row 3 in
  let ctime := ccnet_db_row_get_column_int64 row 4 in
  (false, Some (ccnet_email_user_new id email is_staff is_active ctime)).

(** "SELECT id, email, is_staff, is_active, ctime FROM EmailUser WHERE
    email='%s' AND passwd='%s'" with its arguments. *)
Definition select_emailuser_passwd_sql (email hashed_passwd : string) : string :=
  "SELECT id, email, is_staff, is_active, ctime FROM EmailUser WHERE email='"
  ++ email ++ "' AND passwd='" ++ hashed_passwd ++ "'".

(** "SELECT email FROM EmailUser WHERE email='%s' AND passwd='%s'" with its
    arguments. *)
Definition select_email_passwd_sql (email hashed_passwd : string) : string :=
  "SELECT email FROM EmailUser WHERE email='"
  ++ email ++ "' AND passwd='" ++ hashed_passwd ++ "'".

Definition ccnet_user_manager_validate_emailuser (engine : SqlEngine)
           (manager : CcnetUserManager) (email passwd : string) : M Z :=
  let hashed_passwd := hash_password passwd in
  if use_ldap manager then
    let sql := snprintf 512 (select_emailuser_passwd_sql email hashed_passwd) in
    '(n, emailuser) <-
       ccnet_db_foreach_selected_row_sql engine sql get_emailuser_cb None ;;
    if (n >? 0) && ccnet_email_user_get_is_staff emailuser then ret 0
    else ldap_verify_user_password manager email passwd
  else
    let sql := snprintf 512 (select_email_passwd_sql email hashed_passwd) in
    found <- ccnet_db_check_for_existence engine sql ;;
    if found then ret 0 else ret (-1).

(** "SELECT id, email, is_staff, is_active, ctime FROM EmailUser WHERE
    email='%s'" with its argument. *)
Definition select_emailuser_sql (email : string) : string :=
  "SELECT id, email, is_staff, is_active, ctime FROM EmailUser WHERE email='"
  ++ email ++ "'".

Definition ccnet_user_manager_get_emailuser (engine : SqlEngine)
           (manager : CcnetUserManager) (email : string)
  : M (option CcnetEmailUser) :=
  if use_ldap manager then
    (* Lookup admin first. *)
    let sql := snprintf 512 (select_emailuser_sql email) in
    '(n, emailuser) <-
       ccnet_db_foreach_selected_row_sql engine sql get_emailuser_cb None ;;
    if (n >? 0) && ccnet_email_user_get_is_staff emailuser then ret emailuser
    else
      users <- ldap_list_users manager email ;;
      match users with
      | [] => ret None
      | emailuser :: _ =>
          (* Free all except the first user. *)
          ret (Some emailuser)
      end
  else
    let sql := snprintf 512 (select_emailuser_sql email) in
    '(n, emailuser) <-
       ccnet_db_foreach_selected_row_sql engine sql get_emailuser_cb None ;;
    if n <? 0 then ret None else ret emailuser.

Definition ccnet_user_manager_get_emailuser_by_id (manager : CcnetUserManager)
           (id : Z) : M (option CcnetEmailUser) :=
  if use_ldap manager then ret None
  else
    '(n, emailuser) <-
       ccnet_db_foreach_selected_row
         (Db.SELECT emailuser_columns (Some (Db.WHERE_id id)) None)
         get_emailuser_cb None ;;
    if n <? 0 then ret None else ret emailuser.

Definition get_emailusers_cb (row : Db.CcnetDBRow) (plist : list CcnetEmailUser)
  : bool * list CcnetEmailUser :=
  let id := ccnet_db_row_get_column_int row 0 in
  let email := ccnet_db_row_get_column_text row 1 in
  let is_staff := ccnet_db_row_get_column_int row 3 in
  let is_active := ccnet_db_row_get_column_int row 4 in
  let ctime := ccnet_db_row_get_column_int64 row 5 in
  (true, ccnet_email_user_new id email is_staff is_active ctime :: plist).

Definition ccnet_user_manager_get_emailusers (manager : CcnetUserManager)
           (start limit : Z) : M (list CcnetEmailUser) :=
  (* Assuming admin user is in LDAP database too.
     is_staff is not set here. *)
  if use_ldap manager then ldap_list_users manager "*"
  else
    let sql :=
      if (start =? -1) && (limit =? -1)
      then Db.SELECT Db.Star None None
      else Db.SELECT Db.Star None (Some (start, limit)) in
    '(n, ret_list) <- ccnet_db_foreach_selected_row sql get_emailusers_cb [] ;;
    if n <? 0 then ret [] else ret (rev ret_list).

Definition ccnet_user_manager_count_emailusers (manager : CcnetUserManager)
  : M Z :=
  if use_ldap manager then ldap_count_users manager "*"
  else ccnet_db_get_int64 (Db.SELECT Db.CountStar None None).

Definition ccnet_user_manager_update_emailuser (manager : CcnetUserManager)
           (id : Z) (passwd : string) (is_staff is_active : Z) : M Z :=
  if negb (use_ldap manager) || gboolean is_staff then
    let hashed_passwd := hash_password passwd in
    ccnet_db_query (Db.UPDATE hashed_passwd is_staff is_active (Db.WHERE_id id))
  else ret 0.

(* ================================================================== *)
(** ** Vocabulary of the properties *)

(** The object that get_emailuser_cb and get_emailusers_cb build from a
    row of the table. *)
Definition emailuser_of_row (r : Db.EmailUserRow) : CcnetEmailUser :=
  mkEmailUser (Db.row_id r) (Db.row_email r) (gboolean (Db.row_is_staff r))
              (gboolean (Db.row_is_active r)) (Db.row_ctime r).

Definition row_is_staff_set (r : Db.EmailUserRow) : bool :=
  gboolean (Db.row_is_staff r).

(** Whether the directory lets a session be opened and bound to [dn]
    ([None]: anonymous, no bind is made). *)
Definition session_opens (srv : Ldap.LdapServer) (host : string)
           (dn passwd : option string) : bool :=
  (Ldap.srv_initialize srv host =? Ldap.LDAP_SUCCESS)
  && (Ldap.srv_set_option srv =? Ldap.LDAP_OPT_SUCCESS)
  && match dn with
     | Some dn => Ldap.srv_bind_s srv dn passwd =? Ldap.LDAP_SUCCESS
     | None => true
     end.

(** What the directory answers to the service bind followed by the search
    for [uid]: [None] when the session cannot be opened, the bind is
    refused or the search fails, the entries found otherwise. *)
Definition directory_search (manager : CcnetUserManager) (uid : string)
           (srv : Ldap.LdapServer) : option (list Ldap.LDAPEntry) :=
  if session_opens srv (ldap_host manager) (user_dn manager) (password manager)
  then
    let (res, msg) := Ldap.srv_search_s srv (base manager)
                        (ldap_filter manager uid) [login_attr manager] in
    if res =? Ldap.LDAP_SUCCESS then Some msg else None
  else None.

(** The two lookups that precede delegation, as the engine receives
    them. *)
Definition lookup_credentials (email hashed_passwd : string) : Event :=
  sql_text (snprintf 512 (select_emailuser_passwd_sql email hashed_passwd)).

Definition lookup_email (email : string) : Event :=
  sql_text (snprintf 512 (select_emailuser_sql email)).

(** An engine that reads the five statements with an email as they are
    meant, when the values between their quotes hold no quote. *)
Record engine_reads (engine : SqlEngine) : Prop := mk_engine_reads {
  reads_insert :
    forall (email passwd : string) (is_staff is_active ctime : Z),
      plain email = true -> plain passwd = true ->
      engine_statement engine
        (insert_emailuser_sql email passwd is_staff is_active ctime)
      = Some (Db.INSERT email passwd is_staff is_active ctime);
  reads_delete :
    forall email : string,
      plain email = true ->
      engine_statement engine (delete_emailuser_sql email)
      = Some (Db.DELETE (Db.WHERE_email email));
  reads_select_emailuser :
    forall email : string,
      plain email = true ->
      engine_select engine (select_emailuser_sql email)
      = Some (Db.SELECT emailuser_columns (Some (Db.WHERE_email email)) None);
  reads_select_emailuser_passwd :
    forall email passwd : string,
      plain email = true -> plain passwd = true ->
      engine_select engine (select_emailuser_passwd_sql email passwd)
      = Some (Db.SELECT emailuser_columns
                        (Some (Db.WHERE_email_AND_passwd email passwd)) None);
  reads_select_email_passwd :
    forall email passwd : string,
      plain email = true -> plain passwd = true ->
      engine_select engine (select_email_passwd_sql email passwd)
      = Some (Db.SELECT (Db.Columns [Db.col_email])
                        (Some (Db.WHERE_email_AND_passwd email passwd)) None)
}.

(** *** A reference engine

    It reads the five statements with an email, and what an email with a
    quote turns them into within the fragment of SQL below, as SQLite
    does: a literal runs from its opening quote to the next quote that is
    not doubled (two quotes in a row stand for one quote of the value);
    two dashes outside a literal start a comment that runs to the end of
    the line; a condition is made of comparisons of literals and of the
    columns email and passwd, joined by AND and by OR, AND binding
    tighter.  A text outside the fragment is refused here, whatever
    SQLite does with it; the properties use the engine only on texts
    that it reads and on texts that SQLite refuses as well (a literal
    left open, a word right after a literal). *)

Definition and_then {A B : Type} (o : option A) (k : A -> option B) : option B :=
  match o with
  | Some a => k a
  | None => None
  end.

(** What follows the text [p] at the head of [s]. *)
Fixpoint expect (p s : string) : option string :=
  match p with
  | EmptyString => Some s
  | String c p' =>
      match s with
      | String d s' => if Ascii.eqb c d then expect p' s' else None
      | EmptyString => None
      end
  end.

Definition push (c : ascii) (r : string * string) : string * string :=
  (String c (fst r), snd r).

(** The value of the literal whose opening quote has just been read, and
    what follows its closing quote. *)
Fixpoint literal (s : string) : option (string * string) :=
  match s with
  | EmptyString => None
  | String c s' =>
      if Ascii.eqb c "'" then
        match s' with
        | String d s'' =>
            if Ascii.eqb d "'" then option_map (push "'") (literal s'')
            else Some (EmptyString, s')
        | EmptyString => Some (EmptyString, s')
        end
      else option_map (push c) (literal s')
  end.

(** The text before the first [stop], and what follows it. *)
Fixpoint until (stop : ascii) (s : string) : option (string * string) :=
  match s with
  | EmptyString => None
  | String c s' =>
      if Ascii.eqb c stop then Some (EmptyString, s')
      else option_map (push c) (until stop s')
  end.

Fixpoint blanks (s : string) : string :=
  match s with
  | String c s' => if Ascii.eqb c " " then blanks s' else s
  | EmptyString => s
  end.

(** Nothing is left of the statement: blanks, then the end of the text or
    a comment that reaches it. *)
Definition ends (s : string) : bool :=
  match blanks s with
  | EmptyString => true
  | rest =>
      match expect "--" rest with
      | Some comment => lacks "010" comment
      | None => false
      end
  end.

(** The number a run of digits stands for. *)
Definition integer (s : string) : option Z :=
  match NilEmpty.int_of_string s with
  | Some (Decimal.Pos Decimal.Nil) | Some (Decimal.Neg Decimal.Nil) | None => None
  | Some d => Some (Z.of_int d)
  end.

(** email='..' and email='..' AND passwd='..', up to the end of the
    statement: the conditions as the formats have them. *)
Definition meant_condition (s : string) : option Db.Condition :=
  and_then (expect "email='" s) (fun s =>
  and_then (literal s) (fun '(email, s) =>
  if ends s then Some (Db.WHERE_email email)
  else
    and_then (expect " AND passwd='" s) (fun s =>
    and_then (literal s) (fun '(passwd, s) =>
    if ends s then Some (Db.WHERE_email_AND_passwd email passwd) else None)))).

(** The two sides of a comparison: a literal, or a column of text. *)
Inductive Operand : Type :=
| operand_literal (value : string)
| operand_email
| operand_passwd.

Definition operand_value (o : Operand) (r : Db.EmailUserRow) : string :=
  match o with
  | operand_literal value => value
  | operand_email => Db.row_email r
  | operand_passwd => Db.row_passwd r
  end.

(** Letters, digits and the underscore: what a word goes on with. *)
Definition word_char (c : ascii) : bool :=
  let n := nat_of_ascii c in
  ((48 <=? n) && (n <=? 57) || (65 <=? n) && (n <=? 90)
   || (97 <=? n) && (n <=? 122) || (n =? 95))%nat.

(** What follows the word [w] at the head of [s], blanks skipped. *)
Definition word (w s : string) : option string :=
  and_then (expect w (blanks s)) (fun rest =>
  match rest with
  | String c _ => if word_char c then None else Some rest
  | EmptyString => Some rest
  end).

Definition operand (s : string) : option (Operand * string) :=
  match blanks s with
  | String c s' =>
      if Ascii.eqb c "'"
      then option_map (fun r => (operand_literal (fst r), snd r)) (literal s')
      else
        match word "email" (String c s') with
        | Some rest => Some (operand_email, rest)
        | None =>
            option_map (fun rest => (operand_passwd, rest))
                       (word "passwd" (String c s'))
        end
  | EmptyString => None
  end.

(** operand = operand, both sides compared as text. *)
Definition comparison (s : string)
  : option ((Db.EmailUserRow -> bool) * string) :=
  and_then (operand s) (fun '(a, s) =>
  and_then (expect "=" (blanks s)) (fun s =>
  and_then (operand s) (fun '(b, s) =>
  Some (fun r => String.eqb (operand_value a r) (operand_value b r), s)))).

(** comparison AND comparison AND ..; [fuel] bounds the comparisons. *)
Fixpoint conjunction (fuel : nat) (s : string)
  : option ((Db.EmailUserRow -> bool) * string) :=
  match fuel with
  | O => None
  | S fuel' =>
      and_then (comparison s) (fun '(p, s) =>
      match word "AND" s with
      | Some s' =>
          option_map (fun q => (fun r => p r && fst q r, snd q))
                     (conjunction fuel' s')
      | None => Some (p, s)
      end)
  end.

(** conjunction OR conjunction OR .. *)
Fixpoint disjunction (fuel : nat) (s : string)
  : option ((Db.EmailUserRow -> bool) * string) :=
  match fuel with
  | O => None
  | S fuel' =>
      and_then (conjunction fuel s) (fun '(p, s) =>
      match word "OR" s with
      | Some s' =>
          option_map (fun q => (fun r => p r || fst q r, snd q))
                     (disjunction fuel' s')
      | None => Some (p, s)
      end)
  end.

(** The condition after WHERE, up to the end of the statement. *)
Definition reference_condition (s : string) : option Db.Condition :=
  match meant_condition s with
  | Some cond => Some cond
  | None =>
      and_then (disjunction (String.length s) s) (fun '(test, rest) =>
      if ends rest then Some (Db.WHERE_other test) else None)
  end.

Definition reference_select (sql : string) : option Db.Select :=
  match expect "SELECT id, email, is_staff, is_active, ctime FROM EmailUser WHERE "
               sql with
  | Some s =>
      option_map (fun cond => Db.SELECT emailuser_columns (Some cond) None)
                 (reference_condition s)
  | None =>
      and_then (expect "SELECT email FROM EmailUser WHERE " sql) (fun s =>
      option_map (fun cond => Db.SELECT (Db.Columns [Db.col_email]) (Some cond)
                                        None)
                 (reference_condition s))
  end.

Definition reference_insert (sql : string) : option Db.Statement :=
  and_then (expect "INSERT INTO EmailUser(email, passwd, is_staff, is_active, ctime) VALUES ('"
                   sql) (fun s =>
  and_then (literal s) (fun '(email, s) =>
  and_then (expect ", '" s) (fun s =>
  and_then (literal s) (fun '(passwd, s) =>
  and_then (expect ", '" s) (fun s =>
  and_then (literal s) (fun '(is_staff, s) =>
  and_then (expect ", '" s) (fun s =>
  and_then (literal s) (fun '(is_active, s) =>
  and_then (expect ", " s) (fun s =>
  and_then (until ")" s) (fun '(ctime, s) =>
  if ends s then
    and_then (integer is_staff) (fun is_staff =>
    and_then (integer is_active) (fun is_active =>
    and_then (integer ctime) (fun ctime =>
    Some (Db.INSERT email passwd is_staff is_active ctime))))
  else None)))))))))).

Definition reference_statement (sql : string) : option Db.Statement :=
  match reference_insert sql with
  | Some statement => Some statement
  | None =>
      and_then (expect "DELETE FROM EmailUser WHERE " sql) (fun s =>
      option_map Db.DELETE (reference_condition s))
  end.

Definition reference_engine : SqlEngine :=
  mkSqlEngine reference_select reference_statement.

Definition opens_with (c : ascii) (s : string) : bool :=
  match s with
  | String d _ => Ascii.eqb d c
  | EmptyString => false
  end.

(** The characters %d and %lld print. *)
Definition decimal_char (c : ascii) : bool :=
  existsb (Ascii.eqb c) (list_ascii_of_string "-0123456789").

(** The first object of what ldap_list_users answers, NULL when it
    answers none. *)
Definition first_listed (manager : CcnetUserManager) (email : string)
  : M (option CcnetEmailUser) :=
  fun w => let (users, w') := ldap_list_users manager email w in
           (hd_error users, w').

(** The rows after UPDATE .. WHERE id. *)
Definition updated_rows (id : Z) (passwd : string) (is_staff is_active : Z)
           (rows : list Db.EmailUserRow) : list Db.EmailUserRow :=
  map (fun r => if Db.row_id r =? id
                then Db.set_credentials (hash_password passwd) is_staff is_active r
                else r) rows.

(** The LIMIT clause of get_emailusers: none for the pair (-1, -1). *)
Definition list_limit (start limit : Z) : option (Z * Z) :=
  if (start =? -1) && (limit =? -1) then None else Some (start, limit).

(** Sample configurations and states for the examples. *)
Definition local_manager : CcnetUserManager :=
  mkManager false "" "" None None "mail".

Definition ldap_manager : CcnetUserManager :=
  mkManager true "ldap://directory" "ou=people,dc=x"
            (Some "cn=service,dc=x") (Some "service-secret") "mail".

(** A directory with the accounts admin@x and user@x, both with the
    password "dirpw", and a service identity to search with. *)
Definition sample_directory : Ldap.LdapServer :=
  Ldap.mkServer
    (fun _ => 0) 0
    (fun dn passwd =>
       match passwd with
       | Some p =>
           if (String.eqb dn "cn=service,dc=x" && String.eqb p "service-secret")
              || (String.eqb dn "uid=user,ou=people,dc=x" && String.eqb p "dirpw")
              || (String.eqb dn "uid=admin,ou=people,dc=x" && String.eqb p "dirpw")
           then 0 else 49
       | None => 49
       end)
    (fun _ filter _ =>
       if String.eqb filter "(mail=user@x)"
       then (0, [Ldap.mkEntry "uid=user,ou=people,dc=x" "user@x" []])
       else if String.eqb filter "(mail=admin@x)"
       then (0, [Ldap.mkEntry "uid=admin,ou=people,dc=x" "admin@x" []])
       else if String.eqb filter "(mail=*)"
       then (0, [Ldap.mkEntry "uid=admin,ou=people,dc=x" "admin@x" [];
                 Ldap.mkEntry "uid=user,ou=people,dc=x" "user@x" []])
       else (0, [])).

(** A directory that cannot be reached: every search fails. *)
Definition unreachable_directory : Ldap.LdapServer :=
  Ldap.mkServer (fun _ => 0) 0 (fun _ _ => -1) (fun _ _ _ => (-1, [])).

(** A table with the staff account admin@x (password "secret") and the
    regular account user@x (password "hunter2"). *)
Definition sample_db : Db.CcnetDB :=
  Db.mkDB
    [ Db.mkRow 1 "admin@x" (hash_password "secret") 1 1 1000;
      Db.mkRow 2 "user@x" (hash_password "hunter2") 0 1 2000 ]
    2.

Definition sample_world : World := mkWorld sample_db 3000 sample_directory [].

(** A table with two staff accounts, admin and one whose email goes on
    with a quote and two dashes. *)
Definition quoted_db : Db.CcnetDB :=
  Db.mkDB
    [ Db.mkRow 1 "admin" (hash_password "secret") 1 1 1000;
      Db.mkRow 2 "admin' --" (hash_password "hunter2") 1 1 2000 ]
    2.

Definition quoted_world : World := mkWorld quoted_db 3000 sample_directory [].

(** An email of [n] characters, and a table with one staff account under
    it, with the password "secret". *)
Definition long_email (n : nat) : string :=
  string_of_list_ascii (repeat "a"%char n).

Definition long_world (n : nat) : World :=
  mkWorld (Db.mkDB [Db.mkRow 1 (long_email n) (hash_password "secret") 1 1 1000] 1)
          3000 sample_directory [].

Definition offline_world : World :=
  mkWorld sample_db 3000 unreachable_directory [].

(* ================================================================== *)
(** ** user-mgr.c: preparation *)

(** g_key_file_get_string (config, group, key, NULL): the value of the
    key, NULL without one. *)
Definition GKeyFile : Type := string -> string -> option string.

(** The fields of the manager that try_load_ldap_settings writes, each the
    pointer (or flag) it is in the struct. *)
Record LdapSettings : Type := mkSettings {
  set_use_ldap : bool;
  set_ldap_host : option string;
  set_base : option string;
  set_user_dn : option string;
  set_password : option string;
  set_login_attr : option string
}.

(** The manager as g_object_new leaves it. *)
Definition new_settings : LdapSettings :=
  mkSettings false None None None None None.

Definition try_load_ldap_settings (config : GKeyFile) (manager : LdapSettings)
  : Z * LdapSettings :=
  let ldap_host := config "LDAP" "HOST" in
  match ldap_host with
  | None =>
      (0, mkSettings (set_use_ldap manager) ldap_host (set_base manager)
                     (set_user_dn manager) (set_password manager)
                     (set_login_attr manager))
  | Some _ =>
      let base := config "LDAP" "BASE" in
      match base with
      | None =>
          (* LDAP: BASE not found in config file. *)
          (-1, mkSettings true ldap_host base (set_user_dn manager)
                          (set_password manager) (set_login_attr manager))
      | Some _ =>
          let user_dn := config "LDAP" "USER_DN" in
          let password :=
            match user_dn with
            | Some _ => config "LDAP" "PASSWORD"
            | None => set_password manager   (* Use anonymous if user_dn is not set. *)
            end in
          match user_dn, password with
          | Some _, None =>
              (* LDAP: PASSWORD not found in config file. *)
              (-1, mkSettings true ldap_host base user_dn password
                              (set_login_attr manager))
          | _, _ =>
              let login_attr :=
                match config "LDAP" "LOGIN_ATTR" with
                | Some attr => Some attr
                | None => Some "mail"
                end in
              (0, mkSettings true ldap_host base user_dn password login_attr)
          end
      end
  end.

(** ccnet_db_type (db). *)
Inductive DbType : Type :=
| CCNET_DB_TYPE_SQLITE
| CCNET_DB_TYPE_MYSQL
| CCNET_DB_TYPE_PGSQL
| CCNET_DB_TYPE_other.

Section CheckDbTable.

(** The engine that receives the statements of the schema: its state, and
    ccnet_db_query on the text of a statement. *)
Variable Engine : Type.
Variable ccnet_db_query_text : string -> Engine -> Z * Engine.

(** if (ccnet_db_query (db, sql) < 0) return -1; and what follows. *)
Definition query_or_fail (sql : string) (next : Engine -> Z * Engine)
  : Engine -> Z * Engine :=
  fun db => let (rc, db') := ccnet_db_query_text sql db in
            if rc <? 0 then (-1, db') else next db'.

Definition check_db_table (db_type : DbType) : Engine -> Z * Engine :=
  match db_type with
  | CCNET_DB_TYPE_MYSQL =>
      query_or_fail
        ("CREATE TABLE IF NOT EXISTS EmailUser ("
         ++ "id INTEGER NOT NULL PRIMARY KEY AUTO_INCREMENT, "
         ++ "email VARCHAR(255), passwd CHAR(41), "
         ++ "is_staff BOOL NOT NULL, is_active BOOL NOT NULL, "
         ++ "ctime BIGINT, UNIQUE INDEX (email))"
         ++ "ENGINE=INNODB")
        (query_or_fail
           ("CREATE TABLE IF NOT EXISTS Binding (email VARCHAR(255), peer_id CHAR(41),"
            ++ "UNIQUE INDEX (peer_id), INDEX (email(20)))"
            ++ "ENGINE=INNODB")
           (fun db => (0, db)))
  | CCNET_DB_TYPE_SQLITE =>
      query_or_fail
        ("CREATE TABLE IF NOT EXISTS EmailUser ("
         ++ "id INTEGER NOT NULL PRIMARY KEY AUTOINCREMENT,"
         ++ "email TEXT, passwd TEXT, is_staff bool NOT NULL, "
         ++ "is_active bool NOT NULL, ctime INTEGER)")
        (query_or_fail
           "CREATE UNIQUE INDEX IF NOT EXISTS email_index on EmailUser (email)"
           (query_or_fail
              "CREATE TABLE IF NOT EXISTS Binding (email TEXT, peer_id TEXT)"
              (query_or_fail
                 "CREATE INDEX IF NOT EXISTS email_index on Binding (email)"
                 (query_or_fail
                    "CREATE UNIQUE INDEX IF NOT EXISTS peer_index on Binding (peer_id)"
                    (fun db => (0, db))))))
  | CCNET_DB_TYPE_PGSQL =>
      query_or_fail
        ("CREATE TABLE IF NOT EXISTS EmailUser ("
         ++ "id SERIAL PRIMARY KEY, "
         ++ "email VARCHAR(255), passwd CHAR(41), "
         ++ "is_staff BOOL NOT NULL, is_active BOOL NOT NULL, "
         ++ "ctime BIGINT, UNIQUE (email))")
        (query_or_fail
           ("CREATE TABLE IF NOT EXISTS Binding (email VARCHAR(255), peer_id CHAR(41),"
            ++ "UNIQUE (peer_id))")
           (fun db => (0, db)))
  | CCNET_DB_TYPE_other => fun db => (0, db)
  end.

End CheckDbTable.

Arguments query_or_fail {Engine}.
Arguments check_db_table {Engine}.

(** An engine that answers each statement text with a result code of its
    own and keeps the statements it received, latest first. *)
Definition logging_engine (answer : string -> Z) (sql : string)
           (received : list string) : Z * list string :=
  (answer sql, sql :: received).

(** The statements up to and including the first one that is refused. *)
Fixpoint until_refused (answer : string -> Z) (sqls : list string)
  : list string :=
  match sqls with
  | [] => []
  | sql :: rest =>
      if answer sql <? 0 then [sql] else sql :: until_refused answer rest
  end.

(** A statement that creates only what does not exist yet. *)
Definition creates_if_absent (sql : string) : bool :=
  String.prefix "CREATE TABLE IF NOT EXISTS " sql
  || String.prefix "CREATE INDEX IF NOT EXISTS " sql
  || String.prefix "CREATE UNIQUE INDEX IF NOT EXISTS " sql.

(* ================================================================== *)
(** ** Vocabulary of the further properties *)

(** The id that the next INSERT hands out. *)
Definition next_id (db : Db.CcnetDB) : Z :=
  Z.max (Db.db_seq db) (Db.max_id (Db.db_rows db)) + 1.

Definition is_initialize (c : Ldap.Call) : bool :=
  match c with Ldap.call_initialize _ => true | _ => false end.

Definition is_unbind (c : Ldap.Call) : bool :=
  match c with Ldap.call_unbind_s => true | _ => false end.

Definition is_bind (c : Ldap.Call) : bool :=
  match c with Ldap.call_bind_s _ _ => true | _ => false end.

Definition count_calls (p : Ldap.Call -> bool) (calls : list Ldap.Call) : nat :=
  List.length (filter p calls).

(** The sessions left open in the directory: those initialised and not
    unbound. *)
Definition open_sessions (w : World) : Z :=
  Z.of_nat (count_calls is_initialize (directory_calls w))
  - Z.of_nat (count_calls is_unbind (directory_calls w)).

(** The statements check_db_table sends for a dialect when none is
    refused, in the order it sends them. *)
Definition schema_statements (db_type : DbType) : list string :=
  rev (snd (check_db_table (logging_engine (fun _ => 0)) db_type [])).

(** A directory that refuses the protocol version asked for. *)
Definition refusing_directory : Ldap.LdapServer :=
  Ldap.mkServer (fun _ => 0) (-1) (fun _ _ => 0) (fun _ _ _ => (0, [])).

Definition refusing_world : World :=
  mkWorld sample_db 3000 refusing_directory [].

(** A configuration file with an anonymous directory. *)
Definition sample_config : GKeyFile :=
  fun group key =>
    if String.eqb group "LDAP" && String.eqb key "HOST"
    then Some "ldap://directory"
    else if String.eqb group "LDAP" && String.eqb key "BASE"
    then Some "ou=people,dc=x"
    else None.

(* ================================================================== *)
(** ** Properties *)

(** *** The digest *)

Example sha1_abc :
  hash_password "abc" = "a9993e364706816aba3e25717850c26c9cd0d89d".
Proof. vm_compute. reflexivity. Qed.

Example sha1_empty :
  hash_password "" = "da39a3ee5e6b4b0d3255bfef95601890afd80709".
Proof. vm_compute. reflexivity. Qed.

Example sha1_two_blocks :
  hash_password "abcdbcdecdefdefgefghfghighijhijkijkljklmklmnlmnomnopnopq"
  = "84983e441c3bd26ebaae4aa1f95129e5e54670f1".
Proof. vm_compute. reflexivity. Qed.

Lemma rawdata_to_hex_length (rawdata : list Z) :
  String.length (Utils.rawdata_to_hex rawdata) = (2 * List.length rawdata)%nat.
Proof.
  induction rawdata as [|b rest IH]; simpl; [reflexivity|].
  rewrite IH. lia.
Qed.

Lemma SHA1_length (msg : list Z) : List.length (Sha1.SHA1 msg) = 20%nat.
Proof. unfold Sha1.SHA1. reflexivity. Qed.

Lemma hash_password_length (passwd : string) :
  String.length (hash_password passwd) = 40%nat.
Proof.
  unfold hash_password. rewrite rawdata_to_hex_length, SHA1_length. reflexivity.
Qed.

(** *** Statements as text *)

Lemma length_append (a b : string) :
  String.length (a ++ b) = (String.length a + String.length b)%nat.
Proof.
  induction a as [|c a IH]; cbn [append String.length]; [reflexivity|].
  now rewrite IH.
Qed.

Lemma substring_whole (n : nat) (s : string) :
  (String.length s <= n)%nat -> substring 0 n s = s.
Proof.
  revert n. induction s as [|c s IH]; intros n Hn.
  - destruct n; reflexivity.
  - cbn [String.length] in Hn. destruct n as [|n]; [lia|].
    cbn [substring]. rewrite IH by lia. reflexivity.
Qed.

(** A text that fits its buffer is sent as it was formatted. *)
Lemma snprintf_fits (size : nat) (text : string) :
  fits size text = true -> snprintf size text = text.
Proof.
  unfold fits, snprintf. intros H. apply Nat.ltb_lt in H.
  apply substring_whole. lia.
Qed.

Lemma select_emailuser_passwd_sql_length (email passwd : string) :
  String.length (select_emailuser_passwd_sql email (hash_password passwd))
  = (128 + String.length email)%nat.
Proof.
  unfold select_emailuser_passwd_sql.
  rewrite !length_append, hash_password_length. cbn [String.length]. lia.
Qed.

Lemma select_email_passwd_sql_length (email passwd : string) :
  String.length (select_email_passwd_sql email (hash_password passwd))
  = (96 + String.length email)%nat.
Proof.
  unfold select_email_passwd_sql.
  rewrite !length_append, hash_password_length. cbn [String.length]. lia.
Qed.

Lemma select_emailuser_sql_length (email : string) :
  String.length (select_emailuser_sql email) = (74 + String.length email)%nat.
Proof.
  unfold select_emailuser_sql. rewrite !length_append. cbn [String.length]. lia.
Qed.

Lemma delete_emailuser_sql_length (email : string) :
  String.length (delete_emailuser_sql email) = (36 + String.length email)%nat.
Proof.
  unfold delete_emailuser_sql. rewrite !length_append. cbn [String.length]. lia.
Qed.

(** The INSERT is the longest statement of an email: when it fits, the
    email has at most 381 characters, and every other statement fits. *)
Lemma insert_emailuser_sql_fits (email passwd : string)
      (is_staff is_active now : Z) :
  fits 512 (insert_emailuser_sql email (hash_password passwd) is_staff is_active
                                 now) = true ->
  (String.length email <= 381)%nat.
Proof.
  unfold fits, insert_emailuser_sql. intros H. apply Nat.ltb_lt in H.
  rewrite !length_append, hash_password_length in H.
  cbn [String.length] in H. lia.
Qed.

(** The texts as they are sent, for an email short enough. *)
Lemma sent_select_emailuser_passwd (email passwd : string) :
  (String.length email <= 383)%nat ->
  snprintf 512 (select_emailuser_passwd_sql email (hash_password passwd))
  = select_emailuser_passwd_sql email (hash_password passwd).
Proof.
  intros H. apply snprintf_fits. unfold fits.
  rewrite select_emailuser_passwd_sql_length. apply Nat.ltb_lt. lia.
Qed.

Lemma sent_select_email_passwd (email passwd : string) :
  (String.length email <= 415)%nat ->
  snprintf 512 (select_email_passwd_sql email (hash_password passwd))
  = select_email_passwd_sql email (hash_password passwd).
Proof.
  intros H. apply snprintf_fits. unfold fits.
  rewrite select_email_passwd_sql_length. apply Nat.ltb_lt. lia.
Qed.

Lemma sent_select_emailuser (email : string) :
  (String.length email <= 437)%nat ->
  snprintf 512 (select_emailuser_sql email) = select_emailuser_sql email.
Proof.
  intros H. apply snprintf_fits. unfold fits.
  rewrite select_emailuser_sql_length. apply Nat.ltb_lt. lia.
Qed.

Lemma sent_delete_emailuser (email : string) :
  (String.length email <= 475)%nat ->
  snprintf 512 (delete_emailuser_sql email) = delete_emailuser_sql email.
Proof.
  intros H. apply snprintf_fits. unfold fits.
  rewrite delete_emailuser_sql_length. apply Nat.ltb_lt. lia.
Qed.

(** A digest holds hexadecimal digits, hence no quote. *)
Lemma SHA1_bytes (msg : list Z) :
  Forall (fun b => 0 <= b < 256) (Sha1.SHA1 msg).
Proof.
  unfold Sha1.SHA1, Sha1.bytes_of_word. cbv zeta. cbn [app].
  repeat (apply Forall_cons; [apply Z.mod_pos_bound; lia|]).
  apply Forall_nil.
Qed.

Lemma hex_digit_plain (n : Z) :
  0 <= n < 16 -> Ascii.eqb (Utils.hex_digit n) "'" = false.
Proof.
  intros H. rewrite <- (Z2Nat.id n) by lia.
  assert (Hk : (Z.to_nat n < 16)%nat) by lia.
  revert Hk. generalize (Z.to_nat n) as k. intros k Hk.
  do 16 (destruct k as [|k]; [reflexivity|]). lia.
Qed.

Lemma rawdata_to_hex_plain (rawdata : list Z) :
  Forall (fun b => 0 <= b < 256) rawdata ->
  plain (Utils.rawdata_to_hex rawdata) = true.
Proof.
  unfold plain. induction 1 as [|b rest Hb _ IH]; [reflexivity|].
  cbn [Utils.rawdata_to_hex lacks]. rewrite IH.
  rewrite !hex_digit_plain; [reflexivity| |].
  - apply Z.mod_pos_bound. lia.
  - split; [apply Z.div_pos; lia|apply Z.div_lt_upper_bound; lia].
Qed.

Lemma hash_password_plain (passwd : string) : plain (hash_password passwd) = true.
Proof. unfold hash_password. apply rawdata_to_hex_plain, SHA1_bytes. Qed.

(** *** The reference engine reads the statements as they are meant *)

Lemma expect_append (p s : string) : expect p (p ++ s) = Some s.
Proof.
  induction p as [|c p IH]; cbn [expect append]; [reflexivity|].
  now rewrite Ascii.eqb_refl.
Qed.

Lemma literal_plain (v rest : string) :
  plain v = true -> opens_with "'" rest = false ->
  literal (v ++ String "'" rest) = Some (v, rest).
Proof.
  intros Hv Hrest. induction v as [|c v IH]; cbn [append literal].
  - rewrite Ascii.eqb_refl. destruct rest as [|d rest]; [reflexivity|].
    cbn [opens_with] in Hrest. now rewrite Hrest.
  - unfold plain in Hv. cbn [lacks] in Hv. apply andb_true_iff in Hv.
    destruct Hv as [Hc Hv]. apply negb_true_iff in Hc. rewrite Hc.
    rewrite (IH Hv). reflexivity.
Qed.

Lemma until_lacks (stop : ascii) (v rest : string) :
  lacks stop v = true -> until stop (v ++ String stop rest) = Some (v, rest).
Proof.
  intros Hv. induction v as [|c v IH]; cbn [append until].
  - now rewrite Ascii.eqb_refl.
  - cbn [lacks] in Hv. apply andb_true_iff in Hv.
    destruct Hv as [Hc Hv]. apply negb_true_iff in Hc. rewrite Hc.
    rewrite (IH Hv). reflexivity.
Qed.

Lemma uint_lacks (c : ascii) (d : Decimal.uint) :
  decimal_char c = false -> lacks c (NilEmpty.string_of_uint d) = true.
Proof.
  intros Hc. unfold decimal_char in Hc. cbn [existsb list_ascii_of_string] in Hc.
  repeat (apply orb_false_iff in Hc; destruct Hc as [? Hc]).
  induction d; cbn [NilEmpty.string_of_uint lacks]; [reflexivity|..];
    rewrite IHd, andb_true_r; apply negb_true_iff;
    rewrite Ascii.eqb_sym; assumption.
Qed.

Lemma decimal_lacks (c : ascii) (n : Z) :
  decimal_char c = false -> lacks c (decimal n) = true.
Proof.
  intros Hc. unfold decimal. destruct (Z.to_int n) as [d|d];
    cbn [NilEmpty.string_of_int lacks].
  - now apply uint_lacks.
  - rewrite (uint_lacks c d Hc), andb_true_r. apply negb_true_iff.
    unfold decimal_char in Hc. cbn [existsb list_ascii_of_string] in Hc.
    apply orb_false_iff in Hc. rewrite Ascii.eqb_sym. apply Hc.
Qed.

(** What %d prints is read back as the number printed. *)
Lemma integer_decimal (n : Z) : integer (decimal n) = Some n.
Proof.
  unfold integer, decimal. rewrite NilEmpty.isi.
  destruct n as [|p|p]; cbn [Z.to_int].
  - reflexivity.
  - pose proof (DecimalPos.Unsigned.to_uint_nonnil p) as Hp.
    pose proof (DecimalZ.of_to (Z.pos p)) as Hz. cbn [Z.to_int] in Hz.
    destruct (Pos.to_uint p); [contradiction|..]; now rewrite Hz.
  - pose proof (DecimalPos.Unsigned.to_uint_nonnil p) as Hp.
    pose proof (DecimalZ.of_to (Z.neg p)) as Hz. cbn [Z.to_int] in Hz.
    destruct (Pos.to_uint p); [contradiction|..]; now rewrite Hz.
Qed.

(** Reads the literal at the head of the text, a plain value or a number,
    and steps over what the format has after it. *)
Ltac read_literal :=
  rewrite literal_plain;
  [ cbn [and_then expect ends blanks Ascii.eqb Bool.eqb andb]
  | first [assumption | apply decimal_lacks; reflexivity]
  | reflexivity ].

Lemma reference_condition_email (email : string) :
  plain email = true ->
  reference_condition ("email='" ++ email ++ "'") = Some (Db.WHERE_email email).
Proof.
  intros He. unfold reference_condition, meant_condition.
  rewrite expect_append. cbn [and_then append]. now read_literal.
Qed.

Lemma reference_condition_email_passwd (email passwd : string) :
  plain email = true -> plain passwd = true ->
  reference_condition ("email='" ++ email ++ "' AND passwd='" ++ passwd ++ "'")
  = Some (Db.WHERE_email_AND_passwd email passwd).
Proof.
  intros He Hp. unfold reference_condition, meant_condition.
  rewrite expect_append. cbn [and_then append]. read_literal.
  now read_literal.
Qed.

Lemma reference_engine_reads : engine_reads reference_engine.
Proof.
  split; cbn [reference_engine engine_select engine_statement].
  - intros email passwd is_staff is_active ctime He Hp.
    unfold reference_statement.
    assert (Hins : reference_insert
                     (insert_emailuser_sql email passwd is_staff is_active ctime)
                   = Some (Db.INSERT email passwd is_staff is_active ctime));
      [|now rewrite Hins].
    unfold reference_insert, insert_emailuser_sql.
    rewrite expect_append. cbn [and_then append].
    do 4 read_literal.
    rewrite until_lacks by (apply decimal_lacks; reflexivity).
    cbn [and_then ends blanks expect].
    rewrite !integer_decimal. reflexivity.
  - intros email He. unfold reference_statement, delete_emailuser_sql.
    change (reference_insert ("DELETE FROM EmailUser WHERE email='" ++ email ++ "'"))
      with (@None Db.Statement).
    change ("DELETE FROM EmailUser WHERE email='" ++ email ++ "'")
      with ("DELETE FROM EmailUser WHERE " ++ "email='" ++ email ++ "'").
    rewrite expect_append. cbn [and_then].
    now rewrite reference_condition_email.
  - intros email He. unfold reference_select, select_emailuser_sql.
    change ("SELECT id, email, is_staff, is_active, ctime FROM EmailUser WHERE email='"
            ++ email ++ "'")
      with ("SELECT id, email, is_staff, is_active, ctime FROM EmailUser WHERE "
            ++ "email='" ++ email ++ "'").
    rewrite expect_append. now rewrite reference_condition_email.
  - intros email passwd He Hp.
    unfold reference_select, select_emailuser_passwd_sql.
    change ("SELECT id, email, is_staff, is_active, ctime FROM EmailUser WHERE email='"
            ++ email ++ "' AND passwd='" ++ passwd ++ "'")
      with ("SELECT id, email, is_staff, is_active, ctime FROM EmailUser WHERE "
            ++ "email='" ++ email ++ "' AND passwd='" ++ passwd ++ "'").
    rewrite expect_append. now rewrite reference_condition_email_passwd.
  - intros email passwd He Hp.
    unfold reference_select, select_email_passwd_sql.
    change (expect "SELECT id, email, is_staff, is_active, ctime FROM EmailUser WHERE "
                   ("SELECT email FROM EmailUser WHERE email='"
                    ++ email ++ "' AND passwd='" ++ passwd ++ "'"))
      with (@None string).
    change ("SELECT email FROM EmailUser WHERE email='"
            ++ email ++ "' AND passwd='" ++ passwd ++ "'")
      with ("SELECT email FROM EmailUser WHERE "
            ++ "email='" ++ email ++ "' AND passwd='" ++ passwd ++ "'").
    rewrite expect_append. cbn [and_then].
    now rewrite reference_condition_email_passwd.
Qed.

(** *** Selecting rows *)

Section Lookup.

Import Db.

Lemma foreach_get_emailuser_cb (rows : list CcnetDBRow) :
  foreach_row get_emailuser_cb rows 0 None =
  match rows with
  | [] => (0, None)
  | row :: _ => (1, snd (get_emailuser_cb row None))
  end.
Proof. destruct rows; reflexivity. Qed.

(** The lookup that precedes every delegated operation: it yields the
    first row that satisfies the condition, as an object. *)
Lemma lookup_first_row (cond : Condition) (w : World) :
  ccnet_db_foreach_selected_row
    (SELECT emailuser_columns (Some cond) None) get_emailuser_cb None w =
  (match filter (holds cond) (db_rows (w_db w)) with
   | [] => (0, None)
   | r :: _ => (1, Some (emailuser_of_row r))
   end, record (sql_select (SELECT emailuser_columns (Some cond) None)) w).
Proof.
  unfold ccnet_db_foreach_selected_row, run_select. simpl.
  rewrite foreach_get_emailuser_cb.
  destruct (filter (holds cond) (db_rows (w_db w))); reflexivity.
Qed.

(** The same lookup sent as a text that the engine reads as meant. *)
Lemma lookup_first_row_sql (engine : SqlEngine) (sql : string)
      (cond : Condition) (w : World) :
  engine_select engine sql = Some (SELECT emailuser_columns (Some cond) None) ->
  ccnet_db_foreach_selected_row_sql engine sql get_emailuser_cb None w =
  (match filter (holds cond) (db_rows (w_db w)) with
   | [] => (0, None)
   | r :: _ => (1, Some (emailuser_of_row r))
   end, record (sql_text sql) w).
Proof.
  intros Hread. unfold ccnet_db_foreach_selected_row_sql. rewrite Hread.
  unfold run_select. cbn [sel_what sel_where sel_limit selected page project
                          emailuser_columns].
  rewrite foreach_get_emailuser_cb.
  destruct (filter (holds cond) (db_rows (w_db w))); reflexivity.
Qed.

(** A text that the engine refuses selects nothing and reports -1. *)
Lemma lookup_refused (engine : SqlEngine) (sql : string) (w : World) :
  engine_select engine sql = None ->
  ccnet_db_foreach_selected_row_sql engine sql get_emailuser_cb None w =
  ((-1, None), record (sql_text sql) w).
Proof.
  intros Hread. unfold ccnet_db_foreach_selected_row_sql. now rewrite Hread.
Qed.

(** Whatever the engine makes of a lookup, the callback is run at most
    once, on a row of the table read as the query says. *)
Lemma lookup_outcomes (engine : SqlEngine) (sql : string) (w : World) :
  exists n emailuser,
    ccnet_db_foreach_selected_row_sql engine sql get_emailuser_cb None w
    = ((n, emailuser), record (sql_text sql) w).
Proof.
  unfold ccnet_db_foreach_selected_row_sql.
  destruct (engine_select engine sql) as [query|]; [|now exists (-1), None].
  destruct (foreach_row get_emailuser_cb (run_select query (w_db w)) 0 None)
    as [n emailuser].
  now exists n, emailuser.
Qed.

Lemma existsb_eqb_false (e : string) (rows : list EmailUserRow) :
  existsb (String.eqb e) (map row_email rows) = false ->
  forall r, In r rows -> row_email r <> e.
Proof.
  induction rows as [|x l IH]; simpl; intros H r Hin; [contradiction|].
  apply orb_false_iff in H. destruct H as [Hx Hl].
  destruct Hin as [<-|Hin].
  - intros E. rewrite E, String.eqb_refl in Hx. discriminate.
  - now apply IH.
Qed.

Lemma filter_none {A : Type} (f : A -> bool) (l : list A) :
  (forall x, In x l -> f x = false) -> filter f l = [].
Proof.
  induction l as [|x l IH]; simpl; intros H; [reflexivity|].
  rewrite (H x (or_introl eq_refl)). apply IH. intros y Hy. apply H. now right.
Qed.

(** Under the unique index, the rows with the email of a stored row are
    that row alone. *)
Lemma unique_email_row (rows : list EmailUserRow) :
  distinct String.eqb (map row_email rows) = true ->
  forall r, In r rows ->
  filter (holds (WHERE_email (row_email r))) rows = [r].
Proof.
  induction rows as [|x l IH]; simpl; intros Hd r Hin; [contradiction|].
  apply andb_true_iff in Hd. destruct Hd as [Hx Hl].
  apply negb_true_iff in Hx.
  pose proof (existsb_eqb_false _ _ Hx) as Hne.
  destruct Hin as [<-|Hin].
  - rewrite String.eqb_refl. f_equal.
    apply filter_none. intros y Hy. simpl.
    apply String.eqb_neq. now apply Hne.
  - assert (String.eqb (row_email x) (row_email r) = false) as ->.
    { apply String.eqb_neq. intros E. now apply (Hne r Hin). }
    now apply IH.
Qed.

Lemma filter_email_and_passwd (e p : string) (rows : list EmailUserRow) :
  filter (holds (WHERE_email_AND_passwd e p)) rows =
  filter (fun r => String.eqb (row_passwd r) p)
         (filter (holds (WHERE_email e)) rows).
Proof.
  induction rows as [|x l IH]; simpl; [reflexivity|].
  destruct (String.eqb (row_email x) e); simpl.
  - destruct (String.eqb (row_passwd x) p); now rewrite IH.
  - exact IH.
Qed.

Lemma schema_ok_emails (db : CcnetDB) :
  schema_ok db = true -> distinct String.eqb (map row_email (db_rows db)) = true.
Proof. unfold schema_ok. intros H. now apply andb_true_iff in H. Qed.

(** A stored row whose email and digest are asked for is the one row
    the query of validate selects. *)
Lemma select_credentials_hit (db : CcnetDB) (r : EmailUserRow) :
  schema_ok db = true -> In r (db_rows db) ->
  filter (holds (WHERE_email_AND_passwd (row_email r) (row_passwd r)))
         (db_rows db) = [r].
Proof.
  intros Hok Hin. rewrite filter_email_and_passwd.
  rewrite (unique_email_row _ (schema_ok_emails _ Hok) _ Hin). simpl.
  now rewrite String.eqb_refl.
Qed.

(** With another digest, the query of validate selects nothing. *)
Lemma select_credentials_miss (db : CcnetDB) (r : EmailUserRow) (p : string) :
  schema_ok db = true -> In r (db_rows db) -> row_passwd r <> p ->
  filter (holds (WHERE_email_AND_passwd (row_email r) p)) (db_rows db) = [].
Proof.
  intros Hok Hin Hp. rewrite filter_email_and_passwd.
  rewrite (unique_email_row _ (schema_ok_emails _ Hok) _ Hin). simpl.
  apply String.eqb_neq in Hp. now rewrite Hp.
Qed.

Lemma filter_head_in {A : Type} (f : A -> bool) (l : list A) (x : A)
      (rest : list A) :
  filter f l = x :: rest -> In x l /\ f x = true.
Proof.
  intros H. apply filter_In. rewrite H. now left.
Qed.

End Lookup.

(** *** The constraints of the schema are kept *)

Section Schema.

Import Db.

Lemma distinct_NoDup {A : Type} (eqb : A -> A -> bool)
      (eqb_eq : forall x y, eqb x y = true <-> x = y) (l : list A) :
  distinct eqb l = true <-> NoDup l.
Proof.
  induction l as [|x l IH]; simpl.
  - split; [constructor|reflexivity].
  - rewrite andb_true_iff, negb_true_iff, IH, NoDup_cons_iff.
    assert (existsb (eqb x) l = false <-> ~ In x l) as ->; [|reflexivity].
    split.
    + intros H Hin. assert (existsb (eqb x) l = true); [|congruence].
      apply existsb_exists. exists x. split; [assumption|now apply eqb_eq].
    + intros H. destruct (existsb (eqb x) l) eqn:E; [|reflexivity].
      apply existsb_exists in E. destruct E as (y & Hy & E).
      apply eqb_eq in E. subst y. contradiction.
Qed.

Lemma schema_ok_NoDup (db : CcnetDB) :
  schema_ok db = true <->
  NoDup (map row_id (db_rows db)) /\ NoDup (map row_email (db_rows db)).
Proof.
  unfold schema_ok.
  rewrite andb_true_iff, (distinct_NoDup _ Z.eqb_eq),
    (distinct_NoDup _ String.eqb_eq).
  reflexivity.
Qed.

Lemma max_id_bound (rows : list EmailUserRow) (r : EmailUserRow) :
  In r rows -> row_id r <= max_id rows.
Proof.
  induction rows as [|x l IH]; simpl; [contradiction|].
  intros [<-|Hin]; [lia|]. specialize (IH Hin). lia.
Qed.

(** Deleting rows keeps a column that was unique unique. *)
Lemma delete_keeps_unique {K : Type} (key : EmailUserRow -> K)
      (cond : Condition) (rows : list EmailUserRow) :
  NoDup (map key rows) ->
  NoDup (map key (filter (fun r => negb (holds cond r)) rows)).
Proof.
  intros Hrows. induction rows as [|r rows IH]; [constructor|].
  cbn [map] in Hrows. inversion Hrows as [|k ks Hfresh Hrest]; subst.
  cbn [filter]. destruct (negb (holds cond r)); [|now apply IH].
  cbn [map]. constructor; [|now apply IH].
  intros Hin. apply Hfresh. apply in_map_iff in Hin.
  destruct Hin as (r' & Hkey & Hr'). apply filter_In in Hr'.
  rewrite <- Hkey. apply in_map. apply Hr'.
Qed.

(** No statement of user-mgr.c takes the table out of its schema: ids and
    emails stay unique. *)
Lemma execute_keeps_schema (stmt : Statement) (db : CcnetDB) :
  schema_ok db = true -> schema_ok (snd (execute stmt db)) = true.
Proof.
  rewrite !schema_ok_NoDup. intros [Hid Hemail].
  destruct stmt as [email passwd is_staff is_active ctime | cond
                   | passwd is_staff is_active cond]; simpl.
  - destruct (existsb _ (db_rows db)) eqn:E; simpl; [tauto|].
    rewrite !map_app. simpl. split.
    + apply NoDup_app; [assumption|repeat constructor; intros []|].
      intros i Hin [<-|[]]. apply in_map_iff in Hin.
      destruct Hin as (r & Hr & Hin). apply max_id_bound in Hin. lia.
    + apply NoDup_app; [assumption|repeat constructor; intros []|].
      intros e Hin [<-|[]]. apply in_map_iff in Hin.
      destruct Hin as (r & Hr & Hin).
      assert (existsb (holds (WHERE_email email)) (db_rows db) = true);
        [|congruence].
      apply existsb_exists. exists r. split; [assumption|].
      simpl. now apply String.eqb_eq.
  - split; now apply delete_keeps_unique.
  - rewrite !map_map. split.
    + erewrite map_ext; [exact Hid|].
      intros r. destruct (holds cond r); reflexivity.
    + erewrite map_ext; [exact Hemail|].
      intros r. destruct (holds cond r); reflexivity.
Qed.

(** Hence every operation of the account service keeps it. *)
Lemma ccnet_db_query_keeps_schema (sql : Statement) (w : World) :
  schema_ok (w_db w) = true ->
  schema_ok (w_db (snd (ccnet_db_query sql w))) = true.
Proof.
  intros H. unfold ccnet_db_query.
  pose proof (execute_keeps_schema sql (w_db w) H) as Hk.
  destruct (execute sql (w_db w)) as [rc db']. exact Hk.
Qed.

(** Whatever the engine makes of a text, what it executes is a statement
    over the table: the schema is kept. *)
Lemma ccnet_db_query_sql_keeps_schema (engine : SqlEngine) (sql : string)
      (w : World) :
  schema_ok (w_db w) = true ->
  schema_ok (w_db (snd (ccnet_db_query_sql engine sql w))) = true.
Proof.
  intros H. unfold ccnet_db_query_sql.
  destruct (engine_statement engine sql) as [statement|]; [|exact H].
  pose proof (execute_keeps_schema statement (w_db w) H) as Hk.
  destruct (execute statement (w_db w)) as [rc db']. exact Hk.
Qed.

End Schema.

(** *** The directory adapter *)

Section Adapter.

Variable manager : CcnetUserManager.

Lemma fold_prepend_rev (msg : list Ldap.LDAPEntry) (acc : list CcnetEmailUser) :
  fold_left (fun users entry => ldap_user entry :: users) msg acc
  = (rev (map ldap_user msg) ++ acc)%list.
Proof.
  revert acc. induction msg as [|e msg IH]; intros acc; simpl; [reflexivity|].
  rewrite IH, <- app_assoc. reflexivity.
Qed.

(** ldap_init_and_bind tells whether the session opens, and leaves the
    directory and the table as they are. *)
Lemma ldap_init_and_bind_result (host : string) (dn passwd : option string)
      (w : World) :
  let (ld, w') := ldap_init_and_bind host dn passwd w in
  ld = (if session_opens (w_directory w) host dn passwd then Some host else None)
  /\ w_directory w' = w_directory w /\ w_db w' = w_db w.
Proof.
  unfold ldap_init_and_bind, session_opens, bind, ret, ldap_initialize,
    ldap_set_option, ldap_bind_s, ldap_unbind_s. simpl.
  destruct (Ldap.srv_initialize (w_directory w) host =? Ldap.LDAP_SUCCESS);
    simpl; [|now repeat split].
  destruct (Ldap.srv_set_option (w_directory w) =? Ldap.LDAP_OPT_SUCCESS);
    simpl; [|now repeat split].
  destruct dn as [dn|]; simpl; [|now repeat split].
  destruct (Ldap.srv_bind_s (w_directory w) dn passwd =? Ldap.LDAP_SUCCESS);
    simpl; now repeat split.
Qed.

(** Opens the service session, runs the search of [uid], and hands the
    outcome to the case analysis of a proof. *)
Ltac run_directory w uid :=
  unfold bind;
  pose proof (ldap_init_and_bind_result (ldap_host manager) (user_dn manager)
                (password manager) w) as Hbind;
  unfold directory_search;
  destruct (ldap_init_and_bind (ldap_host manager) (user_dn manager)
              (password manager) w) as [ld w1];
  destruct Hbind as (-> & Hdir1 & _);
  destruct (session_opens (w_directory w) (ldap_host manager) (user_dn manager)
              (password manager)); [|reflexivity];
  unfold ldap_search_s; rewrite Hdir1;
  destruct (Ldap.srv_search_s (w_directory w) (base manager)
              (ldap_filter manager uid) [login_attr manager]) as [res msg];
  destruct (res =? Ldap.LDAP_SUCCESS); cbn [negb]; [|reflexivity].

(** ldap_list_users answers the objects of the entries found, the last
    entry first, and the empty list when the directory fails. *)
Lemma ldap_list_users_result (uid : string) (w : World) :
  fst (ldap_list_users manager uid w) =
  match directory_search manager uid (w_directory w) with
  | Some msg => rev (map ldap_user msg)
  | None => []
  end.
Proof.
  unfold ldap_list_users. run_directory w uid.
  cbn [fst ldap_unbind_s ret]. rewrite fold_prepend_rev. apply app_nil_r.
Qed.

(** ldap_count_users answers the number of entries found, and -1 when
    the directory fails. *)
Lemma ldap_count_users_result (uid : string) (w : World) :
  fst (ldap_count_users manager uid w) =
  match directory_search manager uid (w_directory w) with
  | Some msg => Z.of_nat (List.length msg)
  | None => -1
  end.
Proof.
  unfold ldap_count_users. run_directory w uid. reflexivity.
Qed.

(** ldap_verify_user_password answers 0 exactly when the search finds an
    entry and the directory accepts the password for the distinguished
    name of the first one; -1 otherwise. *)
Lemma ldap_verify_user_password_result (uid passwd : string) (w : World) :
  fst (ldap_verify_user_password manager uid passwd w) =
  match directory_search manager uid (w_directory w) with
  | Some (entry :: _) =>
      if session_opens (w_directory w) (ldap_host manager)
                       (Some (Ldap.entry_dn entry)) (Some passwd)
      then 0 else -1
  | _ => -1
  end.
Proof.
  unfold ldap_verify_user_password. run_directory w uid.
  destruct msg as [|entry msg]; [reflexivity|].
  cbn [ldap_first_entry hd_error ldap_unbind_s].
  match goal with
  | |- context [ldap_init_and_bind ?h ?d ?p ?w2] =>
      pose proof (ldap_init_and_bind_result h d p w2) as Hbind2;
      destruct (ldap_init_and_bind h d p w2) as [ld2 w3]
  end.
  destruct Hbind2 as (-> & _ & _).
  cbn [record_call record w_directory]. rewrite Hdir1.
  destruct (session_opens _ _ _ _); reflexivity.
Qed.

(** C3, as the code has it.  ldap_count_users reports a failed bind or
    search as -1, which no search that succeeds yields, its count being
    0 or more.  ldap_list_users and ldap_verify_user_password report a
    failed bind or search exactly as they report a search that succeeds
    without an entry: the empty list, and -1. *)
Theorem directory_failure_reporting
        (uid passwd : string) (w_fail w_none : World) :
  directory_search manager uid (w_directory w_fail) = None ->
  directory_search manager uid (w_directory w_none) = Some [] ->
  fst (ldap_count_users manager uid w_fail) = -1
  /\ fst (ldap_count_users manager uid w_none) = 0
  /\ (forall w msg, directory_search manager uid (w_directory w) = Some msg ->
        0 <= fst (ldap_count_users manager uid w))
  /\ fst (ldap_list_users manager uid w_fail) = []
  /\ fst (ldap_list_users manager uid w_none) = []
  /\ fst (ldap_verify_user_password manager uid passwd w_fail) = -1
  /\ fst (ldap_verify_user_password manager uid passwd w_none) = -1.
Proof.
  intros Hfail Hnone.
  rewrite !ldap_count_users_result, !ldap_list_users_result,
    !ldap_verify_user_password_result.
  rewrite Hfail, Hnone. repeat split.
  intros w msg Hw. rewrite ldap_count_users_result, Hw. lia.
Qed.

End Adapter.

(** C3, as stated, fails for ldap_list_users and for
    ldap_verify_user_password: a directory whose search fails and a
    directory that finds no entry get the same answer from each. *)
Lemma directory_failure_not_distinguished :
  ~ (forall manager uid w_fail w_none,
       directory_search manager uid (w_directory w_fail) = None ->
       directory_search manager uid (w_directory w_none) = Some [] ->
       fst (ldap_list_users manager uid w_fail)
       <> fst (ldap_list_users manager uid w_none))
  /\ ~ (forall manager uid passwd w_fail w_none,
          directory_search manager uid (w_directory w_fail) = None ->
          directory_search manager uid (w_directory w_none) = Some [] ->
          fst (ldap_verify_user_password manager uid passwd w_fail)
          <> fst (ldap_verify_user_password manager uid passwd w_none)).
Proof.
  split; intros H.
  - apply (H ldap_manager "nobody@x" offline_world sample_world); reflexivity.
  - apply (H ldap_manager "nobody@x" "dirpw" offline_world sample_world);
      reflexivity.
Qed.

(** An unreachable directory and a directory without the entry: the
    counts differ, the lists do not. *)
Lemma directory_failure_reporting_witness :
  fst (ldap_count_users ldap_manager "nobody@x" offline_world) = -1
  /\ fst (ldap_count_users ldap_manager "nobody@x" sample_world) = 0
  /\ fst (ldap_list_users ldap_manager "nobody@x" offline_world) = []
  /\ fst (ldap_list_users ldap_manager "nobody@x" sample_world) = [].
Proof.
  destruct (directory_failure_reporting ldap_manager "nobody@x" "dirpw"
              offline_world sample_world eq_refl eq_refl)
    as (H1 & H2 & _ & H3 & H4 & _).
  repeat split; assumption.
Defined.

(** *** Directory delegation *)

Section Delegation.

Import Db.

Variable engine : SqlEngine.
Hypothesis engine_ok : engine_reads engine.
Variable manager : CcnetUserManager.
Hypothesis directory_configured : use_ldap manager = true.

Lemma holds_credentials (r : EmailUserRow) (e p : string) :
  holds (WHERE_email_AND_passwd e p) r = true <->
  row_email r = e /\ row_passwd r = p.
Proof.
  simpl. rewrite andb_true_iff, !String.eqb_eq. reflexivity.
Qed.

(** In directory mode validate ends in one of two ways, whatever the
    engine makes of the lookup. *)
Lemma validate_emailuser_outcomes (email passwd : string) (w : World) :
  let looked_up := record (lookup_credentials email (hash_password passwd)) w in
  ccnet_user_manager_validate_emailuser engine manager email passwd w
  = (0, looked_up)
  \/ ccnet_user_manager_validate_emailuser engine manager email passwd w
     = ldap_verify_user_password manager email passwd looked_up.
Proof.
  unfold ccnet_user_manager_validate_emailuser, lookup_credentials.
  rewrite directory_configured. cbv zeta. unfold bind.
  destruct (lookup_outcomes engine
              (snprintf 512 (select_emailuser_passwd_sql email
                                                         (hash_password passwd)))
              w) as (n & emailuser & ->).
  destruct ((n >? 0) && ccnet_email_user_get_is_staff emailuser);
    [left|right]; reflexivity.
Qed.

(** What validate does in directory mode, by the first row of the lookup,
    for an email that is read as it is meant. *)
Lemma validate_emailuser_delegated (email passwd : string) (w : World) :
  plain email = true -> (String.length email <= 383)%nat ->
  let looked_up := record (lookup_credentials email (hash_password passwd)) w in
  ccnet_user_manager_validate_emailuser engine manager email passwd w =
  match filter (holds (WHERE_email_AND_passwd email (hash_password passwd)))
               (db_rows (w_db w)) with
  | [] => ldap_verify_user_password manager email passwd looked_up
  | r :: _ =>
      if row_is_staff_set r then (0, looked_up)
      else ldap_verify_user_password manager email passwd looked_up
  end.
Proof.
  intros He Hlen.
  unfold ccnet_user_manager_validate_emailuser, lookup_credentials.
  rewrite directory_configured. cbv zeta. unfold bind.
  rewrite (lookup_first_row_sql engine _
             (WHERE_email_AND_passwd email (hash_password passwd))).
  - destruct (filter _ (db_rows (w_db w))) as [|r rest]; [reflexivity|].
    cbn [Z.gtb Z.compare andb ccnet_email_user_get_is_staff].
    change (user_is_staff (emailuser_of_row r)) with (row_is_staff_set r).
    destruct (row_is_staff_set r); reflexivity.
  - rewrite sent_select_emailuser_passwd by assumption.
    apply (reads_select_emailuser_passwd engine engine_ok);
      [assumption|apply hash_password_plain].
Qed.

(** C1, for the emails that reach the engine as they are meant.  With a
    directory configured and an email without a quote, of at most 383
    characters, validate first asks the table for a row whose email and
    digest both match.  When there is one and it is staff, validate answers
    0 at once, having made no directory call; when no row matches or the
    matching row is not staff, what follows the lookup is
    ldap_verify_user_password on the same arguments, result and effects
    alike. *)
Theorem validate_staff_bypass_or_directory (email passwd : string) (w : World) :
  plain email = true -> (String.length email <= 383)%nat ->
  schema_ok (w_db w) = true ->
  let looked_up := record (lookup_credentials email (hash_password passwd)) w in
  (forall r, In r (db_rows (w_db w)) ->
     row_email r = email -> row_passwd r = hash_password passwd ->
     row_is_staff_set r = true ->
     ccnet_user_manager_validate_emailuser engine manager email passwd w
     = (0, looked_up))
  /\ directory_calls looked_up = directory_calls w
  /\ ((forall r, In r (db_rows (w_db w)) ->
         row_email r = email -> row_passwd r = hash_password passwd ->
         row_is_staff_set r = false) ->
      ccnet_user_manager_validate_emailuser engine manager email passwd w =
      ldap_verify_user_password manager email passwd looked_up).
Proof.
  intros He Hlen Hok looked_up. subst looked_up.
  rewrite (validate_emailuser_delegated _ _ _ He Hlen). cbv zeta.
  split; [|split; [reflexivity|]].
  - intros r Hin <- Hp Hstaff. rewrite <- Hp.
    rewrite (select_credentials_hit _ _ Hok Hin). now rewrite Hstaff.
  - intros Hnone.
    destruct (filter _ (db_rows (w_db w))) as [|r rest] eqn:Hsel;
      [reflexivity|].
    apply filter_head_in in Hsel. destruct Hsel as [Hin Hr].
    apply holds_credentials in Hr. destruct Hr as [Hemail Hp].
    now rewrite (Hnone r Hin Hemail Hp).
Qed.

(** C10, for the emails that reach the engine as they are meant.  With a
    directory configured, a staff account stored locally under an email
    without a quote, of at most 383 characters, that presents a password
    with another digest than the stored one is not refused locally: after
    the lookup, validate is ldap_verify_user_password on the same
    arguments, so the verdict of the directory is the result. *)
Theorem validate_staff_wrong_digest_goes_to_directory
        (r : EmailUserRow) (passwd : string) (w : World) :
  plain (row_email r) = true -> (String.length (row_email r) <= 383)%nat ->
  schema_ok (w_db w) = true ->
  In r (db_rows (w_db w)) ->
  row_is_staff_set r = true ->
  row_passwd r <> hash_password passwd ->
  ccnet_user_manager_validate_emailuser engine manager (row_email r) passwd w =
  ldap_verify_user_password manager (row_email r) passwd
    (record (lookup_credentials (row_email r) (hash_password passwd)) w).
Proof.
  intros He Hlen Hok Hin _ Hp.
  rewrite (validate_emailuser_delegated _ _ _ He Hlen). cbv zeta.
  now rewrite (select_credentials_miss _ _ _ Hok Hin Hp).
Qed.

Lemma hd_error_rev_map (msg : list Ldap.LDAPEntry) :
  hd_error (rev (map ldap_user msg)) = option_map ldap_user (hd_error (rev msg)).
Proof.
  rewrite <- map_rev. destruct (rev msg); reflexivity.
Qed.

Lemma first_listed_unfolded (email : string) (w : World) :
  (users <- ldap_list_users manager email ;;
   match users with
   | [] => ret None
   | emailuser :: _ => ret (Some emailuser)
   end) w = first_listed manager email w.
Proof.
  unfold bind, first_listed.
  destruct (ldap_list_users manager email w) as [[|u us] w']; reflexivity.
Qed.

(** In directory mode get ends in one of two ways, whatever the engine
    makes of the lookup. *)
Lemma get_emailuser_outcomes (email : string) (w : World) :
  let looked_up := record (lookup_email email) w in
  (exists emailuser,
     ccnet_user_manager_get_emailuser engine manager email w
     = (emailuser, looked_up))
  \/ ccnet_user_manager_get_emailuser engine manager email w
     = first_listed manager email looked_up.
Proof.
  unfold ccnet_user_manager_get_emailuser, lookup_email.
  rewrite directory_configured. cbv beta iota zeta. unfold bind at 1 3.
  destruct (lookup_outcomes engine (snprintf 512 (select_emailuser_sql email)) w)
    as (n & emailuser & ->).
  destruct ((n >? 0) && ccnet_email_user_get_is_staff emailuser).
  - left. now exists emailuser.
  - right. apply first_listed_unfolded.
Qed.

(** What get does in directory mode, by the first row of the lookup, for
    an email that is read as it is meant. *)
Lemma get_emailuser_delegated (email : string) (w : World) :
  plain email = true -> (String.length email <= 437)%nat ->
  ccnet_user_manager_get_emailuser engine manager email w =
  match filter (holds (WHERE_email email)) (db_rows (w_db w)) with
  | [] => first_listed manager email (record (lookup_email email) w)
  | r :: _ =>
      if row_is_staff_set r
      then (Some (emailuser_of_row r), record (lookup_email email) w)
      else first_listed manager email (record (lookup_email email) w)
  end.
Proof.
  intros He Hlen.
  unfold ccnet_user_manager_get_emailuser, lookup_email.
  rewrite directory_configured. cbv zeta. unfold bind at 1.
  rewrite (lookup_first_row_sql engine _ (WHERE_email email)).
  - destruct (filter _ (db_rows (w_db w))) as [|r rest];
      [apply first_listed_unfolded|].
    cbn [Z.gtb Z.compare andb ccnet_email_user_get_is_staff].
    change (user_is_staff (emailuser_of_row r)) with (row_is_staff_set r).
    destruct (row_is_staff_set r); [reflexivity|apply first_listed_unfolded].
  - rewrite sent_select_emailuser by assumption.
    now apply (reads_select_emailuser engine engine_ok).
Qed.

(** C2, for the emails that reach the engine as they are meant.  With a
    directory configured and an email without a quote, of at most 437
    characters, get first asks the table for the row with the email.  When
    there is one and it is staff, it is returned as it is stored and no
    directory call is made.  Otherwise what follows the lookup is
    ldap_list_users on the email, of which get returns the first element:
    an object built from a directory entry, with id 0 and is_staff FALSE,
    or NULL when the search finds no entry. *)
Theorem get_staff_local_or_directory (email : string) (w : World) :
  plain email = true -> (String.length email <= 437)%nat ->
  schema_ok (w_db w) = true ->
  let looked_up := record (lookup_email email) w in
  (forall r, In r (db_rows (w_db w)) ->
     row_email r = email -> row_is_staff_set r = true ->
     ccnet_user_manager_get_emailuser engine manager email w
     = (Some (emailuser_of_row r), looked_up))
  /\ directory_calls looked_up = directory_calls w
  /\ ((forall r, In r (db_rows (w_db w)) ->
         row_email r = email -> row_is_staff_set r = false) ->
      ccnet_user_manager_get_emailuser engine manager email w
      = first_listed manager email looked_up
      /\ fst (ccnet_user_manager_get_emailuser engine manager email w)
         = match directory_search manager email (w_directory w) with
           | Some msg => option_map ldap_user (hd_error (rev msg))
           | None => None
           end)
  /\ (forall entry,
        ldap_user entry = mkEmailUser 0 (Ldap.entry_val0 entry) false true 0).
Proof.
  intros He Hlen Hok looked_up. subst looked_up.
  rewrite (get_emailuser_delegated _ _ He Hlen).
  split; [|split; [reflexivity|split; [|reflexivity]]].
  - intros r Hin <- Hstaff.
    rewrite (unique_email_row _ (schema_ok_emails _ Hok) _ Hin).
    now rewrite Hstaff.
  - intros Hnone.
    assert (Hget :
      match filter (holds (WHERE_email email)) (db_rows (w_db w)) with
      | [] => first_listed manager email (record (lookup_email email) w)
      | r :: _ =>
          if row_is_staff_set r
          then (Some (emailuser_of_row r), record (lookup_email email) w)
          else first_listed manager email (record (lookup_email email) w)
      end = first_listed manager email (record (lookup_email email) w)).
    { destruct (filter _ (db_rows (w_db w))) as [|r rest] eqn:Hsel;
        [reflexivity|].
      apply filter_head_in in Hsel. destruct Hsel as [Hin Hr].
      simpl in Hr. apply String.eqb_eq in Hr.
      now rewrite (Hnone r Hin Hr). }
    rewrite Hget. split; [reflexivity|].
    unfold first_listed.
    pose proof (ldap_list_users_result manager email
                  (record (lookup_email email) w)) as Hres.
    destruct (ldap_list_users manager email (record (lookup_email email) w))
      as [users w']. simpl in *. rewrite Hres.
    destruct (directory_search manager email (w_directory w));
      [apply hd_error_rev_map|reflexivity].
Qed.

(** C5. With a directory configured, add and remove answer 0 and leave the
    world exactly as it was: the table is unchanged and no statement has
    been sent to the engine. *)
Theorem add_remove_suppressed
        (email passwd : string) (is_staff is_active : Z) (w : World) :
  ccnet_user_manager_add_emailuser engine manager email passwd is_staff
                                   is_active w
  = (0, w)
  /\ ccnet_user_manager_remove_emailuser engine manager email w = (0, w).
Proof.
  unfold ccnet_user_manager_add_emailuser, ccnet_user_manager_remove_emailuser.
  unfold bind, get_current_time. rewrite directory_configured.
  split; reflexivity.
Qed.

(** C9. With a directory configured, get_emailuser_by_id answers NULL for
    every id, and neither the table nor the directory is consulted: the
    world, trace included, is left as it was. *)
Theorem get_by_id_not_found (id : Z) (w : World) :
  ccnet_user_manager_get_emailuser_by_id manager id w = (None, w).
Proof.
  unfold ccnet_user_manager_get_emailuser_by_id.
  now rewrite directory_configured.
Qed.

End Delegation.


(** *** The local store *)

Section LocalStore.

Import Db.

Variable manager : CcnetUserManager.

Lemma Forall2_map_r {A B : Type} (R : A -> B -> Prop) (f : A -> B) (l : list A) :
  (forall x, R x (f x)) -> Forall2 R l (map f l).
Proof. intros H. induction l; simpl; constructor; auto. Qed.

(** C7. update leaves the rows of the table in place, each with its id,
    email and ctime; a row with another id is left as it is, and a row
    with the id is either left as it is (the update was not applied) or
    has passwd, is_staff and is_active replaced by the digest and the
    flags given, which is what happens whenever the statement is sent. *)
Theorem update_overwrites_credentials_only
        (id : Z) (passwd : string) (is_staff is_active : Z) (w : World) :
  let w' := snd (ccnet_user_manager_update_emailuser
                   manager id passwd is_staff is_active w) in
  Forall2 (fun r r' =>
             row_id r' = row_id r /\ row_email r' = row_email r
             /\ row_ctime r' = row_ctime r
             /\ (row_id r <> id -> r' = r)
             /\ (r' = r \/
                 (row_id r = id
                  /\ r' = set_credentials (hash_password passwd)
                                          is_staff is_active r)))
          (db_rows (w_db w)) (db_rows (w_db w'))
  /\ db_rows (w_db w')
     = (if negb (use_ldap manager) || negb (is_staff =? 0)
        then updated_rows id passwd is_staff is_active (db_rows (w_db w))
        else db_rows (w_db w))
  /\ db_seq (w_db w') = db_seq (w_db w).
Proof.
  unfold ccnet_user_manager_update_emailuser, gboolean.
  destruct (negb (use_ldap manager) || negb (is_staff =? 0)); simpl.
  - split; [|split; reflexivity].
    apply Forall2_map_r. intros r.
    destruct (row_id r =? id) eqn:E.
    + apply Z.eqb_eq in E. simpl. repeat split; auto. intros; lia.
    + repeat split; auto.
  - split; [|split; reflexivity].
    rewrite <- (map_id (db_rows (w_db w))) at 2.
    apply Forall2_map_r. intros r. repeat split; auto.
Qed.

(** C4, as the code has it.  Without a directory the UPDATE is always
    sent.  With a directory configured it is sent exactly when the
    is_staff argument of the call is not 0, whatever the stored row holds;
    when the argument is 0 the call answers 0 and leaves the world as it
    was. *)
Theorem update_gated_by_is_staff_argument
        (id : Z) (passwd : string) (is_staff is_active : Z) (w : World) :
  let statement := UPDATE (hash_password passwd) is_staff is_active (WHERE_id id) in
  let applied :=
    (0, mkWorld (mkDB (updated_rows id passwd is_staff is_active
                                    (db_rows (w_db w)))
                      (db_seq (w_db w)))
                (w_clock w) (w_directory w)
                (sql_statement statement :: w_trace w)) in
  (use_ldap manager = false ->
   ccnet_user_manager_update_emailuser manager id passwd is_staff is_active w
   = applied)
  /\ (use_ldap manager = true -> is_staff <> 0 ->
      ccnet_user_manager_update_emailuser manager id passwd is_staff is_active w
      = applied)
  /\ (use_ldap manager = true -> is_staff = 0 ->
      ccnet_user_manager_update_emailuser manager id passwd is_staff is_active w
      = (0, w)).
Proof.
  unfold ccnet_user_manager_update_emailuser, gboolean. simpl.
  split; [|split].
  - intros ->. reflexivity.
  - intros -> Hs. apply Z.eqb_neq in Hs. rewrite Hs. reflexivity.
  - intros -> ->. reflexivity.
Qed.

End LocalStore.

(** C4, as stated, fails.  With a directory configured and user@x stored as
    a regular account under id 2, update with is_staff 1 rewrites the row;
    with admin@x stored as staff under id 1, update with is_staff 0 leaves
    the table as it was. *)
Lemma update_gate_ignores_stored_row :
  let regular := Db.mkRow 2 "user@x" (hash_password "hunter2") 0 1 2000 in
  let admin := Db.mkRow 1 "admin@x" (hash_password "secret") 1 1 1000 in
  use_ldap ldap_manager = true
  /\ Db.db_rows (w_db sample_world) = [admin; regular]
  /\ row_is_staff_set regular = false
  /\ Db.db_rows (w_db (snd (ccnet_user_manager_update_emailuser
                              ldap_manager 2 "new" 1 1 sample_world)))
     = [admin; Db.mkRow 2 "user@x" (hash_password "new") 1 1 2000]
  /\ row_is_staff_set admin = true
  /\ ccnet_user_manager_update_emailuser ldap_manager 1 "new" 0 1 sample_world
     = (0, sample_world).
Proof.
  repeat apply conj; vm_compute; reflexivity.
Qed.

(** In directory mode an update with is_staff 0 is not sent, even for the
    staff row; without a directory it is. *)
Lemma update_gated_by_is_staff_argument_witness :
  ccnet_user_manager_update_emailuser ldap_manager 1 "new" 0 1 sample_world
  = (0, sample_world)
  /\ fst (ccnet_user_manager_update_emailuser local_manager 2 "new" 0 1
            sample_world) = 0.
Proof.
  split.
  - apply (update_gated_by_is_staff_argument ldap_manager 1 "new" 0 1
             sample_world); reflexivity.
  - rewrite (proj1 (update_gated_by_is_staff_argument local_manager 2 "new" 0 1
                      sample_world) eq_refl).
    reflexivity.
Defined.

Section NoDirectory.

Import Db.

Variable engine : SqlEngine.
Hypothesis engine_ok : engine_reads engine.
Variable manager : CcnetUserManager.
Hypothesis no_directory : use_ldap manager = false.

Lemma validate_local (email passwd : string) (w : World) :
  plain email = true -> (String.length email <= 415)%nat ->
  fst (ccnet_user_manager_validate_emailuser engine manager email passwd w) =
  match filter (holds (WHERE_email_AND_passwd email (hash_password passwd)))
               (db_rows (w_db w)) with
  | [] => -1
  | _ :: _ => 0
  end.
Proof.
  intros He Hlen.
  unfold ccnet_user_manager_validate_emailuser. rewrite no_directory.
  cbv beta iota zeta. unfold bind, ccnet_db_check_for_existence.
  rewrite sent_select_email_passwd by assumption.
  rewrite (reads_select_email_passwd engine engine_ok email _ He
             (hash_password_plain passwd)).
  unfold run_select. cbn [sel_what sel_where sel_limit selected page project].
  destruct (filter _ (db_rows (w_db w))); reflexivity.
Qed.

Lemma no_row_with_email (email : string) (rows : list EmailUserRow) :
  (forall r, In r rows -> row_email r <> email) ->
  filter (holds (WHERE_email email)) rows = []
  /\ existsb (holds (WHERE_email email)) rows = false.
Proof.
  intros H. split.
  - apply filter_none. intros r Hr. simpl. apply String.eqb_neq. now apply H.
  - destruct (existsb _ rows) eqn:E; [|reflexivity].
    apply existsb_exists in E. destruct E as (r & Hr & Hh).
    simpl in Hh. apply String.eqb_eq in Hh. now elim (H r Hr).
Qed.

(** C6, for the emails that reach the engine as they are meant.  Without
    a directory, adding an account whose email holds no quote, is not in
    the table, and is short enough for the INSERT to fit the 512-byte
    buffer, succeeds and stores the digest of the password; afterwards
    validate with the email answers 0 for the password, -1 for every
    password with another digest and 0 for every password with the same
    digest, a digest being 40 characters whatever the password. *)
Theorem add_then_validate
        (email passwd : string) (is_staff is_active : Z) (w : World) :
  plain email = true ->
  fits 512 (insert_emailuser_sql email (hash_password passwd) is_staff is_active
                                 (w_clock w)) = true ->
  (forall r, In r (db_rows (w_db w)) -> row_email r <> email) ->
  let added := ccnet_user_manager_add_emailuser
                 engine manager email passwd is_staff is_active w in
  fst added = 0
  /\ (exists id,
        db_rows (w_db (snd added))
        = (db_rows (w_db w)
             ++ [mkRow id email (hash_password passwd) is_staff is_active
                       (w_clock w)])%list)
  /\ fst (ccnet_user_manager_validate_emailuser engine manager email passwd
            (snd added))
     = 0
  /\ (forall other, hash_password other <> hash_password passwd ->
        fst (ccnet_user_manager_validate_emailuser engine manager email other
               (snd added)) = -1)
  /\ (forall other, hash_password other = hash_password passwd ->
        fst (ccnet_user_manager_validate_emailuser engine manager email other
               (snd added)) = 0)
  /\ String.length (hash_password passwd) = 40%nat.
Proof.
  intros He Hfits Hnew added.
  destruct (no_row_with_email _ _ Hnew) as [Hfilter Hexists].
  assert (Hlen : (String.length email <= 415)%nat).
  { apply insert_emailuser_sql_fits in Hfits. lia. }
  assert (Hadded : added =
    (0, mkWorld (mkDB (db_rows (w_db w)
                         ++ [mkRow (Z.max (db_seq (w_db w))
                                          (max_id (db_rows (w_db w))) + 1)
                                   email (hash_password passwd)
                                   is_staff is_active (w_clock w)])
                      (Z.max (db_seq (w_db w)) (max_id (db_rows (w_db w))) + 1))
                (w_clock w) (w_directory w)
                (sql_text (insert_emailuser_sql email (hash_password passwd)
                                                is_staff is_active (w_clock w))
                 :: w_trace w))).
  { subst added. unfold ccnet_user_manager_add_emailuser.
    rewrite no_directory.
    unfold bind, get_current_time, ccnet_db_query_sql. cbv beta iota zeta.
    rewrite (snprintf_fits _ _ Hfits).
    rewrite (reads_insert engine engine_ok email _ is_staff is_active (w_clock w)
               He (hash_password_plain passwd)).
    unfold execute. rewrite Hexists. reflexivity. }
  assert (Hval : forall other,
    fst (ccnet_user_manager_validate_emailuser engine manager email other
           (snd added))
    = if String.eqb (hash_password passwd) (hash_password other)
      then 0 else -1).
  { intros other. rewrite (validate_local _ _ _ He Hlen), Hadded.
    cbn [snd w_db db_rows].
    rewrite filter_app, filter_email_and_passwd, Hfilter.
    cbn [app filter holds row_email row_passwd].
    rewrite String.eqb_refl. cbn [andb].
    destruct (String.eqb (hash_password passwd) (hash_password other));
      reflexivity. }
  split; [now rewrite Hadded|].
  split; [eexists; now rewrite Hadded|].
  split; [now rewrite Hval, String.eqb_refl|].
  split; [|split].
  - intros other Hother. rewrite Hval.
    destruct (String.eqb_spec (hash_password passwd) (hash_password other));
      [congruence|reflexivity].
  - intros other Hother. rewrite Hval, Hother. now rewrite String.eqb_refl.
  - apply hash_password_length.
Qed.

Lemma foreach_get_emailusers_cb (rows : list EmailUserRow) :
  forall (n : Z) (acc : list CcnetEmailUser),
  foreach_row get_emailusers_cb
              (map (fun r => map (column r) all_columns) rows) n acc
  = (n + Z.of_nat (List.length rows),
     (rev (map emailuser_of_row rows) ++ acc)%list).
Proof.
  induction rows as [|r rows IH]; intros n acc.
  - simpl. now rewrite Z.add_0_r.
  - cbn [map foreach_row List.length].
    change (get_emailusers_cb (map (column r) all_columns) acc)
      with (true, emailuser_of_row r :: acc).
    cbv iota. rewrite IH. f_equal; [lia|].
    cbn [rev]. now rewrite <- app_assoc.
Qed.

Lemma get_emailusers_local (start limit : Z) (w : World) :
  fst (ccnet_user_manager_get_emailusers manager start limit w)
  = map emailuser_of_row (page (list_limit start limit) (db_rows (w_db w))).
Proof.
  unfold ccnet_user_manager_get_emailusers. rewrite no_directory.
  unfold bind, ccnet_db_foreach_selected_row, run_select, list_limit.
  destruct ((start =? -1) && (limit =? -1));
    cbn [sel_what sel_where sel_limit selected project];
    rewrite foreach_get_emailusers_cb;
    (destruct (0 + Z.of_nat _ <? 0) eqn:E; [apply Z.ltb_lt in E; lia|]);
    cbn [fst ret]; now rewrite app_nil_r, rev_involutive.
Qed.

Lemma page_is_segment (lim : option (Z * Z)) (rows : list EmailUserRow) :
  exists before after, rows = (before ++ page lim rows ++ after)%list.
Proof.
  destruct lim as [[start limit]|]; simpl.
  - destruct (limit <? 0).
    + exists (firstn (Z.to_nat start) rows), [].
      now rewrite app_nil_r, firstn_skipn.
    + exists (firstn (Z.to_nat start) rows),
             (skipn (Z.to_nat limit) (skipn (Z.to_nat start) rows)).
      now rewrite !firstn_skipn.
  - exists [], []. now rewrite app_nil_r.
Qed.

(** C8. Without a directory, get_emailusers (-1, -1) answers every row
    of the table, as many as count_emailusers reports.  With a start and
    a limit that are not negative it answers the page of [limit] rows
    after the first [start], hence at most [limit] accounts, and at most 2
    for (0, 2).  Whatever the arguments, the accounts answered are a run
    of consecutive rows of the table, in storage order. *)
Theorem get_emailusers_pages (w : World) :
  let rows := db_rows (w_db w) in
  let listed := fun start limit =>
    fst (ccnet_user_manager_get_emailusers manager start limit w) in
  listed (-1) (-1) = map emailuser_of_row rows
  /\ Z.of_nat (List.length (listed (-1) (-1)))
     = fst (ccnet_user_manager_count_emailusers manager w)
  /\ (forall start limit, 0 <= start -> 0 <= limit ->
        listed start limit
        = map emailuser_of_row
              (firstn (Z.to_nat limit) (skipn (Z.to_nat start) rows))
        /\ Z.of_nat (List.length (listed start limit)) <= limit)
  /\ Nat.le (List.length (listed 0 2)) 2
  /\ (forall start limit, exists before after,
        map emailuser_of_row rows
        = (before ++ listed start limit ++ after)%list).
Proof.
  intros rows listed. subst listed. cbv beta.
  assert (Hpage : forall start limit, 0 <= start -> 0 <= limit ->
    fst (ccnet_user_manager_get_emailusers manager start limit w)
    = map emailuser_of_row
          (firstn (Z.to_nat limit) (skipn (Z.to_nat start) rows))).
  { intros start limit Hs Hl. rewrite get_emailusers_local.
    unfold list_limit.
    replace (start =? -1) with false by (symmetry; apply Z.eqb_neq; lia).
    cbn [andb page].
    replace (limit <? 0) with false by (symmetry; apply Z.ltb_ge; lia).
    reflexivity. }
  split; [apply get_emailusers_local|].
  split.
  { rewrite get_emailusers_local. cbn [list_limit Z.eqb andb page].
    rewrite length_map.
    unfold ccnet_user_manager_count_emailusers. now rewrite no_directory. }
  split.
  { intros start limit Hs Hl. split; [now apply Hpage|].
    rewrite Hpage by assumption.
    rewrite length_map, length_firstn. lia. }
  split.
  { rewrite Hpage by lia. rewrite length_map, length_firstn.
    change (Z.to_nat 2) with 2%nat. unfold Nat.le. lia. }
  intros start limit. rewrite get_emailusers_local.
  destruct (page_is_segment (list_limit start limit) rows)
    as (before & after & Hseg).
  exists (map emailuser_of_row before), (map emailuser_of_row after).
  rewrite <- !map_app. f_equal. exact Hseg.
Qed.

End NoDirectory.

(** *** The properties at the sample states *)

(** The staff account admin@x is accepted with its local password and
    the directory has not been called; the regular account user@x goes to
    the directory. *)
Lemma validate_staff_bypass_witness :
  use_ldap ldap_manager = true
  /\ plain "admin@x" = true
  /\ Db.schema_ok (w_db sample_world) = true
  /\ ccnet_user_manager_validate_emailuser reference_engine ldap_manager
       "admin@x" "secret" sample_world
     = (0, record (lookup_credentials "admin@x" (hash_password "secret"))
                  sample_world)
  /\ directory_calls
       (snd (ccnet_user_manager_validate_emailuser reference_engine ldap_manager
               "admin@x" "secret" sample_world)) = []
  /\ ccnet_user_manager_validate_emailuser reference_engine ldap_manager
       "user@x" "dirpw" sample_world
     = ldap_verify_user_password ldap_manager "user@x" "dirpw"
         (record (lookup_credentials "user@x" (hash_password "dirpw"))
                 sample_world).
Proof.
  pose proof (validate_staff_bypass_or_directory reference_engine
                reference_engine_reads ldap_manager eq_refl
                "admin@x" "secret" sample_world eq_refl
                ltac:(cbn [String.length]; lia) eq_refl) as Hadmin.
  pose proof (validate_staff_bypass_or_directory reference_engine
                reference_engine_reads ldap_manager eq_refl
                "user@x" "dirpw" sample_world eq_refl
                ltac:(cbn [String.length]; lia) eq_refl) as Huser.
  cbv zeta in Hadmin, Huser.
  destruct Hadmin as (Hadmin & Hcalls & _). destruct Huser as (_ & _ & Huser).
  specialize (Hadmin (Db.mkRow 1 "admin@x" (hash_password "secret") 1 1 1000)
                     (or_introl eq_refl) eq_refl eq_refl eq_refl).
  split; [reflexivity|]. split; [reflexivity|]. split; [reflexivity|].
  split; [exact Hadmin|]. split.
  - rewrite Hadmin. exact Hcalls.
  - apply Huser. intros r [<-|[<-|[]]] He Hp.
    + vm_compute in He. discriminate He.
    + reflexivity.
Defined.

(** C1, as stated, fails.  The email admin@x' -- is the email of no row,
    yet validate answers 0 for it with any password and calls no directory,
    where the directory would answer -1: the engine reads the lookup up to
    the quote of the email and takes the rest for a comment.  An email of
    437 characters fills the buffer up to its closing quote, the digest is
    cut off, and the staff account stored under it is accepted with a
    wrong password.  And the staff account stored under an email of 384
    characters, the shortest whose lookup does not fit, is not accepted
    with its own password: the engine refuses the lookup, cut before its
    last quote, and the directory is asked. *)
Lemma validate_bypass_without_digest_match :
  let quoted := "admin@x' --" in
  let validated :=
    ccnet_user_manager_validate_emailuser reference_engine ldap_manager quoted
      "wrong" sample_world in
  let long := long_email 437 in
  let long_validated :=
    ccnet_user_manager_validate_emailuser reference_engine ldap_manager long
      "wrong" (long_world 437) in
  let cut_validated :=
    ccnet_user_manager_validate_emailuser reference_engine ldap_manager
      (long_email 384) "secret" (long_world 384) in
  use_ldap ldap_manager = true
  /\ (forall r, In r (Db.db_rows (w_db sample_world)) -> Db.row_email r <> quoted)
  /\ fst validated = 0
  /\ directory_calls (snd validated) = []
  /\ fst (ldap_verify_user_password ldap_manager quoted "wrong"
            (record (lookup_credentials quoted (hash_password "wrong"))
                    sample_world)) = -1
  /\ (forall r, In r (Db.db_rows (w_db (long_world 437))) ->
        Db.row_passwd r <> hash_password "wrong")
  /\ fst long_validated = 0
  /\ directory_calls (snd long_validated) = []
  /\ fst (ldap_verify_user_password ldap_manager long "wrong"
            (record (lookup_credentials long (hash_password "wrong"))
                    (long_world 437))) = -1
  /\ Db.db_rows (w_db (long_world 384))
     = [Db.mkRow 1 (long_email 384) (hash_password "secret") 1 1 1000]
  /\ plain (long_email 384) = true
  /\ fst cut_validated = -1
  /\ directory_calls (snd cut_validated) <> [].
Proof.
  cbv zeta. repeat apply conj; try (vm_compute; reflexivity).
  - intros r [<-|[<-|[]]] E; vm_compute in E; discriminate E.
  - intros r [<-|[]] E; vm_compute in E; discriminate E.
  - intros E. vm_compute in E. discriminate E.
Qed.

(** The staff account admin@x, whose local password is "secret", is
    accepted with its directory password "dirpw". *)
Lemma validate_staff_wrong_digest_witness :
  Db.row_passwd (Db.mkRow 1 "admin@x" (hash_password "secret") 1 1 1000)
  <> hash_password "dirpw"
  /\ ccnet_user_manager_validate_emailuser reference_engine ldap_manager
       "admin@x" "dirpw" sample_world
     = ldap_verify_user_password ldap_manager "admin@x" "dirpw"
         (record (lookup_credentials "admin@x" (hash_password "dirpw"))
                 sample_world)
  /\ fst (ccnet_user_manager_validate_emailuser reference_engine ldap_manager
            "admin@x" "dirpw" sample_world) = 0.
Proof.
  assert (Hdigest :
    Db.row_passwd (Db.mkRow 1 "admin@x" (hash_password "secret") 1 1 1000)
    <> hash_password "dirpw").
  { intros H. vm_compute in H. discriminate H. }
  pose proof (validate_staff_wrong_digest_goes_to_directory reference_engine
                reference_engine_reads ldap_manager eq_refl
                (Db.mkRow 1 "admin@x" (hash_password "secret") 1 1 1000)
                "dirpw" sample_world eq_refl ltac:(cbn; lia) eq_refl
                (or_introl eq_refl) eq_refl Hdigest)
    as Hgo.
  cbn [Db.row_email] in Hgo.
  repeat apply conj; [exact Hdigest|exact Hgo|].
  rewrite Hgo. vm_compute. reflexivity.
Defined.

(** C10, as stated, fails.  In a table with the staff accounts admin and
    admin' --, validate for admin' -- with a password of another digest
    than the stored one answers 0 without a directory call, where the
    directory would answer -1: the engine reads the lookup as one for
    admin, whatever the digest.  And the staff account stored under an
    email of 437 characters is accepted with a wrong password, the digest
    being cut off the lookup. *)
Lemma validate_staff_wrong_digest_accepted :
  let stored := Db.mkRow 2 "admin' --" (hash_password "hunter2") 1 1 2000 in
  let validated :=
    ccnet_user_manager_validate_emailuser reference_engine ldap_manager
      "admin' --" "wrong" quoted_world in
  let long_stored :=
    Db.mkRow 1 (long_email 437) (hash_password "secret") 1 1 1000 in
  let long_validated :=
    ccnet_user_manager_validate_emailuser reference_engine ldap_manager
      (long_email 437) "wrong" (long_world 437) in
  use_ldap ldap_manager = true
  /\ Db.schema_ok (w_db quoted_world) = true
  /\ In stored (Db.db_rows (w_db quoted_world))
  /\ row_is_staff_set stored = true
  /\ Db.row_passwd stored <> hash_password "wrong"
  /\ fst validated = 0
  /\ directory_calls (snd validated) = []
  /\ fst (ldap_verify_user_password ldap_manager "admin' --" "wrong"
            (record (lookup_credentials "admin' --" (hash_password "wrong"))
                    quoted_world)) = -1
  /\ Db.schema_ok (w_db (long_world 437)) = true
  /\ In long_stored (Db.db_rows (w_db (long_world 437)))
  /\ row_is_staff_set long_stored = true
  /\ plain (long_email 437) = true
  /\ Db.row_passwd long_stored <> hash_password "wrong"
  /\ fst long_validated = 0
  /\ directory_calls (snd long_validated) = []
  /\ fst (ldap_verify_user_password ldap_manager (long_email 437) "wrong"
            (record (lookup_credentials (long_email 437) (hash_password "wrong"))
                    (long_world 437))) = -1.
Proof.
  cbv zeta. repeat apply conj; try (vm_compute; reflexivity).
  - right. left. reflexivity.
  - intros E. vm_compute in E. discriminate E.
  - left. reflexivity.
  - intros E. vm_compute in E. discriminate E.
Qed.

(** admin@x is answered from the table, user@x from the directory, and
    nobody@x is not found. *)
Lemma get_staff_local_or_directory_witness :
  ccnet_user_manager_get_emailuser reference_engine ldap_manager "admin@x"
    sample_world
  = (Some (mkEmailUser 1 "admin@x" true true 1000),
     record (lookup_email "admin@x") sample_world)
  /\ fst (ccnet_user_manager_get_emailuser reference_engine ldap_manager
            "user@x" sample_world)
     = Some (mkEmailUser 0 "user@x" false true 0)
  /\ fst (ccnet_user_manager_get_emailuser reference_engine ldap_manager
            "nobody@x" sample_world)
     = None.
Proof.
  pose proof (get_staff_local_or_directory reference_engine
                reference_engine_reads ldap_manager eq_refl
                "admin@x" sample_world eq_refl
                ltac:(cbn [String.length]; lia) eq_refl) as Hadmin.
  pose proof (get_staff_local_or_directory reference_engine
                reference_engine_reads ldap_manager eq_refl
                "user@x" sample_world eq_refl
                ltac:(cbn [String.length]; lia) eq_refl) as Huser.
  pose proof (get_staff_local_or_directory reference_engine
                reference_engine_reads ldap_manager eq_refl
                "nobody@x" sample_world eq_refl
                ltac:(cbn [String.length]; lia) eq_refl) as Hnobody.
  cbv zeta in Hadmin, Huser, Hnobody.
  destruct Hadmin as (Hadmin & _). destruct Huser as (_ & _ & Huser & _).
  destruct Hnobody as (_ & _ & Hnobody & _).
  repeat apply conj.
  - apply (Hadmin (Db.mkRow 1 "admin@x" (hash_password "secret") 1 1 1000));
      [left; reflexivity|reflexivity..].
  - refine (eq_trans (proj2 (Huser _)) _); [|reflexivity].
    intros r [<-|[<-|[]]] He.
    + vm_compute in He. discriminate He.
    + reflexivity.
  - refine (eq_trans (proj2 (Hnobody _)) _); [|reflexivity].
    intros r [<-|[<-|[]]] He; vm_compute in He; discriminate He.
Defined.

(** C2, as stated, fails.  The email admin@x' -- is the email of no row
    and of no directory entry, yet get answers the account stored under
    admin@x for it: the engine reads the lookup up to the quote of the
    email.  And the staff account stored under an email of 438 characters
    is not returned: the lookup is cut before its closing quote, the engine
    refuses it, and get answers what the directory has, nothing. *)
Lemma get_answers_another_row :
  let quoted := "admin@x' --" in
  let long_stored :=
    Db.mkRow 1 (long_email 438) (hash_password "secret") 1 1 1000 in
  use_ldap ldap_manager = true
  /\ (forall r, In r (Db.db_rows (w_db sample_world)) -> Db.row_email r <> quoted)
  /\ fst (first_listed ldap_manager quoted
            (record (lookup_email quoted) sample_world)) = None
  /\ fst (ccnet_user_manager_get_emailuser reference_engine ldap_manager quoted
            sample_world)
     = Some (mkEmailUser 1 "admin@x" true true 1000)
  /\ Db.schema_ok (w_db (long_world 438)) = true
  /\ In long_stored (Db.db_rows (w_db (long_world 438)))
  /\ row_is_staff_set long_stored = true
  /\ plain (long_email 438) = true
  /\ fst (ccnet_user_manager_get_emailuser reference_engine ldap_manager
            (long_email 438) (long_world 438)) = None.
Proof.
  cbv zeta. repeat apply conj; try (vm_compute; reflexivity).
  - intros r [<-|[<-|[]]] E; vm_compute in E; discriminate E.
  - left. reflexivity.
Qed.

(** In directory mode add and remove change nothing. *)
Lemma add_remove_suppressed_witness :
  use_ldap ldap_manager = true
  /\ ccnet_user_manager_add_emailuser reference_engine ldap_manager "new@x" "pw"
       0 1 sample_world
     = (0, sample_world)
  /\ ccnet_user_manager_remove_emailuser reference_engine ldap_manager "admin@x"
       sample_world
     = (0, sample_world).
Proof.
  split; [reflexivity|].
  exact (add_remove_suppressed reference_engine ldap_manager eq_refl "new@x" "pw"
           0 1 sample_world).
Defined.

(** In directory mode the stored id 1 is not found. *)
Lemma get_by_id_not_found_witness :
  use_ldap ldap_manager = true
  /\ ccnet_user_manager_get_emailuser_by_id ldap_manager 1 sample_world
     = (None, sample_world).
Proof.
  split; [reflexivity|].
  exact (get_by_id_not_found ldap_manager eq_refl 1 sample_world).
Defined.

(** Without a directory, new@x added with "pw" validates with "pw" and
    not with "pW". *)
Lemma add_then_validate_witness :
  let added := ccnet_user_manager_add_emailuser reference_engine local_manager
                 "new@x" "pw" 0 1 sample_world in
  use_ldap local_manager = false
  /\ plain "new@x" = true
  /\ fst added = 0
  /\ fst (ccnet_user_manager_validate_emailuser reference_engine local_manager
            "new@x" "pw" (snd added)) = 0
  /\ fst (ccnet_user_manager_validate_emailuser reference_engine local_manager
            "new@x" "pW" (snd added)) = -1.
Proof.
  cbv zeta.
  assert (Hnew : forall r, In r (Db.db_rows (w_db sample_world)) ->
                           Db.row_email r <> "new@x").
  { intros r [<-|[<-|[]]] He; vm_compute in He; discriminate He. }
  assert (Hfits : fits 512 (insert_emailuser_sql "new@x" (hash_password "pw") 0 1
                                                 (w_clock sample_world)) = true).
  { vm_compute. reflexivity. }
  pose proof (add_then_validate reference_engine reference_engine_reads
                local_manager eq_refl "new@x" "pw" 0 1
                sample_world eq_refl Hfits Hnew) as H.
  cbv zeta in H. destruct H as (H0 & _ & Hsame & Hother & _).
  repeat apply conj; [reflexivity|reflexivity|exact H0|exact Hsame|].
  apply Hother. intros E. vm_compute in E. discriminate E.
Defined.

(** C6, as stated, fails.  The emails o'brien@x and one of 376
    characters are not in the table, yet their add answers -1 and leaves
    the table as it was, so that validate with the password just given
    answers -1: the quote ends the literal of the INSERT before the email
    does, and the long email leaves no room in the buffer for the last
    character of the statement; the engine refuses both texts. *)
Lemma add_refused_for_fresh_email :
  let quoted := "o'brien@x" in
  let added := ccnet_user_manager_add_emailuser reference_engine local_manager
                 quoted "pw" 0 1 sample_world in
  let long := long_email 376 in
  let long_added := ccnet_user_manager_add_emailuser reference_engine
                      local_manager long "pw" 0 1 sample_world in
  use_ldap local_manager = false
  /\ (forall r, In r (Db.db_rows (w_db sample_world)) -> Db.row_email r <> quoted)
  /\ fst added = -1
  /\ w_db (snd added) = w_db sample_world
  /\ fst (ccnet_user_manager_validate_emailuser reference_engine local_manager
            quoted "pw" (snd added)) = -1
  /\ (forall r, In r (Db.db_rows (w_db sample_world)) -> Db.row_email r <> long)
  /\ plain long = true
  /\ fst long_added = -1
  /\ w_db (snd long_added) = w_db sample_world
  /\ fst (ccnet_user_manager_validate_emailuser reference_engine local_manager
            long "pw" (snd long_added)) = -1.
Proof.
  cbv zeta. repeat apply conj; try (vm_compute; reflexivity).
  - intros r [<-|[<-|[]]] E; vm_compute in E; discriminate E.
  - intros r [<-|[<-|[]]] E; vm_compute in E; discriminate E.
Qed.

(** Without a directory, (-1, -1) lists both accounts and (1, 1) the
    second one. *)
Lemma get_emailusers_pages_witness :
  use_ldap local_manager = false
  /\ fst (ccnet_user_manager_get_emailusers local_manager (-1) (-1) sample_world)
     = [mkEmailUser 1 "admin@x" true true 1000;
        mkEmailUser 2 "user@x" false true 2000]
  /\ fst (ccnet_user_manager_get_emailusers local_manager 1 1 sample_world)
     = [mkEmailUser 2 "user@x" false true 2000].
Proof.
  pose proof (get_emailusers_pages local_manager eq_refl sample_world) as H.
  cbv zeta beta in H. destruct H as (Hall & _ & Hpage & _).
  repeat apply conj; [reflexivity|exact Hall|].
  exact (proj1 (Hpage 1 1 ltac:(lia) ltac:(lia))).
Defined.

(* ================================================================== *)
(** ** Further properties *)

(** *** The local store, operation by operation *)

Section LocalOperations.

Import Db.

Variable engine : SqlEngine.
Hypothesis engine_ok : engine_reads engine.
Variable manager : CcnetUserManager.
Hypothesis no_directory : use_ldap manager = false.

(** What add does without a directory, for an email that is read as it is
    meant: the INSERT is executed as it is meant. *)
Lemma add_emailuser_local (email passwd : string) (is_staff is_active : Z)
      (w : World) :
  plain email = true ->
  fits 512 (insert_emailuser_sql email (hash_password passwd) is_staff is_active
                                 (w_clock w)) = true ->
  ccnet_user_manager_add_emailuser engine manager email passwd is_staff
                                   is_active w
  = (fst (execute (INSERT email (hash_password passwd) is_staff is_active
                          (w_clock w)) (w_db w)),
     mkWorld (snd (execute (INSERT email (hash_password passwd) is_staff
                                   is_active (w_clock w)) (w_db w)))
             (w_clock w) (w_directory w)
             (sql_text (insert_emailuser_sql email (hash_password passwd)
                                             is_staff is_active (w_clock w))
              :: w_trace w)).
Proof.
  intros He Hfits.
  unfold ccnet_user_manager_add_emailuser. rewrite no_directory.
  unfold bind, get_current_time, ccnet_db_query_sql. cbv beta iota zeta.
  rewrite (snprintf_fits _ _ Hfits).
  rewrite (reads_insert engine engine_ok email _ is_staff is_active (w_clock w)
             He (hash_password_plain passwd)).
  destruct (execute _ (w_db w)) as [rc db']. reflexivity.
Qed.

(** The world after the INSERT of an email that the table does not hold. *)
Lemma add_emailuser_fresh (email passwd : string) (is_staff is_active : Z)
      (w : World) :
  plain email = true ->
  fits 512 (insert_emailuser_sql email (hash_password passwd) is_staff is_active
                                 (w_clock w)) = true ->
  (forall r, In r (db_rows (w_db w)) -> row_email r <> email) ->
  ccnet_user_manager_add_emailuser engine manager email passwd is_staff
                                   is_active w
  = (0, mkWorld
          (mkDB (db_rows (w_db w)
                   ++ [mkRow (next_id (w_db w)) email (hash_password passwd)
                             is_staff is_active (w_clock w)])
                (next_id (w_db w)))
          (w_clock w) (w_directory w)
          (sql_text (insert_emailuser_sql email (hash_password passwd) is_staff
                                          is_active (w_clock w)) :: w_trace w)).
Proof.
  intros He Hfits Hnew.
  assert (Hexists : existsb (holds (WHERE_email email)) (db_rows (w_db w)) = false).
  { destruct (existsb _ (db_rows (w_db w))) eqn:E; [|reflexivity].
    apply existsb_exists in E. destruct E as (r & Hr & Hh).
    cbn [holds] in Hh. apply String.eqb_eq in Hh. now elim (Hnew r Hr). }
  rewrite (add_emailuser_local _ _ _ _ _ He Hfits).
  unfold execute. rewrite Hexists. reflexivity.
Qed.

Lemma get_emailuser_local_first (email : string) (w : World) :
  plain email = true -> (String.length email <= 437)%nat ->
  fst (ccnet_user_manager_get_emailuser engine manager email w)
  = option_map emailuser_of_row
               (hd_error (filter (holds (WHERE_email email)) (db_rows (w_db w)))).
Proof.
  intros He Hlen.
  unfold ccnet_user_manager_get_emailuser. rewrite no_directory.
  cbv beta iota zeta. unfold bind.
  rewrite (lookup_first_row_sql engine _ (WHERE_email email)).
  - destruct (filter _ (db_rows (w_db w))); reflexivity.
  - rewrite sent_select_emailuser by assumption.
    now apply (reads_select_emailuser engine engine_ok).
Qed.

Lemma get_emailuser_by_id_local_first (id : Z) (w : World) :
  fst (ccnet_user_manager_get_emailuser_by_id manager id w)
  = option_map emailuser_of_row
               (hd_error (filter (holds (WHERE_id id)) (db_rows (w_db w)))).
Proof.
  unfold ccnet_user_manager_get_emailuser_by_id. rewrite no_directory.
  unfold bind. rewrite lookup_first_row.
  destruct (filter _ (db_rows (w_db w))); reflexivity.
Qed.

Lemma validate_local_first (email passwd : string) (w : World) :
  plain email = true -> (String.length email <= 415)%nat ->
  fst (ccnet_user_manager_validate_emailuser engine manager email passwd w) =
  match filter (holds (WHERE_email_AND_passwd email (hash_password passwd)))
               (db_rows (w_db w)) with
  | [] => -1
  | _ :: _ => 0
  end.
Proof.
  intros He Hlen.
  unfold ccnet_user_manager_validate_emailuser. rewrite no_directory.
  cbv beta iota zeta. unfold bind, ccnet_db_check_for_existence.
  rewrite sent_select_email_passwd by assumption.
  rewrite (reads_select_email_passwd engine engine_ok email _ He
             (hash_password_plain passwd)).
  unfold run_select.
  cbn [sel_what sel_where sel_limit selected page project].
  destruct (filter _ (db_rows (w_db w))); reflexivity.
Qed.

Lemma filter_nil_iff {A : Type} (f : A -> bool) (l : list A) :
  filter f l = [] <-> (forall x, In x l -> f x = false).
Proof.
  split.
  - intros Hnil x Hx. destruct (f x) eqn:E; [|reflexivity].
    assert (Hin : In x (filter f l)) by (apply filter_In; tauto).
    rewrite Hnil in Hin. contradiction.
  - induction l as [|y l IH]; intros H; [reflexivity|].
    cbn [filter]. rewrite (H y (or_introl eq_refl)).
    apply IH. intros x Hx. apply H. now right.
Qed.

Lemma filter_keeps_all {A : Type} (f : A -> bool) (l : list A) :
  (forall x, In x l -> f x = true) -> filter f l = l.
Proof.
  induction l as [|y l IH]; intros H; [reflexivity|].
  cbn [filter]. rewrite (H y (or_introl eq_refl)). f_equal.
  apply IH. intros x Hx. apply H. now right.
Qed.

Lemma old_ids_below_next (db : CcnetDB) (r : EmailUserRow) :
  In r (db_rows db) -> row_id r < next_id db.
Proof.
  intros Hin. apply max_id_bound in Hin. unfold next_id. lia.
Qed.

(** X1. Without a directory, add with an email that a stored row already
    has answers -1 and leaves the table as it was, for an email that holds
    no quote and an INSERT that fits the 512-byte buffer. *)
Theorem add_existing_email_rejected
        (email passwd : string) (is_staff is_active : Z) (w : World)
        (r : EmailUserRow) :
  plain email = true ->
  fits 512 (insert_emailuser_sql email (hash_password passwd) is_staff is_active
                                 (w_clock w)) = true ->
  In r (db_rows (w_db w)) -> row_email r = email ->
  let added := ccnet_user_manager_add_emailuser
                 engine manager email passwd is_staff is_active w in
  fst added = -1 /\ w_db (snd added) = w_db w.
Proof.
  intros Hplain Hfits Hin He added. subst added.
  assert (Hexists : existsb (holds (WHERE_email email)) (db_rows (w_db w)) = true).
  { apply existsb_exists. exists r. split; [assumption|].
    cbn [holds]. now apply String.eqb_eq. }
  rewrite (add_emailuser_local _ _ _ _ _ Hplain Hfits).
  unfold execute. rewrite Hexists. split; reflexivity.
Qed.

(** X2. Without a directory, after the add of an email that the table
    does not hold (an email without a quote, and an INSERT that fits the
    512-byte buffer), get by that email answers the account added: the
    email, the two flags as truth values, the time of the add as ctime, and
    an id above every id of the table; get by that id answers the same
    account. *)
Theorem add_then_get
        (email passwd : string) (is_staff is_active : Z) (w : World) :
  plain email = true ->
  fits 512 (insert_emailuser_sql email (hash_password passwd) is_staff is_active
                                 (w_clock w)) = true ->
  (forall r, In r (db_rows (w_db w)) -> row_email r <> email) ->
  let added := ccnet_user_manager_add_emailuser
                 engine manager email passwd is_staff is_active w in
  let account := mkEmailUser (next_id (w_db w)) email (gboolean is_staff)
                             (gboolean is_active) (w_clock w) in
  fst (ccnet_user_manager_get_emailuser engine manager email (snd added))
  = Some account
  /\ fst (ccnet_user_manager_get_emailuser_by_id manager (next_id (w_db w))
            (snd added)) = Some account
  /\ (forall r, In r (db_rows (w_db w)) -> row_id r < next_id (w_db w)).
Proof.
  intros He Hfits Hnew added account. subst added account.
  assert (Hlen : (String.length email <= 437)%nat).
  { apply insert_emailuser_sql_fits in Hfits. lia. }
  rewrite (add_emailuser_fresh _ _ _ _ _ He Hfits Hnew). cbn [snd].
  rewrite (get_emailuser_local_first _ _ He Hlen),
    get_emailuser_by_id_local_first.
  cbn [w_db db_rows]. rewrite !filter_app.
  assert (Hemail : filter (holds (WHERE_email email)) (db_rows (w_db w)) = []).
  { apply filter_nil_iff. intros r Hr. cbn [holds].
    apply String.eqb_neq. now apply Hnew. }
  assert (Hid : filter (holds (WHERE_id (next_id (w_db w)))) (db_rows (w_db w))
                = []).
  { apply filter_nil_iff. intros r Hr. cbn [holds].
    apply Z.eqb_neq. apply old_ids_below_next in Hr. lia. }
  rewrite Hemail, Hid. cbn [app filter holds row_email row_id].
  rewrite String.eqb_refl, Z.eqb_refl.
  repeat split. intros r Hr. now apply old_ids_below_next.
Qed.

(** X3. Without a directory, for an email without a quote, of at most
    415 characters, remove answers 0 and takes out of the table the rows
    with the email, keeping the others in their order; afterwards get by
    the email answers NULL and validate with the email answers -1 for every
    password.  When no row has the email the table is left as it was. *)
Theorem remove_then_not_found (email : string) (w : World) :
  plain email = true -> (String.length email <= 415)%nat ->
  let removed := ccnet_user_manager_remove_emailuser engine manager email w in
  fst removed = 0
  /\ db_rows (w_db (snd removed))
     = filter (fun r => negb (String.eqb (row_email r) email)) (db_rows (w_db w))
  /\ fst (ccnet_user_manager_get_emailuser engine manager email (snd removed))
     = None
  /\ (forall passwd,
        fst (ccnet_user_manager_validate_emailuser engine manager email passwd
               (snd removed)) = -1)
  /\ ((forall r, In r (db_rows (w_db w)) -> row_email r <> email) ->
      db_rows (w_db (snd removed)) = db_rows (w_db w)).
Proof.
  intros He Hlen removed.
  assert (Hrem : removed =
    (0, mkWorld (mkDB (filter (fun r => negb (String.eqb (row_email r) email))
                              (db_rows (w_db w)))
                      (db_seq (w_db w)))
                (w_clock w) (w_directory w)
                (sql_text (delete_emailuser_sql email) :: w_trace w))).
  { subst removed. unfold ccnet_user_manager_remove_emailuser.
    rewrite no_directory. cbv beta iota zeta. unfold ccnet_db_query_sql.
    rewrite sent_delete_emailuser by lia.
    rewrite (reads_delete engine engine_ok email He). reflexivity. }
  assert (Hgone : forall r,
    In r (filter (fun r => negb (String.eqb (row_email r) email))
                 (db_rows (w_db w))) -> row_email r <> email).
  { intros r Hr. apply filter_In in Hr. destruct Hr as [_ Hr].
    apply negb_true_iff in Hr. now apply String.eqb_neq. }
  rewrite Hrem. cbn [fst snd w_db db_rows].
  split; [reflexivity|]. split; [reflexivity|]. split; [|split].
  - rewrite (get_emailuser_local_first _ _ He) by lia. cbn [w_db db_rows].
    replace (filter (holds (WHERE_email email)) _) with (@nil EmailUserRow);
      [reflexivity|].
    symmetry. apply filter_nil_iff. intros r Hr. cbn [holds].
    apply String.eqb_neq. now apply Hgone.
  - intros passwd. rewrite (validate_local_first _ _ _ He Hlen).
    cbn [w_db db_rows].
    replace (filter (holds (WHERE_email_AND_passwd email _)) _)
      with (@nil EmailUserRow); [reflexivity|].
    symmetry. apply filter_nil_iff. intros r Hr. cbn [holds].
    apply andb_false_iff. left. apply String.eqb_neq. now apply Hgone.
  - intros Hnone. apply filter_keeps_all. intros r Hr.
    apply negb_true_iff, String.eqb_neq. now apply Hnone.
Qed.

(** X4. Without a directory, for an email without a quote, of at most
    437 characters, get by email answers the stored row with that email,
    as an object, and NULL exactly when no row has it. *)
Theorem get_emailuser_local (email : string) (w : World) :
  plain email = true -> (String.length email <= 437)%nat ->
  schema_ok (w_db w) = true ->
  let found := fst (ccnet_user_manager_get_emailuser engine manager email w) in
  (forall r, In r (db_rows (w_db w)) -> row_email r = email ->
     found = Some (emailuser_of_row r))
  /\ (found = None <-> forall r, In r (db_rows (w_db w)) -> row_email r <> email)
  /\ (forall user, found = Some user -> user_email user = email).
Proof.
  intros He Hlen Hok found. subst found.
  rewrite (get_emailuser_local_first _ _ He Hlen).
  split; [|split].
  - intros r Hin <-.
    now rewrite (unique_email_row _ (schema_ok_emails _ Hok) _ Hin).
  - destruct (filter _ (db_rows (w_db w))) as [|r rest] eqn:Hsel.
    + split; [|reflexivity]. intros _ r Hr.
      apply String.eqb_neq. exact (proj1 (filter_nil_iff _ _) Hsel r Hr).
    + apply filter_head_in in Hsel. destruct Hsel as [Hin Hr].
      cbn [holds] in Hr. apply String.eqb_eq in Hr.
      split; [discriminate|]. intros H. now elim (H r Hin).
  - intros user. destruct (filter _ (db_rows (w_db w))) as [|r rest] eqn:Hsel;
      [discriminate|].
    apply filter_head_in in Hsel. destruct Hsel as [_ Hr].
    cbn [holds] in Hr. apply String.eqb_eq in Hr.
    cbn [hd_error option_map]. intros [= <-]. exact Hr.
Qed.

(** Under the primary key, the rows with the id of a stored row are that
    row alone. *)
Lemma unique_id_row (rows : list EmailUserRow) :
  NoDup (map row_id rows) ->
  forall r, In r rows -> filter (holds (WHERE_id (row_id r))) rows = [r].
Proof.
  induction rows as [|x rows IH]; intros Hids r Hin; [contradiction|].
  cbn [map] in Hids. apply NoDup_cons_iff in Hids. destruct Hids as [Hx Hrows].
  cbn [filter holds]. destruct Hin as [->|Hin].
  - rewrite Z.eqb_refl. f_equal. apply filter_nil_iff. intros y Hy.
    cbn [holds]. apply Z.eqb_neq. intros E. apply Hx. rewrite <- E.
    now apply in_map.
  - assert (Hne : (row_id x =? row_id r) = false).
    { apply Z.eqb_neq. intros E. apply Hx. rewrite E. now apply in_map. }
    rewrite Hne. now apply IH.
Qed.

(** X5. Without a directory, get by id answers the stored row with that
    id, as an object, and NULL exactly when no row has it. *)
Theorem get_emailuser_by_id_local (id : Z) (w : World) :
  schema_ok (w_db w) = true ->
  let found := fst (ccnet_user_manager_get_emailuser_by_id manager id w) in
  (forall r, In r (db_rows (w_db w)) -> row_id r = id ->
     found = Some (emailuser_of_row r))
  /\ (found = None <-> forall r, In r (db_rows (w_db w)) -> row_id r <> id)
  /\ (forall user, found = Some user -> user_id user = id).
Proof.
  intros Hok found. subst found. rewrite get_emailuser_by_id_local_first.
  apply schema_ok_NoDup in Hok. destruct Hok as [Hids _].
  assert (Hhead : forall r rest,
            filter (holds (WHERE_id id)) (db_rows (w_db w)) = r :: rest ->
            In r (db_rows (w_db w)) /\ row_id r = id).
  { intros r rest Hsel. apply filter_head_in in Hsel.
    destruct Hsel as [Hin Hr]. cbn [holds] in Hr. apply Z.eqb_eq in Hr. tauto. }
  split; [|split].
  - intros r Hin <-. now rewrite (unique_id_row _ Hids _ Hin).
  - destruct (filter _ (db_rows (w_db w))) as [|r rest] eqn:Hsel.
    + split; [|reflexivity]. intros _ r Hr.
      apply Z.eqb_neq. exact (proj1 (filter_nil_iff _ _) Hsel r Hr).
    + destruct (Hhead r rest eq_refl) as [Hin Hr].
      split; [discriminate|]. intros H. now elim (H r Hin).
  - intros user. destruct (filter _ (db_rows (w_db w))) as [|r rest] eqn:Hsel;
      [discriminate|].
    destruct (Hhead r rest eq_refl) as [_ Hr].
    cbn [hd_error option_map]. intros [= <-]. exact Hr.
Qed.

(** X6. Without a directory, for an email without a quote, of at most
    415 characters, validate answers 0 exactly when a stored row has the
    email together with the digest of the password, and -1 in every other
    case, an unknown email and a wrong password alike; it leaves the table
    as it was. *)
Theorem validate_local_iff (email passwd : string) (w : World) :
  plain email = true -> (String.length email <= 415)%nat ->
  let validated :=
    ccnet_user_manager_validate_emailuser engine manager email passwd w in
  (fst validated = 0 <->
   exists r, In r (db_rows (w_db w)) /\ row_email r = email
             /\ row_passwd r = hash_password passwd)
  /\ (fst validated = 0 \/ fst validated = -1)
  /\ w_db (snd validated) = w_db w.
Proof.
  intros Hplain Hlen validated. subst validated.
  rewrite (validate_local_first _ _ _ Hplain Hlen).
  split; [|split].
  - destruct (filter _ (db_rows (w_db w))) as [|r rest] eqn:Hsel.
    + split; [discriminate|]. intros (r & Hin & He & Hp).
      pose proof (proj1 (filter_nil_iff _ _) Hsel r Hin) as Hr.
      cbn [holds] in Hr. rewrite He, Hp, !String.eqb_refl in Hr. discriminate.
    + split; [|reflexivity]. intros _.
      apply filter_head_in in Hsel. destruct Hsel as [Hin Hr].
      cbn [holds] in Hr. apply andb_true_iff in Hr.
      rewrite !String.eqb_eq in Hr. exists r. tauto.
  - destruct (filter _ (db_rows (w_db w))); [now right|now left].
  - unfold ccnet_user_manager_validate_emailuser. rewrite no_directory.
    cbv beta iota zeta. unfold bind, ccnet_db_check_for_existence.
    match goal with
    | |- context [match ?found with true => _ | false => _ end] =>
        destruct found
    end; reflexivity.
Qed.

Lemma update_emailuser_local (id : Z) (passwd : string)
      (is_staff is_active : Z) (w : World) :
  ccnet_user_manager_update_emailuser manager id passwd is_staff is_active w
  = (0, mkWorld (mkDB (updated_rows id passwd is_staff is_active
                                    (db_rows (w_db w)))
                      (db_seq (w_db w)))
                (w_clock w) (w_directory w)
                (sql_statement (UPDATE (hash_password passwd) is_staff is_active
                                       (WHERE_id id)) :: w_trace w)).
Proof.
  unfold ccnet_user_manager_update_emailuser. rewrite no_directory. reflexivity.
Qed.

Lemma filter_update_commute (f : EmailUserRow -> bool)
      (g : EmailUserRow -> EmailUserRow) (rows : list EmailUserRow) :
  (forall x, f (g x) = f x) -> filter f (map g rows) = map g (filter f rows).
Proof.
  intros Hfg. induction rows as [|x rows IH]; [reflexivity|].
  cbn [map filter]. rewrite Hfg. destruct (f x); cbn [map]; now rewrite IH.
Qed.

(** X7. Without a directory, after update of a stored row with a new
    password, validate with the email of the row (an email without a quote,
    of at most 415 characters) answers 0 for the new password and -1 for
    every password with another digest, the former one included. *)
Theorem update_then_validate
        (r : EmailUserRow) (passwd : string) (is_staff is_active : Z)
        (w : World) :
  plain (row_email r) = true -> (String.length (row_email r) <= 415)%nat ->
  schema_ok (w_db w) = true ->
  In r (db_rows (w_db w)) ->
  let updated := ccnet_user_manager_update_emailuser
                   manager (row_id r) passwd is_staff is_active w in
  fst updated = 0
  /\ fst (ccnet_user_manager_validate_emailuser engine manager (row_email r)
            passwd (snd updated)) = 0
  /\ (forall other, hash_password other <> hash_password passwd ->
        fst (ccnet_user_manager_validate_emailuser engine manager (row_email r)
               other (snd updated)) = -1).
Proof.
  intros He Hlen Hok Hin updated. subst updated. rewrite update_emailuser_local.
  cbn [fst snd]. split; [reflexivity|].
  pose proof (schema_ok_emails _ Hok) as Hemails.
  assert (Hrows : forall p,
    filter (holds (WHERE_email_AND_passwd (row_email r) p))
           (updated_rows (row_id r) passwd is_staff is_active (db_rows (w_db w)))
    = if String.eqb (hash_password passwd) p
      then [set_credentials (hash_password passwd) is_staff is_active r]
      else []).
  { intros p. rewrite filter_email_and_passwd.
    assert (Hemail :
      filter (holds (WHERE_email (row_email r)))
             (updated_rows (row_id r) passwd is_staff is_active
                           (db_rows (w_db w)))
      = [set_credentials (hash_password passwd) is_staff is_active r]).
    { unfold updated_rows. rewrite filter_update_commute.
      - rewrite (unique_email_row _ Hemails _ Hin). cbn [map].
        now rewrite Z.eqb_refl.
      - intros x. cbn [holds]. destruct (row_id x =? row_id r); reflexivity. }
    rewrite Hemail. cbn [filter set_credentials row_passwd].
    reflexivity. }
  split.
  - rewrite (validate_local_first _ _ _ He Hlen). cbn [w_db db_rows].
    now rewrite Hrows, String.eqb_refl.
  - intros other Hother. rewrite (validate_local_first _ _ _ He Hlen).
    cbn [w_db db_rows].
    rewrite Hrows.
    destruct (String.eqb_spec (hash_password passwd) (hash_password other));
      [congruence|reflexivity].
Qed.

Lemma firstn_firstn_skipn {A : Type} (k m : nat) (l : list A) :
  (firstn k l ++ firstn m (skipn k l))%list = firstn (k + m) l.
Proof.
  revert l. induction k as [|k IH]; intros l; [reflexivity|].
  destruct l as [|x l]; cbn [firstn skipn Nat.add app].
  - now rewrite firstn_nil.
  - f_equal. apply IH.
Qed.

Lemma skipn_add {A : Type} (a b : nat) (l : list A) :
  skipn (a + b) l = skipn b (skipn a l).
Proof.
  revert l. induction a as [|a IH]; intros l; [reflexivity|].
  destruct l as [|x l]; cbn [skipn Nat.add]; [now rewrite skipn_nil|apply IH].
Qed.

Lemma list_page (start limit : Z) (w : World) :
  0 <= start -> 0 <= limit ->
  fst (ccnet_user_manager_get_emailusers manager start limit w)
  = map emailuser_of_row
        (firstn (Z.to_nat limit) (skipn (Z.to_nat start) (db_rows (w_db w)))).
Proof.
  intros Hs Hl. rewrite (get_emailusers_local manager no_directory).
  unfold list_limit.
  replace (start =? -1) with false by (symmetry; apply Z.eqb_neq; lia).
  cbn [andb page].
  replace (limit <? 0) with false by (symmetry; apply Z.ltb_ge; lia).
  reflexivity.
Qed.

(** X8. Without a directory, consecutive pages add up: the page of [k]
    accounts from [start] followed by the page of [m] accounts from
    [start + k] is the page of [k + m] accounts from [start]; and a page
    from 0 that is at least as long as the table is the whole listing
    of (-1, -1). *)
Theorem pages_compose (start k m : Z) (w : World) :
  0 <= start -> 0 <= k -> 0 <= m ->
  let listed := fun a b =>
    fst (ccnet_user_manager_get_emailusers manager a b w) in
  (listed start k ++ listed (start + k) m)%list = listed start (k + m)
  /\ (Z.of_nat (List.length (db_rows (w_db w))) <= k ->
      listed 0 k = listed (-1) (-1)).
Proof.
  intros Hs Hk Hm listed. subst listed. cbv beta.
  split.
  - rewrite (list_page start k), (list_page (start + k) m),
      (list_page start (k + m)) by lia.
    rewrite <- map_app. f_equal.
    rewrite (Z2Nat.inj_add start k), (Z2Nat.inj_add k m) by lia.
    rewrite skipn_add. apply firstn_firstn_skipn.
  - intros Hlen. rewrite (list_page 0 k) by lia.
    rewrite (get_emailusers_local manager no_directory).
    change (page (list_limit (-1) (-1)) (db_rows (w_db w)))
      with (db_rows (w_db w)).
    cbn [Z.to_nat skipn]. f_equal. apply firstn_all2. lia.
Qed.

(** X9. Without a directory, the add of an email that the table does not
    hold (an email without a quote, and an INSERT that fits the 512-byte
    buffer) puts the new account at the end of the listing and raises the
    count by one. *)
Theorem add_appends_to_listing
        (email passwd : string) (is_staff is_active : Z) (w : World) :
  plain email = true ->
  fits 512 (insert_emailuser_sql email (hash_password passwd) is_staff is_active
                                 (w_clock w)) = true ->
  (forall r, In r (db_rows (w_db w)) -> row_email r <> email) ->
  let added := snd (ccnet_user_manager_add_emailuser
                      engine manager email passwd is_staff is_active w) in
  fst (ccnet_user_manager_get_emailusers manager (-1) (-1) added)
  = (fst (ccnet_user_manager_get_emailusers manager (-1) (-1) w)
       ++ [mkEmailUser (next_id (w_db w)) email (gboolean is_staff)
                       (gboolean is_active) (w_clock w)])%list
  /\ fst (ccnet_user_manager_count_emailusers manager added)
     = fst (ccnet_user_manager_count_emailusers manager w) + 1.
Proof.
  intros He Hfits Hnew added. subst added.
  rewrite (add_emailuser_fresh _ _ _ _ _ He Hfits Hnew). cbn [snd].
  rewrite !(get_emailusers_local manager no_directory).
  change (list_limit (-1) (-1)) with (@None (Z * Z)).
  cbn [page w_db db_rows].
  split; [now rewrite map_app|].
  unfold ccnet_user_manager_count_emailusers. rewrite no_directory.
  unfold ccnet_db_get_int64, run_select.
  cbn [sel_what sel_where sel_limit selected page project fst w_db db_rows
       ccnet_db_row_get_column_int64 ccnet_db_row_get_column_int nth_error].
  rewrite length_app. cbn [List.length]. lia.
Qed.

(** X10. Without a directory, no operation of the account service calls
    the directory. *)
Theorem no_directory_no_directory_call
        (email passwd : string) (id start limit is_staff is_active : Z)
        (w : World) :
  let untouched := fun w' : World => directory_calls w' = directory_calls w in
  untouched (snd (ccnet_user_manager_add_emailuser
                    engine manager email passwd is_staff is_active w))
  /\ untouched (snd (ccnet_user_manager_remove_emailuser engine manager email w))
  /\ untouched (snd (ccnet_user_manager_validate_emailuser
                       engine manager email passwd w))
  /\ untouched (snd (ccnet_user_manager_get_emailuser engine manager email w))
  /\ untouched (snd (ccnet_user_manager_get_emailuser_by_id manager id w))
  /\ untouched (snd (ccnet_user_manager_get_emailusers manager start limit w))
  /\ untouched (snd (ccnet_user_manager_count_emailusers manager w))
  /\ untouched (snd (ccnet_user_manager_update_emailuser
                       manager id passwd is_staff is_active w)).
Proof.
  intros untouched. subst untouched. cbv beta.
  unfold ccnet_user_manager_add_emailuser, ccnet_user_manager_remove_emailuser,
    ccnet_user_manager_validate_emailuser, ccnet_user_manager_get_emailuser,
    ccnet_user_manager_get_emailuser_by_id, ccnet_user_manager_get_emailusers,
    ccnet_user_manager_count_emailusers, ccnet_user_manager_update_emailuser.
  rewrite no_directory. cbn [negb orb]. cbv beta iota zeta.
  unfold bind, get_current_time, ccnet_db_query, ccnet_db_query_sql,
    ccnet_db_foreach_selected_row, ccnet_db_foreach_selected_row_sql,
    ccnet_db_check_for_existence, ccnet_db_get_int64.
  repeat apply conj.
  - destruct (engine_statement engine _) as [statement|]; [|reflexivity].
    destruct (execute statement (w_db w)); reflexivity.
  - destruct (engine_statement engine _) as [statement|]; [|reflexivity].
    destruct (execute statement (w_db w)); reflexivity.
  - match goal with
    | |- context [match ?found with true => _ | false => _ end] =>
        destruct found
    end; reflexivity.
  - match goal with
    | |- context [let (_, _) := ?looked_up in _] =>
        destruct looked_up as [n u]
    end. destruct (n <? 0); reflexivity.
  - destruct (foreach_row _ _ _ _) as [n u]. destruct (n <? 0); reflexivity.
  - destruct (foreach_row _ _ _ _) as [n u]. destruct (n <? 0); reflexivity.
  - reflexivity.
  - reflexivity.
Qed.


End LocalOperations.

(** *** What every configuration keeps *)

Section AnyConfiguration.

Import Db.

Variable engine : SqlEngine.
Variable manager : CcnetUserManager.

(** The three directory operations only talk to the directory. *)
Lemma ldap_operations_keep_table (uid passwd : string) (w : World) :
  w_db (snd (ldap_list_users manager uid w)) = w_db w
  /\ w_db (snd (ldap_count_users manager uid w)) = w_db w
  /\ w_db (snd (ldap_verify_user_password manager uid passwd w)) = w_db w.
Proof.
  unfold ldap_list_users, ldap_count_users, ldap_verify_user_password, bind.
  pose proof (ldap_init_and_bind_result (ldap_host manager) (user_dn manager)
                (password manager) w) as Hbind.
  destruct (ldap_init_and_bind (ldap_host manager) (user_dn manager)
              (password manager) w) as [ld w1].
  destruct Hbind as (_ & _ & Hdb).
  destruct ld as [ld|]; [|now repeat split].
  unfold ldap_search_s. cbn [fst snd].
  destruct (Ldap.srv_search_s (w_directory w1) (base manager)
              (ldap_filter manager uid) [login_attr manager]) as [res msg].
  destruct (negb (res =? Ldap.LDAP_SUCCESS)); [now repeat split|].
  split; [exact Hdb|]. split; [exact Hdb|].
  destruct (ldap_first_entry msg) as [entry|]; [|exact Hdb].
  cbn [ldap_unbind_s].
  match goal with
  | |- context [ldap_init_and_bind ?h ?d ?p ?w2] =>
      pose proof (ldap_init_and_bind_result h d p w2) as Hbind2;
      destruct (ldap_init_and_bind h d p w2) as [ld2 w3]
  end.
  destruct Hbind2 as (_ & _ & Hdb2).
  destruct ld2; cbn [snd ret record_call record w_db] in *;
    now rewrite Hdb2.
Qed.

(** X11. In either configuration the operations that only read (validate,
    get by email, get by id, list, count) leave the table as it was. *)
Theorem readers_leave_table
        (email passwd : string) (id start limit : Z) (w : World) :
  w_db (snd (ccnet_user_manager_validate_emailuser engine manager email passwd
               w))
  = w_db w
  /\ w_db (snd (ccnet_user_manager_get_emailuser engine manager email w))
     = w_db w
  /\ w_db (snd (ccnet_user_manager_get_emailuser_by_id manager id w)) = w_db w
  /\ w_db (snd (ccnet_user_manager_get_emailusers manager start limit w))
     = w_db w
  /\ w_db (snd (ccnet_user_manager_count_emailusers manager w)) = w_db w.
Proof.
  destruct (use_ldap manager) eqn:Hmode.
  - destruct (ldap_operations_keep_table "*" passwd w) as (Hlist & Hcount & _).
    destruct (ldap_operations_keep_table email passwd
                (record (lookup_credentials email (hash_password passwd)) w))
      as (_ & _ & Hverify).
    destruct (ldap_operations_keep_table email passwd
                (record (lookup_email email) w)) as (Hfirst & _ & _).
    assert (Hfirst' : w_db (snd (first_listed manager email
                                   (record (lookup_email email) w))) = w_db w).
    { unfold first_listed.
      destruct (ldap_list_users manager email (record (lookup_email email) w)).
      exact Hfirst. }
    repeat apply conj.
    + destruct (validate_emailuser_outcomes engine manager Hmode email passwd w)
        as [-> | ->]; [reflexivity|exact Hverify].
    + destruct (get_emailuser_outcomes engine manager Hmode email w)
        as [(emailuser & ->) | ->]; [reflexivity|exact Hfirst'].
    + unfold ccnet_user_manager_get_emailuser_by_id. now rewrite Hmode.
    + unfold ccnet_user_manager_get_emailusers. now rewrite Hmode.
    + unfold ccnet_user_manager_count_emailusers. now rewrite Hmode.
  - unfold ccnet_user_manager_validate_emailuser,
      ccnet_user_manager_get_emailuser, ccnet_user_manager_get_emailuser_by_id,
      ccnet_user_manager_get_emailusers, ccnet_user_manager_count_emailusers.
    rewrite Hmode. cbv beta iota zeta.
    unfold bind, ccnet_db_foreach_selected_row,
      ccnet_db_foreach_selected_row_sql, ccnet_db_check_for_existence,
      ccnet_db_get_int64.
    repeat apply conj.
    + match goal with
      | |- context [match ?found with true => _ | false => _ end] =>
          destruct found
      end; reflexivity.
    + match goal with
      | |- context [let (_, _) := ?looked_up in _] =>
          destruct looked_up as [n u]
      end. destruct (n <? 0); reflexivity.
    + destruct (foreach_row _ _ _ _) as [n u]. destruct (n <? 0); reflexivity.
    + destruct (foreach_row _ _ _ _) as [n u]. destruct (n <? 0); reflexivity.
    + reflexivity.
Qed.

(** X12. In either configuration add, remove and update keep the
    constraints of the schema: ids and emails stay unique. *)
Theorem writers_keep_schema
        (email passwd : string) (id is_staff is_active : Z) (w : World) :
  schema_ok (w_db w) = true ->
  schema_ok (w_db (snd (ccnet_user_manager_add_emailuser
                          engine manager email passwd is_staff is_active w)))
  = true
  /\ schema_ok (w_db (snd (ccnet_user_manager_remove_emailuser
                             engine manager email w))) = true
  /\ schema_ok (w_db (snd (ccnet_user_manager_update_emailuser
                             manager id passwd is_staff is_active w))) = true.
Proof.
  intros Hok.
  unfold ccnet_user_manager_add_emailuser, ccnet_user_manager_remove_emailuser,
    ccnet_user_manager_update_emailuser, bind, get_current_time.
  repeat apply conj.
  - destruct (use_ldap manager); [exact Hok|].
    now apply ccnet_db_query_sql_keeps_schema.
  - destruct (use_ldap manager); [exact Hok|].
    now apply ccnet_db_query_sql_keeps_schema.
  - destruct (negb (use_ldap manager) || gboolean is_staff); [|exact Hok].
    now apply ccnet_db_query_keeps_schema.
Qed.

(** X13. In either configuration, update with an id that no stored row has
    answers 0 and leaves every row as it was: an unknown id is not an
    error. *)
Theorem update_unknown_id_changes_nothing
        (id : Z) (passwd : string) (is_staff is_active : Z) (w : World) :
  (forall r, In r (db_rows (w_db w)) -> row_id r <> id) ->
  let updated := ccnet_user_manager_update_emailuser
                   manager id passwd is_staff is_active w in
  fst updated = 0 /\ w_db (snd updated) = w_db w.
Proof.
  intros Hnone updated. subst updated.
  unfold ccnet_user_manager_update_emailuser.
  destruct (negb (use_ldap manager) || gboolean is_staff);
    [|split; reflexivity].
  unfold ccnet_db_query, execute. cbn [fst snd set_db w_db].
  split; [reflexivity|].
  destruct (w_db w) as [rows seq]. cbn [db_rows db_seq] in *. f_equal.
  rewrite <- (map_id rows) at 2. apply map_ext_in. intros r Hr.
  cbn [holds].
  assert ((row_id r =? id) = false) as ->; [|reflexivity].
  apply Z.eqb_neq. now apply Hnone.
Qed.

End AnyConfiguration.

(** *** The directory operations *)

Section DirectoryOperations.

Variable manager : CcnetUserManager.

(** X14. ldap_verify_user_password answers 0 exactly when the service
    session opens, the search for the uid succeeds with at least one entry,
    and the directory accepts the password for the distinguished name of
    the first entry; it answers -1 in every other case. *)
Theorem verify_accepts_iff (uid passwd : string) (w : World) :
  let verdict := fst (ldap_verify_user_password manager uid passwd w) in
  (verdict = 0 <->
   exists entry rest,
     directory_search manager uid (w_directory w) = Some (entry :: rest)
     /\ session_opens (w_directory w) (ldap_host manager)
                      (Some (Ldap.entry_dn entry)) (Some passwd) = true)
  /\ (verdict = 0 \/ verdict = -1).
Proof.
  intros verdict. subst verdict. rewrite ldap_verify_user_password_result.
  destruct (directory_search manager uid (w_directory w)) as [[|entry rest]|].
  - split; [|now right]. split; [discriminate|].
    intros (e & r & H & _). discriminate.
  - destruct (session_opens _ _ (Some (Ldap.entry_dn entry)) _) eqn:Hopen.
    + split; [|now left]. split; [|reflexivity].
      intros _. exists entry, rest. split; [reflexivity|assumption].
    + split; [|now right]. split; [discriminate|].
      intros (e & r & [= <- <-] & H). congruence.
  - split; [|now right]. split; [discriminate|].
    intros (e & r & H & _). discriminate.
Qed.

Lemma open_sessions_record_call (c : Ldap.Call) (w : World) :
  open_sessions (record_call c w)
  = open_sessions w + (if is_initialize c then 1 else 0)
    - (if is_unbind c then 1 else 0).
Proof.
  unfold open_sessions, directory_calls, count_calls.
  cbn [record_call record w_trace flat_map app filter].
  destruct c; cbn [is_initialize is_unbind List.length]; lia.
Qed.

(** A session is left open by ldap_init_and_bind exactly when it hands a
    handle back, provided ldap_set_option is accepted. *)
Lemma ldap_init_and_bind_sessions (host : string) (dn passwd : option string)
      (w : World) :
  Ldap.srv_initialize (w_directory w) host = Ldap.LDAP_SUCCESS ->
  let (ld, w') := ldap_init_and_bind host dn passwd w in
  w_directory w' = w_directory w
  /\ if Ldap.srv_set_option (w_directory w) =? Ldap.LDAP_OPT_SUCCESS
     then open_sessions w'
          = open_sessions w + match ld with Some _ => 1 | None => 0 end
     else ld = None /\ open_sessions w' = open_sessions w + 1.
Proof.
  intros Hinit.
  unfold ldap_init_and_bind, bind, ret, ldap_initialize, ldap_set_option,
    ldap_bind_s, ldap_unbind_s. simpl.
  rewrite Hinit. simpl.
  destruct (Ldap.srv_set_option (w_directory w) =? Ldap.LDAP_OPT_SUCCESS); simpl.
  - destruct dn as [dn|]; simpl.
    + destruct (Ldap.srv_bind_s (w_directory w) dn passwd =? Ldap.LDAP_SUCCESS);
        simpl; (split; [reflexivity|]);
        rewrite !open_sessions_record_call; simpl; lia.
    + split; [reflexivity|].
      rewrite !open_sessions_record_call; simpl; lia.
  - split; [reflexivity|]. split; [reflexivity|].
    rewrite !open_sessions_record_call; simpl; lia.
Qed.

(** What the three operations leave open, by the answer to
    ldap_set_option. *)
Lemma directory_sessions (uid passwd : string) (w : World) :
  Ldap.srv_initialize (w_directory w) (ldap_host manager) = Ldap.LDAP_SUCCESS ->
  let left_open :=
    if Ldap.srv_set_option (w_directory w) =? Ldap.LDAP_OPT_SUCCESS
    then 0 else 1 in
  open_sessions (snd (ldap_list_users manager uid w))
  = open_sessions w + left_open
  /\ open_sessions (snd (ldap_count_users manager uid w))
     = open_sessions w + left_open
  /\ open_sessions (snd (ldap_verify_user_password manager uid passwd w))
     = open_sessions w + left_open.
Proof.
  intros Hinit left_open. subst left_open.
  unfold ldap_list_users, ldap_count_users, ldap_verify_user_password, bind.
  pose proof (ldap_init_and_bind_sessions (ldap_host manager) (user_dn manager)
                (password manager) w Hinit) as Hbind.
  destruct (ldap_init_and_bind (ldap_host manager) (user_dn manager)
              (password manager) w) as [ld w1].
  destruct Hbind as (Hdir & Hopen).
  destruct (Ldap.srv_set_option (w_directory w) =? Ldap.LDAP_OPT_SUCCESS) eqn:Hopt.
  - destruct ld as [ld|]; [|cbn [snd ret]; repeat split; lia].
    unfold ldap_search_s. cbn [fst snd].
    destruct (Ldap.srv_search_s (w_directory w1) (base manager)
                (ldap_filter manager uid) [login_attr manager]) as [res msg].
    destruct (negb (res =? Ldap.LDAP_SUCCESS)).
    + cbn [ldap_unbind_s snd ret]. rewrite !open_sessions_record_call.
      cbn [is_initialize is_unbind]. repeat split; lia.
    + split; [|split].
      * cbn [ldap_unbind_s snd ret]. rewrite !open_sessions_record_call.
        cbn [is_initialize is_unbind]. lia.
      * cbn [ldap_unbind_s snd ret]. rewrite !open_sessions_record_call.
        cbn [is_initialize is_unbind]. lia.
      * destruct (ldap_first_entry msg) as [entry|].
        -- cbn [ldap_unbind_s].
           match goal with
           | |- context [ldap_init_and_bind ?h ?d ?p ?w2] =>
               assert (Hinit2 : Ldap.srv_initialize (w_directory w2) h
                                = Ldap.LDAP_SUCCESS)
                 by (cbn [record_call record w_directory];
                     rewrite Hdir; exact Hinit);
               pose proof (ldap_init_and_bind_sessions h d p w2 Hinit2)
                 as Hbind2;
               assert (Hopt2 : (Ldap.srv_set_option (w_directory w2)
                                =? Ldap.LDAP_OPT_SUCCESS) = true)
                 by (cbn [record_call record w_directory];
                     rewrite Hdir; exact Hopt);
               destruct (ldap_init_and_bind h d p w2) as [ld2 w3]
           end.
           rewrite Hopt2 in Hbind2. destruct Hbind2 as (_ & Hopen2).
           rewrite !open_sessions_record_call in Hopen2.
           cbn [is_initialize is_unbind] in Hopen2.
           destruct ld2; cbn [snd ret record_call].
           ++ rewrite open_sessions_record_call.
              cbn [is_initialize is_unbind]. lia.
           ++ lia.
        -- cbn [ldap_unbind_s snd ret]. rewrite !open_sessions_record_call.
           cbn [is_initialize is_unbind]. lia.
  - destruct Hopen as (-> & Hopen). cbn [snd ret]. repeat split; lia.
Qed.

(** X15. When the directory accepts ldap_initialize and ldap_set_option,
    each of the three directory operations closes every session it opens,
    whatever the outcome of the binds and of the search: the number of
    sessions left open is what it was before the call. *)
Theorem directory_sessions_closed (uid passwd : string) (w : World) :
  Ldap.srv_initialize (w_directory w) (ldap_host manager) = Ldap.LDAP_SUCCESS ->
  Ldap.srv_set_option (w_directory w) = Ldap.LDAP_OPT_SUCCESS ->
  open_sessions (snd (ldap_list_users manager uid w)) = open_sessions w
  /\ open_sessions (snd (ldap_count_users manager uid w)) = open_sessions w
  /\ open_sessions (snd (ldap_verify_user_password manager uid passwd w))
     = open_sessions w.
Proof.
  intros Hinit Hoption.
  pose proof (directory_sessions uid passwd w Hinit) as H. cbv zeta in H.
  rewrite Hoption in H.
  change (Ldap.LDAP_OPT_SUCCESS =? Ldap.LDAP_OPT_SUCCESS) with true in H.
  rewrite !Z.add_0_r in H. exact H.
Qed.

(** X16. When the directory accepts ldap_initialize and then refuses
    ldap_set_option, each of the three directory operations gives up
    without unbinding the session it has initialised: one more session is
    left open after the call. *)
Theorem directory_session_left_open (uid passwd : string) (w : World) :
  Ldap.srv_initialize (w_directory w) (ldap_host manager) = Ldap.LDAP_SUCCESS ->
  Ldap.srv_set_option (w_directory w) <> Ldap.LDAP_OPT_SUCCESS ->
  open_sessions (snd (ldap_list_users manager uid w)) = open_sessions w + 1
  /\ open_sessions (snd (ldap_count_users manager uid w)) = open_sessions w + 1
  /\ open_sessions (snd (ldap_verify_user_password manager uid passwd w))
     = open_sessions w + 1.
Proof.
  intros Hinit Hoption. apply Z.eqb_neq in Hoption.
  pose proof (directory_sessions uid passwd w Hinit) as H. cbv zeta in H.
  now rewrite Hoption in H.
Qed.

Lemma directory_calls_record_call (c : Ldap.Call) (w : World) :
  directory_calls (record_call c w) = c :: directory_calls w.
Proof. reflexivity. Qed.

(** The only bind ldap_init_and_bind makes is the one it is asked for. *)
Lemma ldap_init_and_bind_binds (host : string) (dn passwd : option string)
      (w : World) :
  let (ld, w') := ldap_init_and_bind host dn passwd w in
  forall d p, In (Ldap.call_bind_s d p) (directory_calls w') ->
              In (Ldap.call_bind_s d p) (directory_calls w)
              \/ (dn = Some d /\ p = passwd).
Proof.
  unfold ldap_init_and_bind, bind, ret, ldap_initialize, ldap_set_option,
    ldap_bind_s, ldap_unbind_s. simpl.
  destruct (Ldap.srv_initialize (w_directory w) host =? Ldap.LDAP_SUCCESS);
    simpl.
  2:{ intros d p [H|H]; [discriminate|now left]. }
  destruct (Ldap.srv_set_option (w_directory w) =? Ldap.LDAP_OPT_SUCCESS);
    simpl.
  2:{ intros d p [H|[H|H]]; [discriminate|discriminate|now left]. }
  destruct dn as [dn|]; simpl.
  - destruct (Ldap.srv_bind_s (w_directory w) dn passwd =? Ldap.LDAP_SUCCESS);
      simpl; intros d p H;
      repeat (destruct H as [H|H]; [try discriminate|]); try (now left);
      injection H as <- <-; now right.
  - intros d p [H|[H|H]]; [discriminate|discriminate|now left].
Qed.

(** X17. The password given to ldap_verify_user_password reaches the
    directory in one way only: as the secret of a bind whose distinguished
    name is that of the first entry that the search for the uid has
    answered.  Every other bind of the call is the service bind of the
    configuration. *)
Theorem verify_binds (uid passwd : string) (w : World) :
  forall dn secret,
    In (Ldap.call_bind_s dn secret)
       (directory_calls (snd (ldap_verify_user_password manager uid passwd w))) ->
    In (Ldap.call_bind_s dn secret) (directory_calls w)
    \/ (user_dn manager = Some dn /\ secret = password manager)
    \/ (secret = Some passwd
        /\ exists entry rest,
             Ldap.srv_search_s (w_directory w) (base manager)
                               (ldap_filter manager uid) [login_attr manager]
             = (Ldap.LDAP_SUCCESS, entry :: rest)
             /\ dn = Ldap.entry_dn entry).
Proof.
  unfold ldap_verify_user_password, bind.
  pose proof (ldap_init_and_bind_binds (ldap_host manager) (user_dn manager)
                (password manager) w) as Hbinds.
  pose proof (ldap_init_and_bind_result (ldap_host manager) (user_dn manager)
                (password manager) w) as Hbind.
  destruct (ldap_init_and_bind (ldap_host manager) (user_dn manager)
              (password manager) w) as [ld w1].
  destruct Hbind as (_ & Hdir & _).
  assert (Hservice : forall dn secret,
            In (Ldap.call_bind_s dn secret) (directory_calls w1) ->
            In (Ldap.call_bind_s dn secret) (directory_calls w)
            \/ (user_dn manager = Some dn /\ secret = password manager)
            \/ (secret = Some passwd
                /\ exists entry rest,
                     Ldap.srv_search_s (w_directory w) (base manager)
                       (ldap_filter manager uid) [login_attr manager]
                     = (Ldap.LDAP_SUCCESS, entry :: rest)
                     /\ dn = Ldap.entry_dn entry)).
  { intros dn secret H. destruct (Hbinds dn secret H) as [H'|H']; tauto. }
  destruct ld as [ld|]; [|exact Hservice].
  unfold ldap_search_s. cbn [fst snd]. rewrite Hdir.
  destruct (Ldap.srv_search_s (w_directory w) (base manager)
              (ldap_filter manager uid) [login_attr manager]) as [res msg].
  destruct (res =? Ldap.LDAP_SUCCESS) eqn:Hres; cbn [negb].
  2:{ cbn [ldap_unbind_s snd ret]. rewrite !directory_calls_record_call.
      intros dn secret [H|[H|H]]; [discriminate|discriminate|].
      now apply Hservice. }
  apply Z.eqb_eq in Hres. subst res.
  destruct msg as [|entry rest]; cbn [ldap_first_entry hd_error].
  { cbn [ldap_unbind_s snd ret]. rewrite !directory_calls_record_call.
    intros dn secret [H|[H|H]]; [discriminate|discriminate|].
    now apply Hservice. }
  cbn [ldap_unbind_s].
  match goal with
  | |- context [ldap_init_and_bind ?h ?d ?p ?w2] =>
      pose proof (ldap_init_and_bind_binds h d p w2) as Hbinds2;
      destruct (ldap_init_and_bind h d p w2) as [ld2 w3]
  end.
  assert (Huser : forall dn secret,
            In (Ldap.call_bind_s dn secret) (directory_calls w3) ->
            In (Ldap.call_bind_s dn secret) (directory_calls w)
            \/ (user_dn manager = Some dn /\ secret = password manager)
            \/ (secret = Some passwd
                /\ exists entry0 rest0,
                     (Ldap.LDAP_SUCCESS, entry :: rest)
                     = (Ldap.LDAP_SUCCESS, entry0 :: rest0)
                     /\ dn = Ldap.entry_dn entry0)).
  { intros dn secret H. destruct (Hbinds2 dn secret H) as [H'|[Hdn Hsecret]].
    - rewrite !directory_calls_record_call in H'.
      destruct H' as [H'|[H'|H']]; [discriminate|discriminate|].
      now apply Hservice.
    - right. right. split; [now rewrite Hsecret|].
      exists entry, rest. split; [reflexivity|]. now injection Hdn. }
  destruct ld2; cbn [snd ret]; [|exact Huser].
  rewrite directory_calls_record_call.
  intros dn secret [H|H]; [discriminate|now apply Huser].
Qed.

(** X18. The two searches of the adapter present nothing but the service
    credentials of the configuration; with an anonymous configuration
    (no bind identity) they make no bind at all. *)
Theorem listing_binds (uid : string) (w : World) :
  forall dn secret,
    In (Ldap.call_bind_s dn secret)
       (directory_calls (snd (ldap_list_users manager uid w)))
    \/ In (Ldap.call_bind_s dn secret)
          (directory_calls (snd (ldap_count_users manager uid w))) ->
    In (Ldap.call_bind_s dn secret) (directory_calls w)
    \/ (user_dn manager = Some dn /\ secret = password manager).
Proof.
  unfold ldap_list_users, ldap_count_users, bind.
  pose proof (ldap_init_and_bind_binds (ldap_host manager) (user_dn manager)
                (password manager) w) as Hbinds.
  destruct (ldap_init_and_bind (ldap_host manager) (user_dn manager)
              (password manager) w) as [ld w1].
  destruct ld as [ld|]; [|intros dn secret [H|H]; now apply Hbinds].
  unfold ldap_search_s. cbn [fst snd].
  destruct (Ldap.srv_search_s (w_directory w1) (base manager)
              (ldap_filter manager uid) [login_attr manager]) as [res msg].
  destruct (negb (res =? Ldap.LDAP_SUCCESS));
    cbn [ldap_unbind_s snd ret]; rewrite !directory_calls_record_call;
    intros dn secret [[H|[H|H]]|[H|[H|H]]]; try discriminate;
    now apply Hbinds.
Qed.

End DirectoryOperations.

Section DirectoryListing.

Variable manager : CcnetUserManager.
Hypothesis directory_configured : use_ldap manager = true.

(** X19. With a directory configured, list ignores its start and its
    limit: it is ldap_list_users on the pattern "*", which answers one
    account per entry found, the last entry first, each with id 0,
    is_staff FALSE, is_active TRUE and ctime 0, local staff included. *)
Theorem directory_listing (start limit : Z) (w : World) :
  ccnet_user_manager_get_emailusers manager start limit w
  = ldap_list_users manager "*" w
  /\ fst (ccnet_user_manager_get_emailusers manager start limit w)
     = match directory_search manager "*" (w_directory w) with
       | Some msg =>
           rev (map (fun entry =>
                       mkEmailUser 0 (Ldap.entry_val0 entry) false true 0) msg)
       | None => []
       end.
Proof.
  unfold ccnet_user_manager_get_emailusers. rewrite directory_configured.
  split; [reflexivity|]. apply ldap_list_users_result.
Qed.

(** X20. With a directory configured, count and list agree: when the
    directory answers the search, count is the number of accounts that
    list returns; when it does not, count is -1 and list is empty. *)
Theorem directory_count_matches_listing (start limit : Z) (w : World) :
  let count := fst (ccnet_user_manager_count_emailusers manager w) in
  let listed := fst (ccnet_user_manager_get_emailusers manager start limit w) in
  match directory_search manager "*" (w_directory w) with
  | Some msg => count = Z.of_nat (List.length listed)
                /\ List.length listed = List.length msg
  | None => count = -1 /\ listed = []
  end.
Proof.
  intros count listed. subst count listed.
  unfold ccnet_user_manager_count_emailusers, ccnet_user_manager_get_emailusers.
  rewrite directory_configured.
  rewrite ldap_count_users_result, ldap_list_users_result.
  destruct (directory_search manager "*" (w_directory w)) as [msg|].
  - rewrite length_rev, length_map. split; reflexivity.
  - split; reflexivity.
Qed.

End DirectoryListing.

(** *** Preparation *)

(** X21. try_load_ldap_settings fails, with -1, exactly when the HOST key
    is present and either the BASE key is missing or the USER_DN key is
    present without the PASSWORD key; it answers 0 otherwise.  The
    directory is switched on as soon as the HOST key is present, whether
    the rest loads or not, and is never switched off. *)
Theorem try_load_ldap_settings_result (config : GKeyFile) (manager : LdapSettings) :
  let loaded := try_load_ldap_settings config manager in
  (fst loaded = -1 <->
   config "LDAP" "HOST" <> None
   /\ (config "LDAP" "BASE" = None
       \/ (config "LDAP" "USER_DN" <> None /\ config "LDAP" "PASSWORD" = None)))
  /\ (fst loaded = 0 \/ fst loaded = -1)
  /\ set_use_ldap (snd loaded)
     = (set_use_ldap manager
        || match config "LDAP" "HOST" with Some _ => true | None => false end).
Proof.
  unfold try_load_ldap_settings.
  destruct (config "LDAP" "HOST") as [host|];
    [destruct (config "LDAP" "BASE") as [base|];
     [destruct (config "LDAP" "USER_DN") as [dn|];
      [destruct (config "LDAP" "PASSWORD") as [secret|]
      |destruct (set_password manager) as [secret|]]|]|];
    cbn [fst snd set_use_ldap];
    rewrite ?orb_true_r, ?orb_false_r;
    (split; [|split; [auto|reflexivity]]);
    (split; [intros Hcode|intros [Hhost [Hbase|[Hdn Hsecret]]]]);
    try discriminate; try congruence;
    (split; [discriminate|]); auto.
  right. split; [discriminate|reflexivity].
Qed.

(** X22. When try_load_ldap_settings answers 0 with the HOST key present,
    the settings are complete: host and base are those of the file, the
    login attribute is the LOGIN_ATTR key or "mail" without one, and a
    bind identity never comes without its secret.  Without the HOST key
    nothing but the host pointer is written. *)
Theorem try_load_ldap_settings_loaded (config : GKeyFile) (manager : LdapSettings) :
  let loaded := try_load_ldap_settings config manager in
  fst loaded = 0 ->
  match config "LDAP" "HOST" with
  | Some host =>
      set_use_ldap (snd loaded) = true
      /\ set_ldap_host (snd loaded) = Some host
      /\ (exists base, config "LDAP" "BASE" = Some base
                       /\ set_base (snd loaded) = Some base)
      /\ set_user_dn (snd loaded) = config "LDAP" "USER_DN"
      /\ (forall dn, set_user_dn (snd loaded) = Some dn ->
            exists secret, config "LDAP" "PASSWORD" = Some secret
                           /\ set_password (snd loaded) = Some secret)
      /\ set_login_attr (snd loaded)
         = Some (match config "LDAP" "LOGIN_ATTR" with
                 | Some attr => attr
                 | None => "mail"
                 end)
  | None =>
      snd loaded
      = mkSettings (set_use_ldap manager) None (set_base manager)
                   (set_user_dn manager) (set_password manager)
                   (set_login_attr manager)
  end.
Proof.
  unfold try_load_ldap_settings.
  destruct (config "LDAP" "HOST") as [host|]; [|reflexivity].
  destruct (config "LDAP" "BASE") as [base|]; [|discriminate].
  destruct (config "LDAP" "USER_DN") as [dn|].
  - destruct (config "LDAP" "PASSWORD") as [secret|]; [|discriminate].
    intros _. cbn [snd set_use_ldap set_ldap_host set_base set_user_dn
                   set_password set_login_attr].
    repeat split.
    + exists base. split; reflexivity.
    + intros dn' _. exists secret. split; reflexivity.
    + destruct (config "LDAP" "LOGIN_ATTR"); reflexivity.
  - intros _.
    cbn [snd set_use_ldap set_ldap_host set_base set_user_dn
         set_password set_login_attr].
    repeat split.
    + exists base. split; reflexivity.
    + intros dn' [=].
    + destruct (config "LDAP" "LOGIN_ATTR"); reflexivity.
Qed.

Lemma until_refused_rev_app (answer : string -> Z) (sql : string)
      (rest received : list string) :
  (rev (until_refused answer (sql :: rest)) ++ received)%list
  = if answer sql <? 0 then sql :: received
    else (rev (until_refused answer rest) ++ sql :: received)%list.
Proof.
  cbn [until_refused]. destruct (answer sql <? 0); cbn [rev app].
  - reflexivity.
  - now rewrite <- app_assoc.
Qed.

(** X23. check_db_table sends the statements of the dialect in order and
    stops at the first one that the engine refuses, answering -1; it
    answers 0 when none is refused.  Every statement creates a table or an
    index only if it does not exist yet.  For a database type that is
    none of the three it sends nothing and still answers 0. *)
Theorem check_db_table_stops_at_refusal
        (answer : string -> Z) (db_type : DbType) (received : list string) :
  check_db_table (logging_engine answer) db_type received
  = (if existsb (fun sql => answer sql <? 0) (schema_statements db_type)
     then -1 else 0,
     (rev (until_refused answer (schema_statements db_type)) ++ received)%list)
  /\ forallb creates_if_absent (schema_statements db_type) = true
  /\ schema_statements CCNET_DB_TYPE_other = [].
Proof.
  split; [|split; [destruct db_type; vm_compute; reflexivity|reflexivity]].
  destruct db_type;
    match goal with
    | |- context [schema_statements ?t] =>
        let l := eval vm_compute in (schema_statements t) in
        change (schema_statements t) with l
    end;
    unfold check_db_table, query_or_fail, logging_engine;
    cbn [existsb append];
    repeat (rewrite until_refused_rev_app;
            match goal with
            | |- context [answer ?sql <? 0] => destruct (answer sql <? 0)
            end; cbn [orb]; try reflexivity);
    reflexivity.
Qed.

(** *** The further properties at the sample states *)

Lemma sample_rows_other_email (email : string) :
  String.eqb "admin@x" email = false -> String.eqb "user@x" email = false ->
  forall r, In r (Db.db_rows (w_db sample_world)) -> Db.row_email r <> email.
Proof.
  intros Ha Hu r [<-|[<-|[]]]; cbn [Db.row_email]; now apply String.eqb_neq.
Qed.

(** A second admin@x is refused. *)
Lemma add_existing_email_rejected_witness :
  plain "admin@x" = true
  /\ fst (ccnet_user_manager_add_emailuser reference_engine local_manager
            "admin@x" "pw" 0 1 sample_world) = -1
  /\ w_db (snd (ccnet_user_manager_add_emailuser reference_engine local_manager
                  "admin@x" "pw" 0 1 sample_world)) = sample_db.
Proof.
  split; [reflexivity|].
  exact (add_existing_email_rejected reference_engine reference_engine_reads
           local_manager eq_refl "admin@x" "pw" 0 1
           sample_world (Db.mkRow 1 "admin@x" (hash_password "secret") 1 1 1000)
           eq_refl
           ltac:(vm_compute; reflexivity)
           (or_introl eq_refl) eq_refl).
Defined.

(** new@x is added under id 3 and found again by email and by id. *)
Lemma add_then_get_witness :
  let added := snd (ccnet_user_manager_add_emailuser reference_engine
                      local_manager "new@x" "pw" 1 0 sample_world) in
  plain "new@x" = true
  /\ fst (ccnet_user_manager_get_emailuser reference_engine local_manager "new@x"
            added)
     = Some (mkEmailUser 3 "new@x" true false 3000)
  /\ fst (ccnet_user_manager_get_emailuser_by_id local_manager 3 added)
     = Some (mkEmailUser 3 "new@x" true false 3000).
Proof.
  pose proof (add_then_get reference_engine reference_engine_reads
                local_manager eq_refl "new@x" "pw" 1 0 sample_world eq_refl
                ltac:(vm_compute; reflexivity)
                (sample_rows_other_email "new@x" eq_refl eq_refl)) as H.
  cbv zeta in H. destruct H as (Hemail & Hid & _).
  split; [reflexivity|]. split; [exact Hemail|exact Hid].
Defined.

(** After the removal of user@x only admin@x is left, and user@x is found
    no more. *)
Lemma remove_then_not_found_witness :
  let removed := ccnet_user_manager_remove_emailuser reference_engine
                   local_manager "user@x" sample_world in
  use_ldap local_manager = false
  /\ plain "user@x" = true
  /\ fst removed = 0
  /\ fst (ccnet_user_manager_get_emailuser reference_engine local_manager
            "user@x" (snd removed))
     = None
  /\ fst (ccnet_user_manager_validate_emailuser reference_engine local_manager
            "user@x" "hunter2" (snd removed)) = -1.
Proof.
  pose proof (remove_then_not_found reference_engine reference_engine_reads
                local_manager eq_refl "user@x" sample_world eq_refl
                ltac:(cbn [String.length]; lia))
    as H.
  cbv zeta in H. destruct H as (H0 & _ & Hget & Hvalidate & _).
  cbv zeta. repeat apply conj;
    [reflexivity|reflexivity|exact H0|exact Hget|exact (Hvalidate "hunter2")].
Defined.

(** user@x is found by email, nobody@x is not. *)
Lemma get_emailuser_local_witness :
  plain "user@x" = true
  /\ fst (ccnet_user_manager_get_emailuser reference_engine local_manager
            "user@x" sample_world)
     = Some (mkEmailUser 2 "user@x" false true 2000)
  /\ fst (ccnet_user_manager_get_emailuser reference_engine local_manager
            "nobody@x" sample_world)
     = None.
Proof.
  pose proof (get_emailuser_local reference_engine reference_engine_reads
                local_manager eq_refl "user@x" sample_world eq_refl
                ltac:(cbn [String.length]; lia) eq_refl) as Huser.
  pose proof (get_emailuser_local reference_engine reference_engine_reads
                local_manager eq_refl "nobody@x" sample_world eq_refl
                ltac:(cbn [String.length]; lia) eq_refl) as Hnobody.
  cbv zeta in Huser, Hnobody.
  destruct Huser as (Huser & _). destruct Hnobody as (_ & Hnobody & _).
  split; [reflexivity|]. split.
  - exact (Huser (Db.mkRow 2 "user@x" (hash_password "hunter2") 0 1 2000)
                 (or_intror (or_introl eq_refl)) eq_refl).
  - apply Hnobody. exact (sample_rows_other_email "nobody@x" eq_refl eq_refl).
Defined.

(** Id 1 is admin@x, id 7 is nobody. *)
Lemma get_emailuser_by_id_local_witness :
  fst (ccnet_user_manager_get_emailuser_by_id local_manager 1 sample_world)
  = Some (mkEmailUser 1 "admin@x" true true 1000)
  /\ fst (ccnet_user_manager_get_emailuser_by_id local_manager 7 sample_world)
     = None.
Proof.
  pose proof (get_emailuser_by_id_local local_manager eq_refl 1 sample_world
                eq_refl) as Hadmin.
  pose proof (get_emailuser_by_id_local local_manager eq_refl 7 sample_world
                eq_refl) as Hnobody.
  cbv zeta in Hadmin, Hnobody.
  destruct Hadmin as (Hadmin & _). destruct Hnobody as (_ & Hnobody & _).
  split.
  - exact (Hadmin (Db.mkRow 1 "admin@x" (hash_password "secret") 1 1 1000)
                  (or_introl eq_refl) eq_refl).
  - apply Hnobody. intros r [<-|[<-|[]]]; cbn [Db.row_id]; lia.
Defined.

(** user@x validates with "hunter2". *)
Lemma validate_local_iff_witness :
  use_ldap local_manager = false
  /\ plain "user@x" = true
  /\ fst (ccnet_user_manager_validate_emailuser reference_engine local_manager
            "user@x" "hunter2" sample_world) = 0.
Proof.
  split; [reflexivity|]. split; [reflexivity|].
  apply (proj1 (validate_local_iff reference_engine reference_engine_reads
                  local_manager eq_refl "user@x" "hunter2" sample_world eq_refl
                  ltac:(cbn [String.length]; lia))).
  exists (Db.mkRow 2 "user@x" (hash_password "hunter2") 0 1 2000).
  repeat split. right. left. reflexivity.
Defined.

(** After the update of user@x to "fresh", "fresh" validates and "hunter2"
    does not. *)
Lemma update_then_validate_witness :
  let updated := snd (ccnet_user_manager_update_emailuser local_manager 2
                        "fresh" 0 1 sample_world) in
  plain "user@x" = true
  /\ fst (ccnet_user_manager_validate_emailuser reference_engine local_manager
            "user@x" "fresh" updated) = 0
  /\ fst (ccnet_user_manager_validate_emailuser reference_engine local_manager
            "user@x" "hunter2" updated) = -1.
Proof.
  pose proof (update_then_validate reference_engine reference_engine_reads
                local_manager eq_refl
                (Db.mkRow 2 "user@x" (hash_password "hunter2") 0 1 2000)
                "fresh" 0 1 sample_world eq_refl ltac:(cbn; lia) eq_refl
                (or_intror (or_introl eq_refl))) as H.
  cbv zeta in H. cbn [Db.row_id Db.row_email] in H.
  destruct H as (_ & Hnew & Hold).
  split; [reflexivity|]. split; [exact Hnew|]. apply Hold.
  intros E. vm_compute in E. discriminate E.
Defined.

(** The page (0, 1) followed by the page (1, 1) is the page (0, 2). *)
Lemma pages_compose_witness :
  (fst (ccnet_user_manager_get_emailusers local_manager 0 1 sample_world)
     ++ fst (ccnet_user_manager_get_emailusers local_manager 1 1 sample_world))%list
  = fst (ccnet_user_manager_get_emailusers local_manager 0 2 sample_world).
Proof.
  exact (proj1 (pages_compose local_manager eq_refl 0 1 1 sample_world
                  ltac:(lia) ltac:(lia) ltac:(lia))).
Defined.

(** Three accounts are counted after the add of new@x. *)
Lemma add_appends_to_listing_witness :
  plain "new@x" = true
  /\ fst (ccnet_user_manager_count_emailusers local_manager
            (snd (ccnet_user_manager_add_emailuser reference_engine local_manager
                    "new@x" "pw" 0 1 sample_world))) = 3.
Proof.
  pose proof (add_appends_to_listing reference_engine reference_engine_reads
                local_manager eq_refl "new@x" "pw" 0 1
                sample_world eq_refl
                ltac:(vm_compute; reflexivity)
                (sample_rows_other_email "new@x" eq_refl eq_refl))
    as H.
  cbv zeta in H. destruct H as (_ & H).
  split; [reflexivity|]. rewrite H. reflexivity.
Defined.



(** Validating without a directory calls no directory. *)
Lemma no_directory_no_directory_call_witness :
  use_ldap local_manager = false
  /\ directory_calls
       (snd (ccnet_user_manager_validate_emailuser reference_engine
               local_manager "user@x" "hunter2" sample_world)) = [].
Proof.
  split; [reflexivity|].
  pose proof (no_directory_no_directory_call reference_engine local_manager
                eq_refl "user@x" "hunter2" 1 0 2 0 1 sample_world) as H.
  cbv zeta beta in H. destruct H as (_ & _ & H & _). exact H.
Defined.

(** The sample table is within its schema after an add in either
    configuration. *)
Lemma writers_keep_schema_witness :
  Db.schema_ok sample_db = true
  /\ Db.schema_ok
       (w_db (snd (ccnet_user_manager_add_emailuser reference_engine
                     local_manager "new@x" "pw" 0 1 sample_world))) = true.
Proof.
  split; [reflexivity|].
  exact (proj1 (writers_keep_schema reference_engine local_manager "new@x" "pw"
                  7 0 1 sample_world eq_refl)).
Defined.

(** An update of id 7, which nobody has, succeeds and changes nothing. *)
Lemma update_unknown_id_changes_nothing_witness :
  fst (ccnet_user_manager_update_emailuser local_manager 7 "pw" 1 1 sample_world)
  = 0
  /\ w_db (snd (ccnet_user_manager_update_emailuser local_manager 7 "pw" 1 1
                  sample_world)) = sample_db.
Proof.
  apply (update_unknown_id_changes_nothing local_manager 7 "pw" 1 1 sample_world).
  intros r [<-|[<-|[]]]; cbn [Db.row_id]; lia.
Defined.

(** A verification against the sample directory leaves no session open; one
    against the directory that refuses the option leaves one. *)
Lemma directory_sessions_closed_witness :
  open_sessions (snd (ldap_verify_user_password ldap_manager "user@x" "dirpw"
                        sample_world)) = 0.
Proof.
  exact (proj2 (proj2 (directory_sessions_closed ldap_manager "user@x" "dirpw"
                         sample_world eq_refl eq_refl))).
Defined.

Lemma directory_session_left_open_witness :
  open_sessions (snd (ldap_list_users ldap_manager "*" refusing_world)) = 1.
Proof.
  apply (directory_session_left_open ldap_manager "*" "dirpw" refusing_world).
  - reflexivity.
  - intros E. vm_compute in E. discriminate E.
Defined.

(** The password "dirpw" is sent for the distinguished name of user@x. *)
Lemma verify_binds_witness :
  In (Ldap.call_bind_s "uid=user,ou=people,dc=x" (Some "dirpw"))
     (directory_calls (snd (ldap_verify_user_password ldap_manager "user@x"
                              "dirpw" sample_world)))
  /\ (In (Ldap.call_bind_s "uid=user,ou=people,dc=x" (Some "dirpw"))
         (directory_calls sample_world)
      \/ (user_dn ldap_manager = Some "uid=user,ou=people,dc=x"
          /\ Some "dirpw" = password ldap_manager)
      \/ (Some "dirpw" = Some "dirpw"
          /\ exists entry rest,
               Ldap.srv_search_s (w_directory sample_world) (base ldap_manager)
                 (ldap_filter ldap_manager "user@x") [login_attr ldap_manager]
               = (Ldap.LDAP_SUCCESS, entry :: rest)
               /\ "uid=user,ou=people,dc=x" = Ldap.entry_dn entry)).
Proof.
  assert (Hin : In (Ldap.call_bind_s "uid=user,ou=people,dc=x" (Some "dirpw"))
                   (directory_calls
                      (snd (ldap_verify_user_password ldap_manager "user@x"
                              "dirpw" sample_world)))).
  { vm_compute. right. left. reflexivity. }
  split; [exact Hin|].
  exact (verify_binds ldap_manager "user@x" "dirpw" sample_world _ _ Hin).
Defined.

(** The listing binds as the service identity. *)
Lemma listing_binds_witness :
  In (Ldap.call_bind_s "cn=service,dc=x" (Some "service-secret"))
     (directory_calls (snd (ldap_list_users ldap_manager "*" sample_world)))
  /\ (In (Ldap.call_bind_s "cn=service,dc=x" (Some "service-secret"))
         (directory_calls sample_world)
      \/ (user_dn ldap_manager = Some "cn=service,dc=x"
          /\ Some "service-secret" = password ldap_manager)).
Proof.
  assert (Hin : In (Ldap.call_bind_s "cn=service,dc=x" (Some "service-secret"))
                   (directory_calls
                      (snd (ldap_list_users ldap_manager "*" sample_world)))).
  { vm_compute. right. right. left. reflexivity. }
  split; [exact Hin|].
  exact (listing_binds ldap_manager "*" sample_world _ _ (or_introl Hin)).
Defined.

(** With the sample directory, every page is the two directory accounts,
    user@x first, and the count is 2. *)
Lemma directory_listing_witness :
  fst (ccnet_user_manager_get_emailusers ldap_manager 0 1 sample_world)
  = [mkEmailUser 0 "user@x" false true 0; mkEmailUser 0 "admin@x" false true 0].
Proof.
  exact (proj2 (directory_listing ldap_manager eq_refl 0 1 sample_world)).
Defined.

Lemma directory_count_matches_listing_witness :
  fst (ccnet_user_manager_count_emailusers ldap_manager sample_world)
  = Z.of_nat (List.length
                (fst (ccnet_user_manager_get_emailusers ldap_manager 0 1
                        sample_world))).
Proof.
  exact (proj1 (directory_count_matches_listing ldap_manager eq_refl 0 1
                  sample_world)).
Defined.

(** The anonymous sample configuration loads with the default login
    attribute. *)
Lemma try_load_ldap_settings_loaded_witness :
  fst (try_load_ldap_settings sample_config new_settings) = 0
  /\ set_use_ldap (snd (try_load_ldap_settings sample_config new_settings)) = true
  /\ set_login_attr (snd (try_load_ldap_settings sample_config new_settings))
     = Some "mail".
Proof.
  pose proof (try_load_ldap_settings_loaded sample_config new_settings eq_refl)
    as H.
  cbv zeta in H.
  change (sample_config "LDAP" "HOST") with (Some "ldap://directory") in H.
  destruct H as (Huse & _ & _ & _ & _ & Hattr).
  repeat apply conj; [reflexivity|exact Huse|exact Hattr].
Defined.
